(** * flySleepML: the database creator [create_database.py]

    A shallow embedding of [parse_details], [parse_monitor_file] and [main]
    of [src/Python/src/create_database.py], together with the part of pandas
    those functions rely on ([read_csv], [astype], [str.replace],
    [to_datetime], [groupby], [sort_values], [merge]).

    Conventions of the embedding.
    - A text file is given already split into lines and tab-separated
      fields ([list (list string)]); quoting and line splitting are not
      modelled, blank lines are already removed, and a character is a code
      point below 256.
    - [read_csv] is the C parser with its defaults on a 64-bit Linux
      build: a column is converted as a whole (a file of one chunk), an
      integer is an int64 or, in a column of large integers, a uint64, and
      a float64 is computed in binary64 arithmetic by the parser's own
      [precise_xstrtod], operation by operation.
    - A cell of a DataFrame is a [cell]; a finite float64 is represented by
      the rational number it is equal to, the two zeros by 0.
    - A Python exception is a value of [exn]; a computation that may raise
      is a [result].
    - A pandas [Timestamp] is the number of seconds since 1970-01-01
      (the logs have second precision). *)

From Stdlib Require Import ZArith List String Ascii Bool Lia QArith.
From Stdlib Require Import Permutation Sorted DecimalString SpecFloat.
From Stdlib Require DecimalPos DecimalZ.
Import ListNotations.

Local Open Scope string_scope.
Local Open Scope list_scope.
Local Open Scope Z_scope.

(** ** Exceptions and the error monad *)

Inductive exn : Type :=
| FileNotFoundError
| EmptyDataError
| ParserError
| KeyError
| ValueError
| TypeError
| AttributeError
| OverflowError.

Inductive result (A : Type) : Type :=
| Ok (a : A)
| Raise (e : exn).

Arguments Ok {A} a.
Arguments Raise {A} e.

Definition bind {A B : Type} (m : result A) (k : A -> result B) : result B :=
  match m with
  | Ok a => k a
  | Raise e => Raise e
  end.

Notation "x <- m ;; k" := (bind m (fun x => k))
  (at level 61, m at next level, right associativity).

Definition aborts {A : Type} (m : result A) : Prop := exists e, m = Raise e.

(** [mapM f l]: apply [f] to the elements of [l] from left to right and stop
    at the first exception. *)
Fixpoint mapM {A B : Type} (f : A -> result B) (l : list A) : result (list B) :=
  match l with
  | [] => Ok []
  | x :: xs => y <- f x ;; ys <- mapM f xs ;; Ok (y :: ys)
  end.

(** ** Characters and integer literals *)

Definition ascii_code (c : ascii) : Z := Z.of_nat (nat_of_ascii c).

Definition isdigit (c : ascii) : bool :=
  (48 <=? ascii_code c) && (ascii_code c <=? 57).

Definition digit_value (c : ascii) : Z := ascii_code c - 48.

(** [isspace_ascii] of pandas' tokenizer, which is also [Py_ISSPACE]:
    space, and the controls 9..13. *)
Definition isspace_ascii (c : ascii) : bool :=
  (ascii_code c =? 32) || ((9 <=? ascii_code c) && (ascii_code c <=? 13)).

(** [Py_UNICODE_ISSPACE], the blanks of [str.isspace] and of [\s] in a
    regular expression: [isspace_ascii], the separators 28..31 and, above
    127, the next-line control 133 and the no-break space 160. *)
Definition py_isspace (c : ascii) : bool :=
  isspace_ascii c || ((28 <=? ascii_code c) && (ascii_code c <=? 31))
  || (ascii_code c =? 133) || (ascii_code c =? 160).

(** The blanks the builtin [int] skips around a number: [Py_ISSPACE], and
    the blanks above 127, which it replaces by a space beforehand.  The
    separators 28..31 are not among them. *)
Definition int_isspace (c : ascii) : bool :=
  isspace_ascii c || (ascii_code c =? 133) || (ascii_code c =? 160).

Definition chars (s : string) : list ascii := list_ascii_of_string s.
Definition text (l : list ascii) : string := string_of_list_ascii l.

Fixpoint drop_while (p : ascii -> bool) (l : list ascii) : list ascii :=
  match l with
  | [] => []
  | c :: r => if p c then drop_while p r else l
  end.

(** Leading decimal digits of [l], accumulated into [acc]: the value, the
    number of digits read and the rest. *)
Fixpoint read_digits (l : list ascii) (acc : Z) (n : Z) : Z * Z * list ascii :=
  match l with
  | c :: r => if isdigit c then read_digits r (10 * acc + digit_value c) (n + 1)
              else (acc, n, l)
  | [] => (acc, n, [])
  end.

Definition read_sign (l : list ascii) : bool * list ascii :=
  match l with
  | "-"%char :: r => (true, r)
  | "+"%char :: r => (false, r)
  | _ => (false, l)
  end.

Definition INT64_MIN : Z := - 2 ^ 63.
Definition INT64_MAX : Z := 2 ^ 63 - 1.
Definition in_int64 (z : Z) : bool := (INT64_MIN <=? z) && (z <=? INT64_MAX).

Definition UINT64_MAX : Z := 2 ^ 64 - 1.

(** The outcome of the tokenizer on a field: the number, or one of its
    error codes ([ERROR_NO_DIGITS] and [ERROR_INVALID_CHARS] are not told
    apart by the callers). *)
Inductive parsed : Type :=
| Number (z : Z)
| ERROR_OVERFLOW
| ERROR_INVALID.

(** [str_to_int64] of pandas' tokenizer: optional blanks, optional sign, at
    least one digit, optional blanks, end of field.  The overflow is found
    while the digits are read, before the rest of the field is looked
    at. *)
Definition str_to_int64 (s : string) : parsed :=
  let '(neg, l) := read_sign (drop_while isspace_ascii (chars s)) in
  let '(v, n, l) := read_digits l 0 0 in
  if n =? 0 then ERROR_INVALID else
  let z := if neg then - v else v in
  if negb (in_int64 z) then ERROR_OVERFLOW else
  match drop_while isspace_ascii l with
  | [] => Number z
  | _ => ERROR_INVALID
  end.

(** The [uint_state] of the tokenizer: a minus sign, a number above
    INT64_MAX and a missing value have been seen. *)
Record uint_state : Type := mkState {
  seen_sint : bool;
  seen_uint : bool;
  seen_null : bool
}.

(** [str_to_uint64] of pandas' tokenizer: a field that starts with a minus
    sign is noted and not read any further. *)
Definition str_to_uint64 (state : uint_state) (s : string) : uint_state * parsed :=
  match drop_while isspace_ascii (chars s) with
  | "-"%char :: _ => (mkState true (seen_uint state) (seen_null state), Number 0)
  | l0 =>
      let l := match l0 with "+"%char :: r => r | _ => l0 end in
      let '(v, n, l) := read_digits l 0 0 in
      if n =? 0 then (state, ERROR_INVALID) else
      if UINT64_MAX <? v then (state, ERROR_OVERFLOW) else
      match drop_while isspace_ascii l with
      | [] => (if INT64_MAX <? v
               then mkState (seen_sint state) true (seen_null state)
               else state,
               Number v)
      | _ => (state, ERROR_INVALID)
      end
  end.

(** [uint64_conflict]: no dtype holds a number above INT64_MAX together
    with a negative number or a missing value. *)
Definition uint64_conflict (state : uint_state) : bool :=
  seen_uint state && (seen_sint state || seen_null state).

(** The builtin [int(s)] on a [str]: blanks stripped on both sides, optional
    sign, decimal digits with single underscores between digits. *)
Fixpoint py_int_digits (l : list ascii) (acc : Z) (after_digit : bool) : option Z :=
  match l with
  | [] => if after_digit then Some acc else None
  | c :: r =>
      if isdigit c then py_int_digits r (10 * acc + digit_value c) true
      else if (ascii_code c =? 95) && after_digit then py_int_digits r acc false
      else None
  end.

Definition py_strip (l : list ascii) : list ascii :=
  rev (drop_while int_isspace (rev (drop_while int_isspace l))).

Definition int_of_str (s : string) : option Z :=
  let '(neg, l) := read_sign (py_strip (chars s)) in
  match py_int_digits l 0 false with
  | Some v => Some (if neg then - v else v)
  | None => None
  end.

(** [str(z)] for an [int]. *)
Definition str_of_int (z : Z) : string := NilZero.string_of_int (Z.to_int z).

(** The format specification [:02d]: sign-aware zero padding to width 2.
    A negative number already fills two characters, so only 0..9 are
    padded. *)
Definition format_02d (z : Z) : string :=
  let s := str_of_int z in
  if (String.length s <? 2)%nat then String.append "0" s else s.

(** ** Cells and columns of a DataFrame *)

Inductive cell : Type :=
| CInt (z : Z)              (* an int64, or a uint64 in a column of dtype uint64 *)
| CFloat (q : Q)            (* a finite float64 *)
| CInf (positive : bool)    (* inf, -inf *)
| CNaN                      (* NaN: a missing value *)
| CBool (b : bool)
| CStr (s : string).

Inductive dtype : Type := Int64 | UInt64 | Float64 | Bool | Object.

Definition isna (c : cell) : bool :=
  match c with CNaN => true | _ => false end.

(** The strings [read_csv] takes for a missing value (pandas'
    [STR_NA_VALUES], in force because [na_values], [keep_default_na] and
    [na_filter] are left at their defaults). *)
Definition STR_NA_VALUES : list string :=
  [ "-1.#IND"; "1.#QNAN"; "1.#IND"; "-1.#QNAN"; "#N/A N/A"; "#N/A"; "N/A";
    "n/a"; "NA"; "<NA>"; "#NA"; "NULL"; "null"; "NaN"; "-NaN"; "nan"; "-nan";
    "None"; "" ].

Definition is_na_token (s : string) : bool := existsb (String.eqb s) STR_NA_VALUES.

Definition lower (c : ascii) : ascii :=
  if (65 <=? ascii_code c) && (ascii_code c <=? 90)
  then ascii_of_nat (nat_of_ascii c + 32) else c.

Definition lowercase (s : string) : string := text (map lower (chars s)).

Definition is_exponent_char (c : ascii) : bool := (ascii_code (lower c) =? 101).

(** *** float64

    A float64 is a [spec_float] of precision 53 and its operations round
    to the nearest, ties to even. *)
Definition prec : Z := 53.
Definition emax : Z := 1024.

(** The float64 nearest to an integer: the cast of an integer to
    [double]. *)
Definition float_of_Z (z : Z) : spec_float := binary_normalize prec emax z 0 false.

Definition float_mul : spec_float -> spec_float -> spec_float := SFmul prec emax.
Definition float_add : spec_float -> spec_float -> spec_float := SFadd prec emax.
Definition float_div : spec_float -> spec_float -> spec_float := SFdiv prec emax.

Definition is_finite (x : spec_float) : bool :=
  match x with
  | S754_zero _ | S754_finite _ _ _ => true
  | _ => false
  end.

(** The cell that holds a float64. *)
Definition cell_of_float (x : spec_float) : cell :=
  match x with
  | S754_zero _ => CFloat 0
  | S754_infinity s => CInf (negb s)
  | S754_nan => CNaN
  | S754_finite s m x =>
      let n := if s then Z.neg m else Z.pos m in
      CFloat (Qred (if 0 <=? x then inject_Z (n * 2 ^ x)
                    else Qmake n (Z.to_pos (2 ^ (- x)))))
  end.

(** *** [precise_xstrtod]

    The converter of the C parser for a float64 (the default
    [float_precision]). *)

(** The table [e] of the powers of ten from [1.] to [1e308]. *)
Definition e10 (n : Z) : spec_float := float_of_Z (10 ^ n).

Definition max_digits : Z := 17.

(** [number * 10. + digit]: a product and a sum, each of them rounded. *)
Definition push_digit (number : spec_float) (c : ascii) : spec_float :=
  float_add (float_mul number (float_of_Z 10)) (float_of_Z (digit_value c)).

(** The digits before the decimal point: the first [max_digits] of them
    enter [number], leading zeros included, and each later one raises the
    exponent. *)
Fixpoint integer_digits (l : list ascii) (number : spec_float) (num_digits exponent : Z)
    : spec_float * Z * Z * list ascii :=
  match l with
  | c :: r =>
      if isdigit c then
        if num_digits <? max_digits
        then integer_digits r (push_digit number c) (num_digits + 1) exponent
        else integer_digits r number num_digits (exponent + 1)
      else (number, num_digits, exponent, l)
  | [] => (number, num_digits, exponent, [])
  end.

(** The digits after the decimal point: they enter [number] as long as
    fewer than [max_digits] digits were read, the others are skipped. *)
Fixpoint decimal_digits (l : list ascii) (number : spec_float) (num_digits num_decimals : Z)
    : spec_float * Z * Z * list ascii :=
  match l with
  | c :: r =>
      if isdigit c then
        if num_digits <? max_digits
        then decimal_digits r (push_digit number c) (num_digits + 1) (num_decimals + 1)
        else decimal_digits r number num_digits num_decimals
      else (number, num_digits, num_decimals, l)
  | [] => (number, num_digits, num_decimals, [])
  end.

(** Arithmetic on the C type [int], with the wrap-around of the machine. *)
Definition wrap_int32 (z : Z) : Z := (z + 2 ^ 31) mod 2 ^ 32 - 2 ^ 31.

(** The digits of the exponent, at most [max_digits] of them. *)
Fixpoint exponent_digits (l : list ascii) (n num_digits : Z) : Z * Z * list ascii :=
  match l with
  | c :: r =>
      if (num_digits <? max_digits) && isdigit c
      then exponent_digits r (wrap_int32 (n * 10 + digit_value c)) (num_digits + 1)
      else (n, num_digits, l)
  | [] => (n, num_digits, [])
  end.

(** The number scaled by the power of ten; [None] is the error [ERANGE]
    of an exponent above 308. *)
Definition scale (number : spec_float) (exponent : Z) : option spec_float :=
  if 308 <? exponent then None
  else if 0 <? exponent then Some (float_mul number (e10 exponent))
  else if exponent <? -308 then
    if exponent <? -616 then Some (float_of_Z 0)
    else Some (float_div (float_div number (e10 (-308 - exponent))) (e10 308))
  else Some (float_div number (e10 (- exponent))).

(** [precise_xstrtod] with trailing blanks skipped, as [_try_double]
    calls it: [None] when it reports an error (no digit, or a result out
    of range) or does not reach the end of the field.  An exponent mark
    without digits is not consumed, so the field does not end there. *)
Definition precise_xstrtod (s : string) : option spec_float :=
  let '(negative, l) := read_sign (drop_while isspace_ascii (chars s)) in
  let '(number, num_digits, exponent, l) := integer_digits l (float_of_Z 0) 0 0 in
  let '(number, num_digits, exponent, l) :=
    match l with
    | "."%char :: r =>
        let '(number, num_digits, num_decimals, r) := decimal_digits r number num_digits 0 in
        (number, num_digits, exponent - num_decimals, r)
    | _ => (number, num_digits, exponent, l)
    end in
  if num_digits =? 0 then None else
  let number := if negative then SFopp number else number in
  let exponent_part :=
    match l with
    | c :: r =>
        if is_exponent_char c then
          let '(negative, r) := read_sign r in
          let '(n, num_digits, r) := exponent_digits r 0 0 in
          if num_digits =? 0 then None
          else Some (wrap_int32 (if negative then exponent - n else exponent + n), r)
        else Some (exponent, l)
    | [] => Some (exponent, [])
    end in
  match exponent_part with
  | Some (exponent, l) =>
      match scale number exponent, drop_while isspace_ascii l with
      | Some number, [] => if is_finite number then Some number else None
      | _, _ => None
      end
  | None => None
  end.

(** A field as a float64: [precise_xstrtod], else one of the spellings of
    infinity. *)
Definition to_double (s : string) : option cell :=
  match precise_xstrtod s with
  | Some x => Some (cell_of_float x)
  | None =>
      let w := lowercase s in
      if existsb (String.eqb w) ["inf"; "+inf"; "infinity"; "+infinity"] then Some (CInf true)
      else if existsb (String.eqb w) ["-inf"; "-infinity"] then Some (CInf false)
      else None
  end.

(** [to_boolean] of the tokenizer: "true" and "false" in any case. *)
Definition to_bool (s : string) : option bool :=
  if String.eqb (lowercase s) "true" then Some true
  else if String.eqb (lowercase s) "false" then Some false
  else None.

Definition is_some {A : Type} (o : option A) : bool :=
  match o with Some _ => true | None => false end.

(** [_try_int64]: the fields are converted in order, missing values
    apart, and the first error ends the attempt. *)
Fixpoint try_int64 (tokens : list string) : parsed :=
  match tokens with
  | [] => Number 0
  | t :: r =>
      if is_na_token t then try_int64 r
      else match str_to_int64 t with
           | Number _ => try_int64 r
           | error => error
           end
  end.

(** [_try_uint64], likewise, with the state of what was seen. *)
Fixpoint try_uint64 (state : uint_state) (tokens : list string) : uint_state * parsed :=
  match tokens with
  | [] => (state, Number 0)
  | t :: r =>
      if is_na_token t
      then try_uint64 (mkState (seen_sint state) (seen_uint state) true) r
      else let '(state, p) := str_to_uint64 state t in
           match p with
           | Number _ => try_uint64 state r
           | error => (state, error)
           end
  end.

(** What the C parser makes of a column of fields.  It tries int64,
    float64 and bool in this order, missing values apart, and falls back
    to strings; integers with missing values are upcast to float64 and
    booleans with missing values to object.  When a field overflows
    int64 it tries uint64 first: a field that overflows uint64 as well,
    or a negative number, sends the column to the strings; a number above
    INT64_MAX beside a negative number or a missing value leaves the
    column as it is, the fields of missing values included ([KRaw]). *)
Inductive kind : Type := KInt | KIntNA | KUInt | KFloat | KBool | KBoolNA | KStr | KRaw.

Definition infer (tokens : list string) : kind :=
  match tokens with
  | [] => KStr
  | _ =>
      let all p := forallb (fun t => is_na_token t || p t) tokens in
      let some_na := existsb is_na_token tokens in
      let others :=
        if all (fun t => is_some (to_double t)) then KFloat
        else if all (fun t => is_some (to_bool t)) then (if some_na then KBoolNA else KBool)
        else KStr in
      match try_int64 tokens with
      | Number _ => if some_na then KIntNA else KInt
      | ERROR_OVERFLOW =>
          match try_uint64 (mkState false false false) tokens with
          | (state, Number _) =>
              if uint64_conflict state then KRaw
              else if seen_sint state then KStr
              else KUInt
          | (_, ERROR_OVERFLOW) => KStr
          | (_, ERROR_INVALID) => others
          end
      | ERROR_INVALID => others
      end
  end.

Definition dtype_of (k : kind) : dtype :=
  match k with
  | KInt => Int64
  | KUInt => UInt64
  | KIntNA | KFloat => Float64
  | KBool => Bool
  | KBoolNA | KStr | KRaw => Object
  end.

(** The cell of a field in a column of kind [k].  In an int64 column with
    missing values the number INT64_MIN is the mark of a missing value
    itself. *)
Definition convert (k : kind) (t : string) : cell :=
  match k with
  | KRaw => CStr t
  | _ =>
      if is_na_token t then CNaN else
      match k with
      | KInt => match str_to_int64 t with Number z => CInt z | _ => CNaN end
      | KIntNA => match str_to_int64 t with
                  | Number z => if z =? INT64_MIN then CNaN else cell_of_float (float_of_Z z)
                  | _ => CNaN
                  end
      | KUInt => match str_to_uint64 (mkState false false false) t with
                 | (_, Number z) => CInt z
                 | _ => CNaN
                 end
      | KFloat => match to_double t with Some c => c | None => CNaN end
      | KBool | KBoolNA => match to_bool t with Some b => CBool b | None => CNaN end
      | KStr | KRaw => CStr t
      end
  end.

(** ** DataFrames, row-major *)

Record DataFrame : Type := mkDataFrame {
  columns : list string;
  dtypes : list dtype;
  data : list (list cell)
}.

Definition field (j : nat) (row : list string) : string := nth j row "".

(** The fields of [rows], all of width [width], as a frame whose columns
    are named [names]; the first [leading] fields of a row are index
    columns and are not columns of the frame. *)
Definition make_frame (names : list string) (leading width : nat)
    (rows : list (list string)) : DataFrame :=
  let kinds := map (fun j => infer (map (field j) rows)) (seq leading (width - leading)) in
  {| columns := names;
     dtypes := map dtype_of kinds;
     data := map (fun row => map (fun '(j, k) => convert k (field j row))
                                 (combine (seq leading (width - leading)) kinds))
                 rows |}.

(** A line with fewer fields than expected is filled with empty fields, a
    line with more is an error. *)
Definition fill (width : nat) (row : list string) : result (list string) :=
  if (List.length row <=? width)%nat
  then Ok (row ++ repeat "" (width - List.length row))
  else Raise ParserError.

(** A path names a file, given by its lines of fields, or nothing. *)
Definition file : Type := option (list (list string)).

Definition open (f : file) : result (list (list string)) :=
  match f with
  | Some lines => Ok lines
  | None => Raise FileNotFoundError
  end.

Definition default_names (width : nat) : list string :=
  map (fun j => str_of_int (Z.of_nat j)) (seq 0 width).

(** [pd.read_csv(filepath, sep='\t', header=None)] on the lines of the file
    (blank lines removed): the first line sets the width. *)
Definition read_csv_noheader (f : file) : result DataFrame :=
  lines <- open f ;;
  match lines with
  | [] => Raise EmptyDataError
  | first :: _ =>
      let width := List.length first in
      rows <- mapM (fill width) lines ;;
      Ok (make_frame (default_names width) 0 width rows)
  end.

(** [pd.read_csv(filepath, sep='\t')]: the first line names the columns.
    When the first data line has more fields than the header, the extra
    leading fields are the index. *)
Definition read_csv (f : file) : result DataFrame :=
  lines <- open f ;;
  match lines with
  | [] => Raise EmptyDataError
  | header :: body =>
      let width := match body with
                   | [] => List.length header
                   | first :: _ => Nat.max (List.length header) (List.length first)
                   end in
      rows <- mapM (fill width) body ;;
      Ok (make_frame header (width - List.length header) width rows)
  end.

(** [df[name]]: the position of the column, [KeyError] when there is
    none. *)
Fixpoint index_of (name : string) (names : list string) : option nat :=
  match names with
  | [] => None
  | n :: r => if String.eqb n name then Some 0%nat
              else option_map S (index_of name r)
  end.

(** The entry of the column [name] in a line of the frame. *)
Definition entry (df : DataFrame) (line : list cell) (name : string) : cell :=
  match index_of name (columns df) with
  | Some j => nth j line CNaN
  | None => CNaN
  end.

Definition get_column (df : DataFrame) (name : string) : result (dtype * list cell) :=
  match index_of name (columns df) with
  | Some j => Ok (nth j (dtypes df) Object, map (fun row => nth j row CNaN) (data df))
  | None => Raise KeyError
  end.

(** ** Series operations used by [parse_details] *)

(** Truncation toward zero, as a float64 is cast to an integer. *)
Definition trunc (q : Q) : Z := Z.quot (Qnum q) (Z.pos (Qden q)).

(** The cast of a uint64 to int64: the same 64 bits. *)
Definition wrap_int64 (z : Z) : Z := (z + 2 ^ 63) mod 2 ^ 64 - 2 ^ 63.

(** [Series.astype(int)], cell by cell, to int64: an int64 as it is, a
    uint64 with the same bits, a float64 truncated, a string through
    [int(s)]; NaN and the infinities cannot be cast.  The cast of a
    float64 outside int64 gives INT64_MIN, the x86-64 result. *)
Definition astype_int (c : cell) : result Z :=
  match c with
  | CInt z => Ok (wrap_int64 z)
  | CFloat q => Ok (if in_int64 (trunc q) then trunc q else INT64_MIN)
  | CInf _ => Raise ValueError
  | CNaN => Raise ValueError
  | CBool b => Ok (if b then 1 else 0)
  | CStr s => match int_of_str s with
              | Some z => if in_int64 z then Ok z else Raise OverflowError
              | None => Raise ValueError
              end
  end.

Definition is_bool_cell (c : cell) : bool :=
  match c with CBool _ => true | _ => false end.

(** [Series.str]: only for a column of strings. *)
Definition str_accessor (s : dtype * list cell) : result (list cell) :=
  match fst s with
  | Object => if existsb is_bool_cell (snd s) then Raise AttributeError else Ok (snd s)
  | _ => Raise AttributeError
  end.

(** [s.replace('ch', '')]: every occurrence of "ch" is removed, in one
    pass from the left. *)
Fixpoint remove_ch (l : list ascii) : list ascii :=
  match l with
  | "c"%char :: r =>
      match r with
      | "h"%char :: r' => remove_ch r'
      | _ => "c"%char :: remove_ch r
      end
  | c :: r => c :: remove_ch r
  | [] => []
  end.

(** [Series.str.replace('ch', '')]: a missing value stays missing. *)
Definition str_replace_ch (c : cell) : cell :=
  match c with
  | CStr s => CStr (text (remove_ch (chars s)))
  | _ => CNaN
  end.

(** [series != s] for a string [s]: true for every cell that is not that
    string, a missing value included. *)
Definition ne_str (s : string) (c : cell) : bool :=
  match c with
  | CStr t => negb (String.eqb t s)
  | _ => true
  end.

(** ** [parse_details] *)

Record FlyMetadataRecord : Type := mkFly {
  fm_monitor : Z;
  fm_channel : Z;
  fm_fly_id : string;
  fm_genotype : cell;
  fm_sex : cell;
  fm_treatment : cell
}.

(** [f"M{row['monitor']}_Ch{row['channel']:02d}"] *)
Definition fly_id (monitor channel : Z) : string :=
  String.append "M" (String.append (str_of_int monitor)
    (String.append "_Ch" (format_02d channel))).

Definition fly_row (x : Z * Z * cell * cell * cell) : FlyMetadataRecord :=
  let '(monitor, channel, genotype, sex, treatment) := x in
  mkFly monitor channel (fly_id monitor channel) genotype sex treatment.

(** [df.apply(..., axis=1)] over a frame without rows gives a frame, not a
    column, and the assignment to [df['fly_id']] raises. *)
Definition apply_rows {A B : Type} (f : A -> B) (rows : list A) : result (list B) :=
  match rows with
  | [] => Raise ValueError
  | _ => Ok (map f rows)
  end.

(** Lines 52 to 65 of the source: the table before the rows of unused
    channels are removed. *)
Definition details_table (filepath : file) : result (list FlyMetadataRecord) :=
  df <- read_csv filepath ;;
  Monitor <- get_column df "Monitor" ;;
  monitor <- mapM astype_int (snd Monitor) ;;
  Channel <- get_column df "Channel" ;;
  Channel_str <- str_accessor Channel ;;
  channel <- mapM astype_int (map str_replace_ch Channel_str) ;;
  Genotype <- get_column df "Genotype" ;;
  Sex <- get_column df "Sex" ;;
  Treatment <- get_column df "Treatment" ;;
  let genotype := snd Genotype in
  let sex := snd Sex in
  let treatment := snd Treatment in
  apply_rows fly_row
    (combine (combine (combine (combine monitor channel) genotype) sex) treatment).

Definition parse_details (filepath : file) : result (list FlyMetadataRecord) :=
  fly_metadata <- details_table filepath ;;
  Ok (filter (fun r => ne_str "NA" (fm_genotype r)) fly_metadata).

(** ** Timestamps: [pd.to_datetime(..., format='%d %b %y %H:%M:%S')] *)

(** The format is matched as the regular expression [strptime] builds from
    it.  A directive is a parser that returns its matches in the order a
    backtracking matcher tries them. *)
Definition matcher (A : Type) : Type := list ascii -> list (A * list ascii).

Definition then_ {A B : Type} (p : matcher A) (k : A -> matcher B) : matcher B :=
  fun l => flat_map (fun '(a, r) => k a r) (p l).

Definition yield {A : Type} (a : A) : matcher A := fun l => [(a, l)].

Definition orelse {A : Type} (p q : matcher A) : matcher A := fun l => p l ++ q l.

(** One digit between [lo] and [hi]. *)
Definition digit (lo hi : Z) : matcher Z :=
  fun l => match l with
           | c :: r => if isdigit c && (lo <=? digit_value c) && (digit_value c <=? hi)
                       then [(digit_value c, r)] else []
           | [] => []
           end.

Definition digits2 (lo1 hi1 lo2 hi2 : Z) : matcher Z :=
  then_ (digit lo1 hi1) (fun a => then_ (digit lo2 hi2) (fun b => yield (10 * a + b))).

Definition literal (c : ascii) : matcher unit :=
  fun l => match l with
           | d :: r => if Ascii.eqb c d then [(tt, r)] else []
           | [] => []
           end.

(** A blank of the format stands for one or more blanks, the longest run
    first. *)
Fixpoint blanks (l : list ascii) : list (unit * list ascii) :=
  match l with
  | c :: r => if py_isspace c then blanks r ++ [(tt, r)] else []
  | [] => []
  end.

(** [%d]: 3[0-1] | [1-2]\d | 0[1-9] | [1-9] | blank [1-9] *)
Definition directive_d : matcher Z :=
  orelse (digits2 3 3 0 1) (orelse (digits2 1 2 0 9) (orelse (digits2 0 0 1 9)
    (orelse (digit 1 9) (then_ (literal " ") (fun _ => digit 1 9))))).

Definition month_names : list string :=
  ["jan"; "feb"; "mar"; "apr"; "may"; "jun"; "jul"; "aug"; "sep"; "oct"; "nov"; "dec"].

Fixpoint month_number (name : string) (names : list string) (n : Z) : option Z :=
  match names with
  | [] => None
  | m :: r => if String.eqb m name then Some n else month_number name r (n + 1)
  end.

(** [%b]: an abbreviated month name, in any case. *)
Definition directive_b : matcher Z :=
  fun l => match l with
           | a :: b :: c :: r =>
               match month_number (text (map lower [a; b; c])) month_names 1 with
               | Some m => [(m, r)]
               | None => []
               end
           | _ => []
           end.

(** [%y]: \d\d *)
Definition directive_y : matcher Z := digits2 0 9 0 9.

(** [%H]: 2[0-3] | [0-1]\d | \d *)
Definition directive_H : matcher Z :=
  orelse (digits2 2 2 0 3) (orelse (digits2 0 1 0 9) (digit 0 9)).

(** [%M]: [0-5]\d | \d *)
Definition directive_M : matcher Z := orelse (digits2 0 5 0 9) (digit 0 9).

(** [%S]: 6[0-1] | [0-5]\d | \d *)
Definition directive_S : matcher Z :=
  orelse (digits2 6 6 0 1) (orelse (digits2 0 5 0 9) (digit 0 9)).

Record fields : Type := mkFields {
  f_day : Z; f_month : Z; f_y : Z; f_hour : Z; f_minute : Z; f_second : Z
}.

(** '%d %b %y %H:%M:%S' *)
Definition format_regex : matcher fields :=
  then_ directive_d (fun d => then_ blanks (fun _ =>
  then_ directive_b (fun b => then_ blanks (fun _ =>
  then_ directive_y (fun y => then_ blanks (fun _ =>
  then_ directive_H (fun H => then_ (literal ":") (fun _ =>
  then_ directive_M (fun M => then_ (literal ":") (fun _ =>
  then_ directive_S (fun S => yield (mkFields d b y H M S)))))))))))).

Definition is_leap (y : Z) : bool :=
  (y mod 4 =? 0) && (negb (y mod 100 =? 0) || (y mod 400 =? 0)).

Definition days_in_month (y m : Z) : Z :=
  if m =? 2 then (if is_leap y then 29 else 28)
  else if (m =? 4) || (m =? 6) || (m =? 9) || (m =? 11) then 30
  else 31.

(** [date(y, m, d).toordinal()]: day 1 is 0001-01-01. *)
Definition days_before_year (y : Z) : Z :=
  365 * (y - 1) + (y - 1) / 4 - (y - 1) / 100 + (y - 1) / 400.

Definition days_before_month (y m : Z) : Z :=
  fold_right Z.add 0 (map (days_in_month y) (map Z.of_nat (seq 1 (Z.to_nat (m - 1))))).

Definition toordinal (y m d : Z) : Z := days_before_year y + days_before_month y m + d.

(** Seconds since 1970-01-01T00:00:00 ([date(1970,1,1).toordinal()] is
    719163). *)
Definition timestamp (y m d H M S : Z) : Z :=
  (toordinal y m d - 719163) * 86400 + H * 3600 + M * 60 + S.

(** The match the regular expression finds first must cover the whole
    string; a two-digit year up to 68 is in 2000..2068, from 69 on in
    1969..1999; the day must exist in the month. *)
Definition strptime (s : string) : result Z :=
  match format_regex (chars s) with
  | (f, []) :: _ =>
      let year := if f_y f <=? 68 then f_y f + 2000 else f_y f + 1900 in
      if f_day f <=? days_in_month year (f_month f)
      then Ok (timestamp year (f_month f) (f_day f) (f_hour f) (f_minute f) (f_second f))
      else Raise ValueError
  | _ => Raise ValueError
  end.

(** [pd.to_datetime] on one entry: a missing value gives NaT ([None]). *)
Definition to_datetime (c : cell) : result (option Z) :=
  match c with
  | CStr s => t <- strptime s ;; Ok (Some t)
  | CNaN => Ok None
  | _ => Raise TypeError
  end.

(** ** Stable sorting

    [groupby] orders its groups by key and [sort_values] on several columns
    is a stable sort; both are modelled by insertion sort, which keeps
    equal elements in their order. *)
Section Sorting.
Context {A : Type}.
Variable leb : A -> A -> bool.

Fixpoint insert (x : A) (l : list A) : list A :=
  match l with
  | [] => [x]
  | y :: r => if leb x y then x :: l else y :: insert x r
  end.

Fixpoint sort (l : list A) : list A :=
  match l with
  | [] => []
  | x :: r => insert x (sort r)
  end.
End Sorting.

(** ** Ordering and equality of cells (group keys) *)

Definition compare_bool (a b : bool) : comparison :=
  match a, b with
  | false, true => Lt
  | true, false => Gt
  | _, _ => Eq
  end.

(** Numbers are compared by value, booleans with [False < True], strings
    by code points.  Cells of different sorts do not meet in one column;
    they are ordered by sort. *)
Definition cell_compare (a b : cell) : comparison :=
  match a, b with
  | CInt x, CInt y => Z.compare x y
  | CInt x, CFloat q => Qcompare (inject_Z x) q
  | CFloat p, CInt y => Qcompare p (inject_Z y)
  | CFloat p, CFloat q => Qcompare p q
  | CInf x, CInf y => compare_bool x y
  | CInf x, (CInt _ | CFloat _) => if x then Gt else Lt
  | (CInt _ | CFloat _), CInf y => if y then Lt else Gt
  | (CInt _ | CFloat _ | CInf _), _ => Lt
  | _, (CInt _ | CFloat _ | CInf _) => Gt
  | CBool x, CBool y => compare_bool x y
  | CBool _, _ => Lt
  | _, CBool _ => Gt
  | CStr x, CStr y => String.compare x y
  | CStr _, CNaN => Lt
  | CNaN, CStr _ => Gt
  | CNaN, CNaN => Eq
  end.

Definition cell_eqb (a b : cell) : bool :=
  match cell_compare a b with Eq => true | _ => false end.

Definition key : Type := cell * cell * cell.

Definition key_compare (a b : key) : comparison :=
  let '(a1, a2, a3) := a in
  let '(b1, b2, b3) := b in
  match cell_compare a1 b1 with
  | Eq => match cell_compare a2 b2 with
          | Eq => cell_compare a3 b3
          | c => c
          end
  | c => c
  end.

Definition key_eqb (a b : key) : bool :=
  match key_compare a b with Eq => true | _ => false end.

Definition key_leb (a b : key) : bool :=
  match key_compare a b with Gt => false | _ => true end.

(** The distinct keys, each at its first occurrence. *)
Fixpoint unique (keys : list key) : list key :=
  match keys with
  | [] => []
  | k :: r => k :: filter (fun k' => negb (key_eqb k k')) (unique r)
  end.

(** ** [parse_monitor_file] *)

Record TimeSeriesRecord : Type := mkTS {
  ts_datetime : option Z;     (* a Timestamp, or NaT *)
  ts_monitor : Z;
  ts_channel : Z;
  ts_mt : Z;
  ts_ct : Z;
  ts_pn : Z
}.

(** [range(a, b)] *)
Definition range (a b : Z) : list Z :=
  map (fun k => a + Z.of_nat k) (seq 0 (Z.to_nat (b - a))).

(** [f'ch{i}'] *)
Definition channel_name (i : Z) : string := String.append "ch" (str_of_int i).

(** The list [columns] of the source: ten leading names, then
    [ch1] .. [ch32]. *)
Definition monitor_columns : list string :=
  ["id"; "date"; "time"; "port"; "unknown1"; "unknown2"; "unknown3";
   "movement_type"; "zero1"; "zero2"]
  ++ map channel_name (range 1 33).

(** [df.columns = names]: the lengths must agree. *)
Definition set_columns (df : DataFrame) (names : list string) : result DataFrame :=
  if (List.length (columns df) =? List.length names)%nat
  then Ok {| columns := names; dtypes := dtypes df; data := data df |}
  else Raise ValueError.

(** [series + s] for a string [s]: only a column of dtype object can be
    added to a string; a missing value stays missing. *)
Definition series_add_str (col : dtype * list cell) (s : string) : result (list cell) :=
  match fst col with
  | Object => mapM (fun c => match c with
                             | CStr t => Ok (CStr (String.append t s))
                             | CNaN => Ok CNaN
                             | _ => Raise TypeError
                             end) (snd col)
  | _ => Raise TypeError
  end.

(** [left + right] for a column [left] of dtype object: strings are
    concatenated, a missing value on either side gives a missing value. *)
Definition add_cells (a b : cell) : result cell :=
  match a, b with
  | CNaN, _ => Ok CNaN
  | CStr _, CNaN => Ok CNaN
  | CStr x, CStr y => Ok (CStr (String.append x y))
  | _, _ => Raise TypeError
  end.

Definition series_add (left right : list cell) : result (list cell) :=
  mapM (fun '(a, b) => add_cells a b) (combine left right).

(** [series.isin(values)] *)
Definition isin (values : list string) (c : cell) : bool :=
  match c with
  | CStr s => existsb (String.eqb s) values
  | _ => false
  end.

(** A row of the frame together with its entry of the added column
    [datetime]. *)
Definition row : Type := list cell * option Z.

(** [row[name]] *)
Definition loc (df : DataFrame) (r : row) (name : string) : cell :=
  entry df (fst r) name.

Definition row_key (df : DataFrame) (r : row) : key :=
  (loc df r "id", loc df r "date", loc df r "time").

Definition key_notna (k : key) : bool :=
  let '(a, b, c) := k in negb (isna a) && negb (isna b) && negb (isna c).

(** [rows.groupby(['id', 'date', 'time'])]: rows with a missing key are
    left out, the groups come in the order of their keys, the rows of a
    group in the order of the frame. *)
Definition groupby (df : DataFrame) (rows : list row) : list (key * list row) :=
  let kept := filter (fun r => key_notna (row_key df r)) rows in
  map (fun k => (k, filter (fun r => key_eqb k (row_key df r)) kept))
      (sort key_leb (unique (map (row_key df) kept))).

(** [group[group['movement_type'] == code].iloc[0]
     if code in group['movement_type'].values else None] *)
Definition movement_row (df : DataFrame) (code : string) (group : list row) : option row :=
  find (fun r => isin [code] (loc df r "movement_type")) group.

(** [data[channel_col] if data is not None else 0] *)
Definition channel_value (df : DataFrame) (data : option row) (channel_col : string) : cell :=
  match data with
  | Some r => loc df r channel_col
  | None => CInt 0
  end.

(** [v > 0] *)
Definition gt0 (v : cell) : result bool :=
  match v with
  | CInt z => Ok (0 <? z)
  | CFloat q => Ok (0 <? Qnum q)
  | CInf positive => Ok positive
  | CNaN => Ok false
  | CBool b => Ok b
  | CStr _ => Raise TypeError
  end.

(** [a or b]: [b] is not evaluated when [a] holds. *)
Definition or_ (a b : result bool) : result bool :=
  x <- a ;; if x then Ok true else b.

(** The builtin [int(v)]. *)
Definition py_int (v : cell) : result Z :=
  match v with
  | CInt z => Ok z
  | CFloat q => Ok (trunc q)
  | CInf _ => Raise OverflowError
  | CNaN => Raise ValueError
  | CBool b => Ok (if b then 1 else 0)
  | CStr s => match int_of_str s with
              | Some z => Ok z
              | None => Raise ValueError
              end
  end.

(** The body of the loop over the channels: the records it appends. *)
Definition channel_records (df : DataFrame) (datetime_val : option Z) (monitor_num : Z)
    (mt_data ct_data pn_data : option row) (channel : Z) : result (list TimeSeriesRecord) :=
  let channel_col := channel_name channel in
  let mt_val := channel_value df mt_data channel_col in
  let ct_val := channel_value df ct_data channel_col in
  let pn_val := channel_value df pn_data channel_col in
  active <- or_ (gt0 mt_val) (or_ (gt0 ct_val) (gt0 pn_val)) ;;
  if active then
    mt <- py_int mt_val ;;
    ct <- py_int ct_val ;;
    pn <- py_int pn_val ;;
    Ok [mkTS datetime_val monitor_num channel mt ct pn]
  else Ok [].

(** [group['datetime'].iloc[0]] *)
Definition first_datetime (group : list row) : option Z :=
  match group with
  | r :: _ => snd r
  | [] => None
  end.

(** The body of the loop over the groups. *)
Definition group_records (df : DataFrame) (monitor_num : Z) (group : list row)
    : result (list TimeSeriesRecord) :=
  let datetime_val := first_datetime group in
  let mt_data := movement_row df "MT" group in
  let ct_data := movement_row df "CT" group in
  let pn_data := movement_row df "Pn" group in
  recs <- mapM (channel_records df datetime_val monitor_num mt_data ct_data pn_data)
               (range 1 33) ;;
  Ok (List.concat recs).

Definition movement_types : list string := ["MT"; "CT"; "Pn"].

(** [pd.DataFrame(time_series_list)] has no column when the list is empty,
    and the report of the channels raises. *)
Definition report_channels (l : list TimeSeriesRecord) : result (list TimeSeriesRecord) :=
  match l with
  | [] => Raise KeyError
  | _ => Ok l
  end.

(** Lines 98 to 107 of the source: the frame with its named columns. *)
Definition named_frame (filepath : file) : result DataFrame :=
  df <- read_csv_noheader filepath ;;
  set_columns df monitor_columns.

(** Lines 98 to 114 of the source: the named frame, and the rows of the
    three movement types with their [datetime]. *)
Definition monitor_frame (filepath : file) : result (DataFrame * list row) :=
  df <- named_frame filepath ;;
  date <- get_column df "date" ;;
  date_ <- series_add_str date " " ;;
  time <- get_column df "time" ;;
  date_time <- series_add date_ (snd time) ;;
  datetime <- mapM to_datetime date_time ;;
  let rows := combine (data df) datetime in
  let df_filtered := filter (fun r => isin movement_types (loc df r "movement_type")) rows in
  Ok (df, df_filtered).

Definition parse_monitor_file (filepath : file) (monitor_num : Z)
    : result (list TimeSeriesRecord) :=
  frame <- monitor_frame filepath ;;
  let '(df, df_filtered) := frame in
  time_series_list <- mapM (fun g => group_records df monitor_num (snd g))
                           (groupby df df_filtered) ;;
  report_channels (List.concat time_series_list).

(** ** [main]: combine, sort, save, join *)

(** The sort key (datetime, monitor, channel), a missing datetime last. *)
Definition sort_key (r : TimeSeriesRecord) : list Z :=
  match ts_datetime r with
  | Some t => [0; t; ts_monitor r; ts_channel r]
  | None => [1; 0; ts_monitor r; ts_channel r]
  end.

Fixpoint lex_leb (a b : list Z) : bool :=
  match a, b with
  | x :: a', y :: b' => (x <? y) || ((x =? y) && lex_leb a' b')
  | _, _ => true
  end.

Definition ts_leb (a b : TimeSeriesRecord) : bool := lex_leb (sort_key a) (sort_key b).

(** [table.sort_values(['datetime', 'monitor', 'channel'])] *)
Definition sort_values (table : list TimeSeriesRecord) : list TimeSeriesRecord :=
  sort ts_leb table.

Definition on_key (t : TimeSeriesRecord) (m : FlyMetadataRecord) : bool :=
  (ts_monitor t =? fm_monitor m) && (ts_channel t =? fm_channel m).

(** [left.merge(right, on=['monitor', 'channel'])]: the inner join. *)
Definition merge (left : list TimeSeriesRecord) (right : list FlyMetadataRecord)
    : list (TimeSeriesRecord * FlyMetadataRecord) :=
  flat_map (fun t => map (pair t) (filter (on_key t) right)) left.

(** The output directory: the two tables, once written. *)
Record outputs : Type := mkOutputs {
  fly_metadata_csv : option (list FlyMetadataRecord);
  time_series_data_csv : option (list TimeSeriesRecord)
}.

(** A step of [main]: it may write to the output directory and may
    raise; what was written before an exception stays written. *)
Definition script (A : Type) : Type := outputs -> outputs * result A.

Definition run {A : Type} (m : result A) : script A := fun out => (out, m).

Definition and_then {A B : Type} (m : script A) (k : A -> script B) : script B :=
  fun out => match m out with
             | (out', Ok a) => k a out'
             | (out', Raise e) => (out', Raise e)
             end.

Notation "x <~ m ;; k" := (and_then m (fun x => k))
  (at level 61, m at next level, right associativity).

Definition save_metadata (table : list FlyMetadataRecord) : script unit :=
  fun out => ({| fly_metadata_csv := Some table;
                 time_series_data_csv := time_series_data_csv out |}, Ok tt).

Definition save_time_series (table : list TimeSeriesRecord) : script unit :=
  fun out => ({| fly_metadata_csv := fly_metadata_csv out;
                 time_series_data_csv := Some table |}, Ok tt).

(** [main] on the three input files; the result is the table [joined] of
    the report. *)
Definition main_script (details monitor5 monitor6 : file)
    : script (list (TimeSeriesRecord * FlyMetadataRecord)) :=
  fly_metadata <~ run (parse_details details) ;;
  _ <~ save_metadata fly_metadata ;;
  monitor5_data <~ run (parse_monitor_file monitor5 5) ;;
  monitor6_data <~ run (parse_monitor_file monitor6 6) ;;
  let time_series_data := monitor5_data ++ monitor6_data in
  let time_series_data := sort_values time_series_data in
  _ <~ save_time_series time_series_data ;;
  let joined := merge time_series_data fly_metadata in
  run (Ok joined).

Definition main (details monitor5 monitor6 : file)
    : outputs * result (list (TimeSeriesRecord * FlyMetadataRecord)) :=
  main_script details monitor5 monitor6 (mkOutputs None None).

(** ** Example inputs *)

(** A line of a monitor log: the ten leading fields, then the channel
    values [chs], filled with zeros up to 32 channels. *)
Definition log_line (id date time code : string) (chs : list string) : list string :=
  [id; date; time; "1"; "0"; "0"; "0"; code; "0"; "0"]
  ++ chs ++ repeat "0" (32 - List.length chs).

Definition details_header : list string :=
  ["Monitor"; "Channel"; "Genotype"; "Sex"; "Treatment"].

(** The metadata of two flies, one per monitor. *)
Definition ex_details : file :=
  Some [ details_header;
         ["5"; "ch1"; "wt"; "M"; "ctl"];
         ["6"; "ch2"; "wt"; "F"; "ctl"] ].

(** The sample of the specification: an MT and a CT line for one instant,
    no Pn line. *)
Definition ex_log5 : file :=
  Some [ log_line "1" "01 Jan 24" "00:00:00" "MT" ["5"; "0"];
         log_line "1" "01 Jan 24" "00:00:00" "CT" ["2"; "0"] ].

(** A log of monitor 6 whose only sample is one minute older. *)
Definition ex_log6 : file :=
  Some [ log_line "7" "31 Dec 23" "23:59:00" "MT" ["0"; "4"] ].

(** ** The order of the persisted table, in words *)

(** [a] does not come after [b] in the order by (datetime, monitor,
    channel). *)
Definition monitor_channel_le (a b : TimeSeriesRecord) : Prop :=
  ts_monitor a < ts_monitor b
  \/ (ts_monitor a = ts_monitor b /\ ts_channel a <= ts_channel b).

Definition key_le (a b : TimeSeriesRecord) : Prop :=
  match ts_datetime a, ts_datetime b with
  | Some ta, Some tb => ta < tb \/ (ta = tb /\ monitor_channel_le a b)
  | Some _, None => True
  | None, Some _ => False
  | None, None => monitor_channel_le a b
  end.

(** [a] is at an earlier position of [table] than [b]. *)
Definition before (table : list TimeSeriesRecord) (a b : TimeSeriesRecord) : Prop :=
  exists i j, (i < j)%nat /\ nth_error table i = Some a /\ nth_error table j = Some b.

(** ** The natural key and the words of the specification *)

Definition fly_key (r : FlyMetadataRecord) : Z * Z := (fm_monitor r, fm_channel r).

Definition ts_key (t : TimeSeriesRecord) : Z * Z := (ts_monitor t, ts_channel t).

(** The record [r] is computed from the line [line] of the frame [df] the
    way [parse_details] does it. *)
Definition derived_from (df : DataFrame) (line : list cell) (r : FlyMetadataRecord) : Prop :=
  astype_int (entry df line "Monitor") = Ok (fm_monitor r)
  /\ (exists s, entry df line "Channel" = CStr s
                /\ int_of_str (text (remove_ch (chars s))) = Some (fm_channel r))
  /\ fm_fly_id r = String.append "M" (String.append (str_of_int (fm_monitor r))
                     (String.append "_Ch" (format_02d (fm_channel r))))
  /\ fm_genotype r = entry df line "Genotype"
  /\ fm_sex r = entry df line "Sex"
  /\ fm_treatment r = entry df line "Treatment".

(** The line is retained: its genotype is not the string "NA". *)
Definition retained (df : DataFrame) (line : list cell) : bool :=
  ne_str "NA" (entry df line "Genotype").

(** The channel as the specification words it: the "ch" prefix is
    stripped and the rest is read as an integer. *)
Definition channel_by_prefix (s : string) : option Z :=
  match chars s with
  | "c"%char :: "h"%char :: rest => int_of_str (text rest)
  | _ => None
  end.

(** A details file in which one channel is written with the prefix
    twice. *)
Definition details_double_prefix : file :=
  Some [ details_header;
         ["5"; "ch1"; "wt"; "M"; "ctl"];
         ["5"; "chch3"; "wt"; "F"; "ctl"] ].

(** A details file with an unused channel, marked by the genotype NA. *)
Definition details_unused_channel : file :=
  Some [ details_header;
         ["5"; "ch1"; "wt"; "M"; "ctl"];
         ["5"; "ch3"; "NA"; "M"; "ctl"] ].

(** A details file that lists the fly of monitor 5, channel 1 twice. *)
Definition details_duplicate : file :=
  Some [ details_header;
         ["5"; "ch1"; "wt"; "M"; "ctl"];
         ["5"; "ch1"; "wt"; "M"; "ctl"];
         ["6"; "ch2"; "wt"; "F"; "ctl"] ].

(** ** The records of a group, in words *)

(** The value of [channel] for the movement type [code] in a group: the
    entry of the first row of that type, 0 when the group has none. *)
Definition group_value (df : DataFrame) (code : string) (group : list row) (channel : Z)
    : cell :=
  channel_value df (movement_row df code group) (channel_name channel).

(** The record [r] is the one the group gives for its channel: the three
    counters are the integers of the group's values, one of which is
    greater than 0. *)
Definition emitted (df : DataFrame) (monitor_num : Z) (group : list row)
    (r : TimeSeriesRecord) : Prop :=
  1 <= ts_channel r <= 32
  /\ ts_monitor r = monitor_num
  /\ ts_datetime r = first_datetime group
  /\ py_int (group_value df "MT" group (ts_channel r)) = Ok (ts_mt r)
  /\ py_int (group_value df "CT" group (ts_channel r)) = Ok (ts_ct r)
  /\ py_int (group_value df "Pn" group (ts_channel r)) = Ok (ts_pn r)
  /\ (gt0 (group_value df "MT" group (ts_channel r)) = Ok true
      \/ gt0 (group_value df "CT" group (ts_channel r)) = Ok true
      \/ gt0 (group_value df "Pn" group (ts_channel r)) = Ok true).

(** A float64 strictly between 0 and 1. *)
Definition fraction (v : cell) : Prop :=
  exists q, v = CFloat q /\ (0 < q)%Q /\ (q < 1)%Q.

(** A log whose only sample has the value 0.5 on channel 1. *)
Definition log_half : file :=
  Some [ log_line "1" "01 Jan 24" "00:00:00" "MT" ["0.5"; "0"] ].

(** A log with two MT lines for the same instant. *)
Definition log_repeated : file :=
  Some [ log_line "1" "01 Jan 24" "00:00:00" "MT" ["5"; "0"];
         log_line "1" "01 Jan 24" "00:00:00" "CT" ["2"; "0"];
         log_line "1" "01 Jan 24" "00:00:00" "MT" ["9"; "7"] ].

(** ** Malformed input, in words *)

(** A log whose lines have 41 fields: nine leading fields and 32 channel
    values. *)
Definition log_41_columns : file :=
  Some [ ["1"; "01 Jan 24"; "00:00:00"; "1"; "0"; "0"; "0"; "MT"; "0"]
         ++ ["5"; "0"] ++ repeat "0" 30 ].

(** A log whose second line stops after its third field. *)
Definition log_short_line : file :=
  Some [ log_line "1" "01 Jan 24" "00:00:00" "MT" ["5"; "0"];
         ["2"; "01 Jan 24"; "00:01:00"] ].

(** The channel number of a Channel entry, when it has one. *)
Definition channel_number (c : cell) : option Z :=
  match c with
  | CStr s => int_of_str (text (remove_ch (chars s)))
  | _ => None
  end.

(** The details file lacks a required column, or one of its lines has a
    Channel entry without a channel number: an entry that is not a string,
    or a string that is not an integer once every "ch" is removed. *)
Inductive malformed_details (details : file) : Prop :=
| missing_column (df : DataFrame) (name : string) :
    read_csv details = Ok df ->
    In name details_header ->
    index_of name (columns df) = None ->
    malformed_details details
| no_channel_number (df : DataFrame) (line : list cell) :
    read_csv details = Ok df ->
    In line (data df) ->
    channel_number (entry df line "Channel") = None ->
    malformed_details details.

(** A line of the log has a date and a time that do not match the format,
    the date column is not a column of strings, or a row used for a group
    has a string as a channel value. *)
Inductive malformed_log (filepath : file) : Prop :=
| unparseable_datetime (df : DataFrame) (line : list cell) (d t : string) :
    named_frame filepath = Ok df ->
    In line (data df) ->
    entry df line "date" = CStr d ->
    entry df line "time" = CStr t ->
    aborts (strptime (String.append (String.append d " ") t)) ->
    malformed_log filepath
| date_not_strings (df : DataFrame) (date : dtype * list cell) :
    named_frame filepath = Ok df ->
    get_column df "date" = Ok date ->
    fst date <> Object ->
    malformed_log filepath
| non_numeric_channel_value (df : DataFrame) (rows : list row) (k : key)
    (group : list row) (code : string) (r : row) (channel : Z) (s : string) :
    monitor_frame filepath = Ok (df, rows) ->
    In (k, group) (groupby df rows) ->
    In code movement_types ->
    movement_row df code group = Some r ->
    1 <= channel <= 32 ->
    loc df r (channel_name channel) = CStr s ->
    malformed_log filepath.

(** A details file with a Channel entry that has no number. *)
Definition details_no_number : file :=
  Some [ details_header;
         ["5"; "ch1"; "wt"; "M"; "ctl"];
         ["5"; "ch"; "wt"; "F"; "ctl"] ].

(** A details file with a Channel entry that has no prefix. *)
Definition details_no_prefix : file :=
  Some [ details_header;
         ["5"; "ch1"; "wt"; "M"; "ctl"];
         ["5"; "3"; "wt"; "F"; "ctl"] ].

(** A log whose date is not a date. *)
Definition log_bad_date : file :=
  Some [ log_line "1" "01 Foo 24" "00:00:00" "MT" ["5"; "0"] ].

(** A log whose second line has no date. *)
Definition log_missing_date : file :=
  Some [ log_line "1" "01 Jan 24" "00:00:00" "MT" ["5"; "0"];
         log_line "2" "" "00:01:00" "MT" ["7"; "7"] ].

(** A details file whose Channel entries are all bare numbers. *)
Definition details_bare_numbers : file :=
  Some [ details_header;
         ["5"; "1"; "wt"; "M"; "ctl"];
         ["5"; "3"; "wt"; "F"; "ctl"] ].

(** A log none of whose lines has a date. *)
Definition log_no_dates : file :=
  Some [ log_line "1" "" "00:00:00" "MT" ["5"; "0"];
         log_line "2" "" "00:01:00" "MT" ["7"; "7"] ].

(** A string or a missing value: the entries of a column of strings. *)
Definition textual (c : cell) : Prop := c = CNaN \/ exists s, c = CStr s.

(** The test [v > 0] does not hold of [v]: it is false or it raises. *)
Definition inert (v : cell) : Prop := gt0 v = Ok false \/ aborts (gt0 v).

(** ** Further example inputs *)

(** A log whose only line has a movement type the parser does not use. *)
Definition log_unused_type : file :=
  Some [ log_line "1" "01 Jan 24" "00:00:00" "XX" ["5"; "0"] ].

(** ** Equal keys *)

(** The value of a number, as a rational. *)
Definition number (c : cell) : option Q :=
  match c with
  | CInt z => Some (inject_Z z)
  | CFloat q => Some q
  | _ => None
  end.

(** Two cells are equal as group keys: numbers of the same value, or the
    same infinity, boolean or string, or both missing. *)
Definition same_cell (a b : cell) : Prop :=
  match number a, number b with
  | Some p, Some q => (p == q)%Q
  | None, None =>
      match a, b with
      | CInf x, CInf y => x = y
      | CBool x, CBool y => x = y
      | CStr x, CStr y => x = y
      | CNaN, CNaN => True
      | _, _ => False
      end
  | _, _ => False
  end.

Definition same_key (a b : key) : Prop :=
  let '(a1, a2, a3) := a in
  let '(b1, b2, b3) := b in
  same_cell a1 b1 /\ same_cell a2 b2 /\ same_cell a3 b3.

(** ** The timestamp of a row *)

(** The entry [datetime] of a row agrees with its date and time: the
    timestamp of the two strings, or NaT when one of them is missing. *)
Definition stamped (df : DataFrame) (r : row) : Prop :=
  match loc df r "date" with
  | CStr d =>
      match loc df r "time" with
      | CStr t => exists ts, strptime (String.append (String.append d " ") t) = Ok ts
                             /\ snd r = Some ts
      | CNaN => snd r = None
      | _ => False
      end
  | CNaN => snd r = None
  | _ => False
  end.

(** ** The key of the time-series table *)

Definition primary_key (r : TimeSeriesRecord) : option Z * Z * Z :=
  (ts_datetime r, ts_monitor r, ts_channel r).

(** No two groups of the rows have the same timestamp. *)
Definition distinct_instants (df : DataFrame) (rows : list row) : Prop :=
  NoDup (map (fun g : key * list row => first_datetime (snd g)) (groupby df rows)).

(** ** The report of [main] (lines 208 to 255) *)

(** [series.unique()]: the values in the order of their first
    occurrence. *)
Fixpoint unique_values (l : list Z) : list Z :=
  match l with
  | [] => []
  | x :: r => x :: filter (fun y => negb (y =? x)) (unique_values r)
  end.

(** [series.nunique()] *)
Definition nunique (l : list Z) : nat := List.length (unique_values l).

(** [list(time_series_data['monitor'].unique())] *)
Definition monitors (table : list TimeSeriesRecord) : list Z :=
  unique_values (map ts_monitor table).

(** [time_series_data.groupby('monitor')['channel'].nunique().to_dict()]:
    for each monitor, in increasing order, the number of its channels. *)
Definition channels_per_monitor (table : list TimeSeriesRecord) : list (Z * nat) :=
  map (fun m => (m, nunique (map ts_channel
                               (filter (fun r => ts_monitor r =? m) table))))
      (sort Z.leb (monitors table)).

(** [cell_compare] as a test. *)
Definition cell_leb (a b : cell) : bool :=
  match cell_compare a b with Gt => false | _ => true end.

(** The distinct cells, each at its first occurrence. *)
Fixpoint unique_cells (l : list cell) : list cell :=
  match l with
  | [] => []
  | c :: r => c :: filter (fun c' => negb (cell_eqb c c')) (unique_cells r)
  end.

(** [joined.groupby(column).size()]: for each value of the column, in
    increasing order, the number of joined rows that have it; rows whose
    value is missing are in no group.  (The report prints these counts in
    decreasing order.) *)
Definition group_sizes (column : FlyMetadataRecord -> cell)
    (joined : list (TimeSeriesRecord * FlyMetadataRecord)) : list (cell * nat) :=
  let kept := filter (fun p => negb (isna (column (snd p)))) joined in
  map (fun g => (g, List.length (filter (fun p => cell_eqb g (column (snd p))) kept)))
      (sort cell_leb (unique_cells (map (fun p => column (snd p)) kept))).

(** [joined.groupby('genotype').size()] *)
Definition genotype_counts := group_sizes fm_genotype.

(** [joined.groupby('treatment').size()] *)
Definition treatment_counts := group_sizes fm_treatment.

(** [series.min()] and [series.max()] of a datetime column: NaT is
    skipped, and the result is NaT when nothing is left. *)
Definition pick (choose : Z -> Z -> Z) (x acc : option Z) : option Z :=
  match x, acc with
  | Some a, Some b => Some (choose a b)
  | Some a, None => Some a
  | None, _ => acc
  end.

Definition series_min (l : list (option Z)) : option Z := fold_right (pick Z.min) None l.

Definition series_max (l : list (option Z)) : option Z := fold_right (pick Z.max) None l.

(** The date range of the report:
    [time_series_data['datetime'].min()] and [.max()]. *)
Definition date_range (table : list TimeSeriesRecord) : option Z * option Z :=
  (series_min (map ts_datetime table), series_max (map ts_datetime table)).

(** ** A details file written from a list of flies *)

(** A fly to write down: monitor, channel, genotype, sex, treatment. *)
Definition fly : Type := Z * Z * string * string * string.

Definition fly_monitor (f : fly) : Z := fst (fst (fst (fst f))).
Definition fly_channel (f : fly) : Z := snd (fst (fst (fst f))).
Definition fly_genotype (f : fly) : string := snd (fst (fst f)).
Definition fly_sex (f : fly) : string := snd (fst f).
Definition fly_treatment (f : fly) : string := snd f.

(** The Channel field of a fly. *)
Definition channel_field (channel : Z) : string := String.append "ch" (str_of_int channel).

(** The line of a fly: the monitor as [str(monitor)], the channel as
    "ch" followed by [str(channel)]. *)
Definition details_line (f : fly) : list string :=
  let '(monitor, channel, genotype, sex, treatment) := f in
  [str_of_int monitor; channel_field channel; genotype; sex; treatment].

Definition written_details (flies : list fly) : file :=
  Some (details_header :: map details_line flies).

(** A numeral: digits, after a minus sign or not. *)
Definition numeral (s : string) : bool :=
  negb (String.eqb s "")
  && forallb (fun c => isdigit c || Ascii.eqb c "-") (chars s).

(** The record of a fly; its genotype, sex and treatment are the cells
    of columns of the kinds [kg], [ks] and [kt]. *)
Definition fly_record (kg ks kt : kind) (f : fly) : FlyMetadataRecord :=
  mkFly (fly_monitor f) (fly_channel f) (fly_id (fly_monitor f) (fly_channel f))
        (convert kg (fly_genotype f)) (convert ks (fly_sex f))
        (convert kt (fly_treatment f)).

(** ** The cast to int64, in words *)

(** [n] is the entry [c] as an int64: the integer itself, a uint64 above
    INT64_MAX with the same 64 bits, a float64 truncated toward zero or,
    outside int64, INT64_MIN, a boolean as 0 or 1, a string as the integer it
    spells when that is an int64.  A missing value and an infinity have
    none. *)
Definition integer_value (c : cell) (n : Z) : Prop :=
  match c with
  | CInt z => (- 2 ^ 63 <= z < 2 ^ 63 -> n = z)
              /\ (2 ^ 63 <= z < 2 ^ 64 -> n = z - 2 ^ 64)
  | CFloat q => let t := Z.quot (Qnum q) (Z.pos (Qden q)) in
                (- 2 ^ 63 <= t < 2 ^ 63 -> n = t)
                /\ (t < - 2 ^ 63 \/ 2 ^ 63 <= t -> n = - 2 ^ 63)
  | CBool b => n = (if b then 1 else 0)
  | CStr s => int_of_str s = Some n /\ - 2 ^ 63 <= n < 2 ^ 63
  | CInf _ | CNaN => False
  end.

(** ** The key of a line of the details file *)

(** The (monitor, channel) a line of the frame converts to, when both
    conversions succeed. *)
Definition line_key (df : DataFrame) (line : list cell) : option (Z * Z) :=
  match astype_int (entry df line "Monitor"), channel_number (entry df line "Channel") with
  | Ok monitor, Some channel => Some (monitor, channel)
  | _, _ => None
  end.

(** The (monitor, channel) of a fly to write down. *)
Definition written_key (f : fly) : Z * Z := (fly_monitor f, fly_channel f).

(** A details file that writes channel 3 of monitor 5 in two ways. *)
Definition details_two_spellings : file :=
  Some [ details_header;
         ["5"; "ch3"; "wt"; "M"; "ctl"];
         ["5"; "ch03"; "wt"; "F"; "ctl"] ].

(** ** The records of a sample, in words *)









(** A details file whose monitors are float64: one outside int64, one
    with a fraction. *)
Definition details_float_monitor : file :=
  Some [ details_header;
         ["1e30"; "ch1"; "wt"; "M"; "ctl"];
         ["5.9"; "ch2"; "wt"; "F"; "ctl"] ].

(** A details file whose monitors are uint64. *)
Definition details_uint64_monitor : file :=
  Some [ details_header;
         ["18446744073709551615"; "ch1"; "wt"; "M"; "ctl"];
         ["5"; "ch2"; "wt"; "F"; "ctl"] ].

(** A details file whose Genotype column holds an integer above INT64_MAX
    beside a missing value: the column is left unconverted. *)
Definition details_raw_genotype : file :=
  Some [ details_header;
         ["5"; "ch1"; "9223372036854775808"; "M"; "ctl"];
         ["5"; "ch3"; "NA"; "M"; "ctl"] ].
(* ================================================================= *)
(** * Properties *)

(** ** The error monad *)

Lemma bind_ok {A B : Type} (m : result A) (k : A -> result B) (b : B) :
  bind m k = Ok b -> exists a, m = Ok a /\ k a = Ok b.
Proof.
  destruct m as [a | e]; simpl; intros H; [eauto | discriminate].
Qed.

Lemma bind_raise {A B : Type} (m : result A) (k : A -> result B) :
  aborts m -> aborts (bind m k).
Proof.
  intros [e ->]. exists e. reflexivity.
Qed.

Lemma bind_raise_later {A B : Type} (m : result A) (k : A -> result B) :
  (forall a, m = Ok a -> aborts (k a)) -> aborts (bind m k).
Proof.
  destruct m as [a | e]; simpl; intros H; [auto | exists e; reflexivity].
Qed.


Tactic Notation "inv_bind" hyp(H) "as" ident(x) ident(Hx) :=
  apply bind_ok in H; destruct H as (x & Hx & H).

Lemma mapM_Forall2 {A B : Type} (f : A -> result B) (l : list A) (l' : list B) :
  mapM f l = Ok l' -> Forall2 (fun x y => f x = Ok y) l l'.
Proof.
  revert l'. induction l as [| x xs IH]; simpl; intros l' H.
  - injection H as <-. constructor.
  - inv_bind H as y Hy. inv_bind H as ys Hys. injection H as <-.
    constructor; auto.
Qed.

Lemma mapM_raise {A B : Type} (f : A -> result B) (l : list A) (x : A) :
  In x l -> aborts (f x) -> aborts (mapM f l).
Proof.
  induction l as [| y ys IH]; simpl; [tauto |].
  intros [-> | Hin] Hx.
  - apply bind_raise. exact Hx.
  - apply bind_raise_later. intros b _.
    apply bind_raise. auto.
Qed.


(** ** Insertion sort *)

Section SortingFacts.
Context {A : Type}.
Variable leb : A -> A -> bool.
Hypothesis leb_total : forall a b, leb a b = true \/ leb b a = true.
Hypothesis leb_trans : forall a b c, leb a b = true -> leb b c = true -> leb a c = true.

Let le (a b : A) : Prop := leb a b = true.

Lemma insert_perm (x : A) (l : list A) : Permutation (x :: l) (insert leb x l).
Proof.
  induction l as [| y r IH]; simpl.
  - apply Permutation_refl.
  - destruct (leb x y).
    + apply Permutation_refl.
    + eapply perm_trans; [apply perm_swap |].
      apply perm_skip. exact IH.
Qed.

Lemma sort_perm (l : list A) : Permutation l (sort leb l).
Proof.
  induction l as [| x r IH]; simpl.
  - apply perm_nil.
  - eapply perm_trans; [apply perm_skip, IH | apply insert_perm].
Qed.

Lemma insert_sorted (x : A) (l : list A) :
  StronglySorted le l -> StronglySorted le (insert leb x l).
Proof.
  induction 1 as [| y r Hs IH Hy]; simpl.
  - repeat constructor.
  - destruct (leb x y) eqn:Exy.
    + constructor; [constructor; assumption |].
      constructor; [exact Exy |].
      eapply Forall_impl; [| exact Hy].
      intros z Hz. eapply leb_trans; eassumption.
    + constructor; [exact IH |].
      assert (Hyx : le y x).
      { destruct (leb_total x y) as [H | H]; [congruence | exact H]. }
      eapply Permutation_Forall; [apply insert_perm |].
      constructor; assumption.
Qed.

Lemma sort_sorted (l : list A) : StronglySorted le (sort leb l).
Proof.
  induction l as [| x r IH]; simpl.
  - constructor.
  - apply insert_sorted. exact IH.
Qed.

Lemma sort_of_sorted (l : list A) : StronglySorted le l -> sort leb l = l.
Proof.
  induction 1 as [| x r Hs IH Hx]; simpl.
  - reflexivity.
  - rewrite IH. destruct r as [| y r']; simpl.
    + reflexivity.
    + inversion Hx as [| ? ? Hxy _]; subst.
      unfold le in Hxy. rewrite Hxy. reflexivity.
Qed.

Lemma sort_idempotent (l : list A) : sort leb (sort leb l) = sort leb l.
Proof.
  apply sort_of_sorted, sort_sorted.
Qed.
End SortingFacts.

(** ** The sort key *)

Lemma lex_leb_total (a b : list Z) : lex_leb a b = true \/ lex_leb b a = true.
Proof.
  revert b. induction a as [| x a IH]; intros [| y b]; simpl; auto.
  destruct (Z.ltb_spec x y), (Z.ltb_spec y x), (Z.eqb_spec x y), (Z.eqb_spec y x);
    simpl; auto; lia.
Qed.

Lemma lex_leb_trans (a b c : list Z) :
  List.length a = List.length b -> List.length b = List.length c ->
  lex_leb a b = true -> lex_leb b c = true -> lex_leb a c = true.
Proof.
  revert b c. induction a as [| x a IH]; intros [| y b] [| z c]; simpl;
    try discriminate; auto.
  intros Hab Hbc.
  destruct (Z.ltb_spec x y), (Z.eqb_spec x y), (Z.ltb_spec y z), (Z.eqb_spec y z),
    (Z.ltb_spec x z), (Z.eqb_spec x z); simpl; auto; try lia; try discriminate.
  apply IH; congruence.
Qed.

Lemma sort_key_length (r : TimeSeriesRecord) : List.length (sort_key r) = 4%nat.
Proof.
  unfold sort_key. destruct (ts_datetime r); reflexivity.
Qed.

Lemma ts_leb_total (a b : TimeSeriesRecord) : ts_leb a b = true \/ ts_leb b a = true.
Proof.
  apply lex_leb_total.
Qed.

Lemma ts_leb_trans (a b c : TimeSeriesRecord) :
  ts_leb a b = true -> ts_leb b c = true -> ts_leb a c = true.
Proof.
  apply lex_leb_trans; rewrite !sort_key_length; reflexivity.
Qed.

Lemma ts_leb_key_le (a b : TimeSeriesRecord) : ts_leb a b = true <-> key_le a b.
Proof.
  unfold ts_leb, key_le, monitor_channel_le, sort_key.
  destruct (ts_datetime a) as [ta |], (ts_datetime b) as [tb |]; simpl;
    repeat match goal with
           | |- context [?x <? ?y] => destruct (Z.ltb_spec x y)
           | |- context [?x =? ?y] => destruct (Z.eqb_spec x y)
           end; simpl; split; intros; try discriminate; auto; try lia.
Qed.

Lemma sort_values_sorted (table : list TimeSeriesRecord) :
  StronglySorted key_le (sort_values table).
Proof.
  pose proof (sort_sorted ts_leb ts_leb_total ts_leb_trans table) as H.
  unfold sort_values. induction H as [| x l Hs IH Hx]; constructor; auto.
  eapply Forall_impl; [| exact Hx].
  intros y Hy. apply ts_leb_key_le. exact Hy.
Qed.

Lemma sorted_sort_values (table : list TimeSeriesRecord) :
  StronglySorted key_le table -> sort_values table = table.
Proof.
  intros H. apply sort_of_sorted.
  induction H as [| x l Hs IH Hx]; constructor; auto.
  eapply Forall_impl; [| exact Hx].
  intros y Hy. apply ts_leb_key_le. exact Hy.
Qed.

Lemma sorted_positions {A : Type} (R : A -> A -> Prop) (l : list A) (i j : nat) (a b : A) :
  StronglySorted R l -> (i < j)%nat ->
  nth_error l i = Some a -> nth_error l j = Some b -> R a b.
Proof.
  intros Hs. revert i j. induction Hs as [| x l Hs IH Hx]; intros i j Hij Hi Hj.
  - destruct i; discriminate.
  - destruct j as [| j]; [lia |]. simpl in Hj.
    destruct i as [| i]; simpl in Hi.
    + injection Hi as <-. rewrite Forall_forall in Hx.
      apply Hx. eapply nth_error_In; eassumption.
    + apply (IH i j); auto; lia.
Qed.

(** ** [main], step by step *)

Lemma main_saved_time_series (details monitor5 monitor6 : file) (out : outputs)
    (res : result (list (TimeSeriesRecord * FlyMetadataRecord)))
    (table : list TimeSeriesRecord) :
  main details monitor5 monitor6 = (out, res) ->
  time_series_data_csv out = Some table ->
  exists fly_metadata d5 d6,
    parse_details details = Ok fly_metadata
    /\ parse_monitor_file monitor5 5 = Ok d5
    /\ parse_monitor_file monitor6 6 = Ok d6
    /\ table = sort_values (d5 ++ d6)
    /\ fly_metadata_csv out = Some fly_metadata
    /\ res = Ok (merge table fly_metadata).
Proof.
  unfold main, main_script, and_then, run, save_metadata, save_time_series.
  destruct (parse_details details) as [md | e]; simpl;
    [| intros H; injection H as <- <-; discriminate].
  destruct (parse_monitor_file monitor5 5) as [d5 | e]; simpl;
    [| intros H; injection H as <- <-; discriminate].
  destruct (parse_monitor_file monitor6 6) as [d6 | e]; simpl;
    [| intros H; injection H as <- <-; discriminate].
  intros H Ht. injection H as <- <-. simpl in Ht. injection Ht as <-.
  exists md, d5, d6. simpl. auto 10.
Qed.

(** C3. The time-series table [main] saves is the sorted concatenation of
    the tables of the two monitors: it is sorted non-decreasingly by
    (datetime, monitor, channel), sorting it again changes nothing, and a
    record of monitor 6 that is earlier than a record of monitor 5 comes
    before it. *)
Theorem combined_table_sorted (details monitor5 monitor6 : file) (out : outputs)
    (res : result (list (TimeSeriesRecord * FlyMetadataRecord)))
    (table : list TimeSeriesRecord) :
  main details monitor5 monitor6 = (out, res) ->
  time_series_data_csv out = Some table ->
  (exists d5 d6,
      parse_monitor_file monitor5 5 = Ok d5
      /\ parse_monitor_file monitor6 6 = Ok d6
      /\ table = sort_values (d5 ++ d6)
      /\ Permutation (d5 ++ d6) table)
  /\ StronglySorted key_le table
  /\ sort_values table = table
  /\ (forall r5 r6 t5 t6,
         In r5 table -> In r6 table ->
         ts_monitor r5 = 5 -> ts_monitor r6 = 6 ->
         ts_datetime r5 = Some t5 -> ts_datetime r6 = Some t6 -> t6 < t5 ->
         before table r6 r5 /\ ~ before table r5 r6).
Proof.
  intros Hmain Ht.
  destruct (main_saved_time_series _ _ _ _ _ _ Hmain Ht)
    as (md & d5 & d6 & _ & H5 & H6 & -> & _).
  assert (Hs : StronglySorted key_le (sort_values (d5 ++ d6)))
    by apply sort_values_sorted.
  split; [| split; [| split]].
  - exists d5, d6. repeat split; auto. apply sort_perm.
  - exact Hs.
  - apply sorted_sort_values. exact Hs.
  - intros r5 r6 t5 t6 Hin5 Hin6 Hm5 Hm6 Hd5 Hd6 Hlt.
    assert (Hnot : ~ before (sort_values (d5 ++ d6)) r5 r6).
    { intros (i & j & Hij & Hi & Hj).
      pose proof (sorted_positions _ _ _ _ _ _ Hs Hij Hi Hj) as Hle.
      unfold key_le in Hle. rewrite Hd5, Hd6 in Hle. lia. }
    split; [| exact Hnot].
    apply In_nth_error in Hin5. destruct Hin5 as [i Hi].
    apply In_nth_error in Hin6. destruct Hin6 as [j Hj].
    destruct (Nat.lt_trichotomy j i) as [Hji | [-> | Hij]].
    + exists j, i. auto.
    + rewrite Hi in Hj. injection Hj as ->. lia.
    + exfalso. apply Hnot. exists i, j. auto.
Qed.

Lemma combined_table_sorted_witness :
  exists table,
    time_series_data_csv (fst (main ex_details ex_log5 ex_log6)) = Some table
    /\ StronglySorted key_le table
    /\ sort_values table = table.
Proof.
  destruct (time_series_data_csv (fst (main ex_details ex_log5 ex_log6)))
    as [table |] eqn:Ht; [| vm_compute in Ht; discriminate].
  exists table. split; [reflexivity |].
  destruct (combined_table_sorted ex_details ex_log5 ex_log6 _ _ table
              (surjective_pairing _) Ht) as (_ & Hs & Hid & _).
  split; assumption.
Defined.

(** ** [parse_details], line by line *)

Lemma Forall2_map_left {A B C : Type} (f : A -> B) (R : B -> C -> Prop)
    (l : list A) (l' : list C) :
  Forall2 R (map f l) l' -> Forall2 (fun x y => R (f x) y) l l'.
Proof.
  revert l'. induction l as [| x l IH]; simpl; intros l' H; inversion H; subst;
    constructor; auto.
Qed.

Lemma Forall2_filter {A B : Type} (R : A -> B -> Prop) (p : A -> bool) (q : B -> bool)
    (l : list A) (l' : list B) :
  (forall x y, R x y -> p x = q y) ->
  Forall2 R l l' -> Forall2 R (filter p l) (filter q l').
Proof.
  intros Hpq H. induction H as [| x y l l' Hxy H IH]; simpl.
  - constructor.
  - rewrite (Hpq x y Hxy). destruct (q y); [constructor |]; assumption.
Qed.

Lemma Forall2_In_right {A B : Type} (R : A -> B -> Prop) (l : list A) (l' : list B) (y : B) :
  Forall2 R l l' -> In y l' -> exists x, In x l /\ R x y.
Proof.
  induction 1 as [| x y' l l' Hxy H IH]; simpl; [tauto |].
  intros [<- | Hin].
  - exists x. auto.
  - destruct (IH Hin) as (x' & Hx' & HR). exists x'. auto.
Qed.

Lemma Forall2_In_left {A B : Type} (R : A -> B -> Prop) (l : list A) (l' : list B) (x : A) :
  Forall2 R l l' -> In x l -> exists y, In y l' /\ R x y.
Proof.
  induction 1 as [| x' y l l' Hxy H IH]; simpl; [tauto |].
  intros [<- | Hin].
  - exists y. auto.
  - destruct (IH Hin) as (y' & Hy' & HR). exists y'. auto.
Qed.

Lemma get_column_entries (df : DataFrame) (name : string) (col : dtype * list cell) :
  get_column df name = Ok col ->
  snd col = map (fun line => entry df line name) (data df)
  /\ index_of name (columns df) <> None.
Proof.
  unfold get_column, entry.
  destruct (index_of name (columns df)) as [j |]; [| discriminate].
  intros H. injection H as <-. simpl. split; [reflexivity | discriminate].
Qed.

Lemma get_column_missing (df : DataFrame) (name : string) :
  index_of name (columns df) = None -> get_column df name = Raise KeyError.
Proof.
  unfold get_column. intros ->. reflexivity.
Qed.

Lemma str_accessor_ok (col : dtype * list cell) (l : list cell) :
  str_accessor col = Ok l -> l = snd col.
Proof.
  unfold str_accessor. destruct (fst col); try discriminate.
  destruct (existsb is_bool_cell (snd col)); [discriminate |].
  intros H. injection H as <-. reflexivity.
Qed.

Lemma astype_replace_ok (c : cell) (z : Z) :
  astype_int (str_replace_ch c) = Ok z ->
  exists s, c = CStr s /\ int_of_str (text (remove_ch (chars s))) = Some z.
Proof.
  destruct c as [x | q | b | | b | s]; try discriminate.
  unfold str_replace_ch, astype_int.
  destruct (int_of_str (text (remove_ch (chars s)))) as [v |] eqn:Ev; [| discriminate].
  destruct (in_int64 v); [| discriminate].
  intros H. injection H as <-. exists s. auto.
Qed.

Lemma apply_rows_ok {A B : Type} (f : A -> B) (rows : list A) (l : list B) :
  apply_rows f rows = Ok l -> l = map f rows /\ rows <> [].
Proof.
  destruct rows; simpl; [discriminate |].
  intros H. injection H as <-. split; [reflexivity | discriminate].
Qed.

Lemma zip_lines (df : DataFrame) (lines : list (list cell)) (monitor channel : list Z) :
  Forall2 (fun line z => astype_int (entry df line "Monitor") = Ok z) lines monitor ->
  Forall2 (fun line z => astype_int (str_replace_ch (entry df line "Channel")) = Ok z)
          lines channel ->
  Forall2 (derived_from df) lines
    (map fly_row
       (combine (combine (combine (combine monitor channel)
          (map (fun line => entry df line "Genotype") lines))
          (map (fun line => entry df line "Sex") lines))
          (map (fun line => entry df line "Treatment") lines))).
Proof.
  intros Hm. revert channel.
  induction Hm as [| line m lines monitor Hline Hm IH]; intros channel Hc;
    inversion Hc as [| ? c ? channel' Hcline Hc']; subst; simpl.
  - constructor.
  - constructor; [| apply IH; assumption].
    unfold derived_from. simpl. repeat split; auto.
    apply astype_replace_ok. exact Hcline.
Qed.

Lemma details_table_lines (filepath : file) (table : list FlyMetadataRecord) :
  details_table filepath = Ok table ->
  exists df, read_csv filepath = Ok df /\ Forall2 (derived_from df) (data df) table.
Proof.
  unfold details_table. intros H.
  inv_bind H as df Hdf. exists df. split; [assumption |].
  inv_bind H as Monitor HMonitor.
  inv_bind H as monitor Hmonitor.
  inv_bind H as Channel HChannel.
  inv_bind H as Channel_str HChannel_str.
  inv_bind H as channel Hchannel.
  inv_bind H as Genotype HGenotype.
  inv_bind H as Sex HSex.
  inv_bind H as Treatment HTreatment.
  apply get_column_entries in HMonitor. destruct HMonitor as [HM _].
  apply get_column_entries in HChannel. destruct HChannel as [HC _].
  apply get_column_entries in HGenotype. destruct HGenotype as [HG _].
  apply get_column_entries in HSex. destruct HSex as [HS _].
  apply get_column_entries in HTreatment. destruct HTreatment as [HT _].
  apply str_accessor_ok in HChannel_str. subst Channel_str.
  rewrite HM in Hmonitor. rewrite HC, map_map in Hchannel.
  rewrite HG, HS, HT in H.
  apply mapM_Forall2, Forall2_map_left in Hmonitor.
  apply mapM_Forall2, Forall2_map_left in Hchannel.
  apply apply_rows_ok in H. destruct H as [-> _].
  apply zip_lines; assumption.
Qed.

Lemma parse_details_lines (filepath : file) (out : list FlyMetadataRecord) :
  parse_details filepath = Ok out ->
  exists df table,
    read_csv filepath = Ok df
    /\ details_table filepath = Ok table
    /\ out = filter (fun r => ne_str "NA" (fm_genotype r)) table
    /\ Forall2 (derived_from df) (data df) table
    /\ Forall2 (derived_from df) (filter (retained df) (data df)) out.
Proof.
  unfold parse_details. intros H. inv_bind H as table Htable.
  injection H as <-.
  destruct (details_table_lines _ _ Htable) as (df & Hdf & Hall).
  exists df, table. repeat split; auto.
  apply Forall2_filter; [| exact Hall].
  intros line r (_ & _ & _ & Hg & _). unfold retained. rewrite Hg. reflexivity.
Qed.

Lemma remove_ch_digits (l : list ascii) :
  forallb isdigit l = true -> remove_ch l = l.
Proof.
  induction l as [| c r IH]; simpl; [reflexivity |].
  intros H. apply andb_prop in H. destruct H as [Hc Hr].
  rewrite (IH Hr).
  destruct c as [[] [] [] [] [] [] [] []]; try reflexivity; discriminate Hc.
Qed.

(** C5. The details line Monitor=5, Channel="ch3", Genotype="NA" is not
    excluded: [read_csv] reads the field "NA" as a missing value, which is
    different from the string "NA", so the record is kept with a missing
    genotype. *)
Theorem unused_channel_row_kept :
  is_na_token "NA" = true
  /\ parse_details details_unused_channel
     = Ok [ mkFly 5 1 "M5_Ch01" (CStr "wt") (CStr "M") (CStr "ctl");
            mkFly 5 3 "M5_Ch03" CNaN (CStr "M") (CStr "ctl") ].
Proof.
  split; vm_compute; reflexivity.
Qed.

(** No record of the output has the string "NA" as its genotype. *)
Lemma no_NA_string_genotype (filepath : file) (out : list FlyMetadataRecord) :
  parse_details filepath = Ok out ->
  forall r, In r out -> fm_genotype r <> CStr "NA".
Proof.
  intros H r Hr.
  destruct (parse_details_lines _ _ H) as (_ & table & _ & _ & -> & _).
  apply filter_In in Hr. destruct Hr as [_ Hne].
  intros E. rewrite E in Hne. discriminate Hne.
Qed.

(** ** The key (monitor, channel) *)

Lemma retained_keys_unique (keep : FlyMetadataRecord -> bool)
    (table : list FlyMetadataRecord) :
  NoDup (map fly_key table) -> NoDup (map fly_key (filter keep table)).
Proof.
  intros Hnd. induction table as [| x table IH]; simpl in *; [constructor |].
  inversion Hnd as [| ? ? Hx Htable]; subst.
  destruct (keep x); simpl; [constructor |]; auto.
  intros Hin. apply Hx.
  apply in_map_iff in Hin. destruct Hin as (y & Hy & Hiny).
  apply filter_In in Hiny. apply in_map_iff. exists y. tauto.
Qed.

(** ** The join *)

Lemma on_key_spec (t : TimeSeriesRecord) (m : FlyMetadataRecord) :
  on_key t m = true <-> fly_key m = ts_key t.
Proof.
  unfold on_key, fly_key, ts_key. rewrite andb_true_iff, !Z.eqb_eq.
  split; [intros [-> ->]; reflexivity | intros H; injection H as -> ->; auto].
Qed.

Lemma merge_In (left : list TimeSeriesRecord) (right : list FlyMetadataRecord)
    (t : TimeSeriesRecord) (m : FlyMetadataRecord) :
  In (t, m) (merge left right) <-> In t left /\ In m right /\ fly_key m = ts_key t.
Proof.
  unfold merge. rewrite in_flat_map. split.
  - intros (t' & Ht' & Hin). apply in_map_iff in Hin.
    destruct Hin as (m' & E & Hm'). injection E as -> ->.
    apply filter_In in Hm'. destruct Hm' as [Hm' Hk].
    apply on_key_spec in Hk. auto.
  - intros (Ht & Hm & Hk). exists t. split; [exact Ht |].
    apply in_map. apply filter_In. split; [exact Hm |].
    apply on_key_spec. exact Hk.
Qed.

(** The number of metadata rows that match a time-series row. *)
Lemma merge_length (left : list TimeSeriesRecord) (right : list FlyMetadataRecord) :
  List.length (merge left right)
  = list_sum (map (fun t => List.length (filter (on_key t) right)) left).
Proof.
  unfold merge. induction left as [| t left IH]; simpl; [reflexivity |].
  rewrite length_app, length_map, IH. reflexivity.
Qed.

Lemma no_match (t : TimeSeriesRecord) (right : list FlyMetadataRecord) :
  ~ In (ts_key t) (map fly_key right) -> filter (on_key t) right = [].
Proof.
  induction right as [| m right IH]; simpl; intros H; [reflexivity |].
  destruct (on_key t m) eqn:E.
  - apply on_key_spec in E. tauto.
  - apply IH. tauto.
Qed.

Lemma unique_match (t : TimeSeriesRecord) (right : list FlyMetadataRecord) :
  NoDup (map fly_key right) ->
  (In (ts_key t) (map fly_key right) -> List.length (filter (on_key t) right) = 1%nat)
  /\ (~ In (ts_key t) (map fly_key right) -> List.length (filter (on_key t) right) = 0%nat).
Proof.
  intros Hnd. split.
  - induction right as [| m right IH]; simpl; [tauto |].
    simpl in Hnd. inversion Hnd as [| ? ? Hm Hr]; subst.
    destruct (on_key t m) eqn:E.
    + intros _. apply on_key_spec in E. simpl.
      rewrite no_match; [reflexivity |]. rewrite <- E. exact Hm.
    + intros [Hk | Hin].
      * apply on_key_spec in Hk. congruence.
      * apply IH; assumption.
  - intros H. rewrite no_match; auto.
Qed.

Lemma merge_count (left : list TimeSeriesRecord) (right : list FlyMetadataRecord) :
  NoDup (map fly_key right) ->
  (List.length (merge left right) <= List.length left)%nat
  /\ (List.length (merge left right) = List.length left
      <-> forall t, In t left -> In (ts_key t) (map fly_key right)).
Proof.
  intros Hnd. rewrite merge_length.
  induction left as [| t left [IHle IHeq]]; simpl.
  - split; [lia |]. split; [tauto | reflexivity].
  - destruct (unique_match t right Hnd) as [Hin Hout].
    destruct (in_dec (fun a b : Z * Z =>
                        ltac:(decide equality; apply Z.eq_dec) : {a = b} + {a <> b})
                     (ts_key t) (map fly_key right)) as [Hk | Hk].
    + rewrite (Hin Hk). split; [lia |]. split.
      * intros E t' [<- | Ht']; [exact Hk |].
        apply IHeq; [lia | exact Ht'].
      * intros Hall. simpl. f_equal. apply IHeq. auto.
    + rewrite (Hout Hk). split; [lia |]. split.
      * intros E. lia.
      * intros Hall. exfalso. apply Hk. apply Hall. auto.
Qed.

(** C7 (amended). The join of the report is the inner join of the saved
    time-series table with the metadata table on (monitor, channel): it
    pairs a time-series row with every metadata row of the same key, so
    its row count is the sum of the numbers of matches.  When the keys of
    the metadata table are unique the count does not exceed the
    time-series row count, with equality exactly when every key of the
    time-series table occurs in the metadata table.  The saved time-series
    table is the sorted concatenation of the parsed logs, whatever the
    metadata table holds. *)
Theorem join_cardinality (details monitor5 monitor6 : file) (out : outputs)
    (joined : list (TimeSeriesRecord * FlyMetadataRecord)) :
  main details monitor5 monitor6 = (out, Ok joined) ->
  exists time_series fly_metadata d5 d6,
    time_series_data_csv out = Some time_series
    /\ fly_metadata_csv out = Some fly_metadata
    /\ parse_monitor_file monitor5 5 = Ok d5
    /\ parse_monitor_file monitor6 6 = Ok d6
    /\ time_series = sort_values (d5 ++ d6)
    /\ joined = merge time_series fly_metadata
    /\ (forall t m, In (t, m) joined
                    <-> In t time_series /\ In m fly_metadata /\ fly_key m = ts_key t)
    /\ List.length joined
       = list_sum (map (fun t => List.length (filter (on_key t) fly_metadata)) time_series)
    /\ (NoDup (map fly_key fly_metadata) ->
        (List.length joined <= List.length time_series)%nat
        /\ (List.length joined = List.length time_series
            <-> forall t, In t time_series -> In (ts_key t) (map fly_key fly_metadata))).
Proof.
  intros Hmain.
  destruct (time_series_data_csv out) as [table |] eqn:Ht.
  - destruct (main_saved_time_series _ _ _ _ _ _ Hmain Ht)
      as (md & d5 & d6 & _ & H5 & H6 & Htable & Hmd & Hres).
    injection Hres as ->.
    exists table, md, d5, d6.
    split; [reflexivity |]. split; [exact Hmd |]. split; [exact H5 |].
    split; [exact H6 |]. split; [exact Htable |]. split; [reflexivity |].
    split; [intros t m; apply merge_In |].
    split; [apply merge_length |].
    apply merge_count.
  - exfalso. revert Hmain Ht.
    unfold main, main_script, and_then, run, save_metadata, save_time_series.
    destruct (parse_details details); simpl; [| intros H; discriminate H].
    destruct (parse_monitor_file monitor5 5); simpl; [| intros H; discriminate H].
    destruct (parse_monitor_file monitor6 6); simpl; [| intros H; discriminate H].
    intros H. injection H as <- _. discriminate.
Qed.

Lemma join_cardinality_witness :
  exists out joined time_series,
    main ex_details ex_log5 ex_log6 = (out, Ok joined)
    /\ time_series_data_csv out = Some time_series
    /\ List.length joined = List.length time_series.
Proof.
  destruct (main ex_details ex_log5 ex_log6) as [out [joined | e]] eqn:E;
    [| vm_compute in E; discriminate].
  destruct (join_cardinality ex_details ex_log5 ex_log6 out joined E)
    as (ts & md & d5 & d6 & Hts & Hmd & _ & _ & _ & _ & _ & _ & Hcount).
  exists out, joined, ts. split; [reflexivity |]. split; [exact Hts |].
  vm_compute in E. injection E as <- <-.
  simpl in Hts, Hmd. injection Hts as <-. injection Hmd as <-.
  apply Hcount.
  - repeat constructor; simpl; intuition discriminate.
  - intros t [<- | [<- | []]]; simpl; auto.
Defined.

(** C7, as stated, fails: with a fly listed twice in the details file the
    join has more rows than the time-series table. *)
Lemma join_exceeds_time_series :
  exists out joined time_series,
    main details_duplicate ex_log5 ex_log6 = (out, Ok joined)
    /\ time_series_data_csv out = Some time_series
    /\ List.length time_series = 2%nat
    /\ List.length joined = 3%nat.
Proof.
  do 3 eexists. split; [vm_compute; reflexivity |].
  split; [reflexivity |]. split; reflexivity.
Qed.

(** ** [parse_monitor_file], group by group *)

Lemma range_In (a b c : Z) : In c (range a b) <-> a <= c < b.
Proof.
  unfold range. rewrite in_map_iff. split.
  - intros (k & <- & Hk). apply in_seq in Hk. lia.
  - intros H. exists (Z.to_nat (c - a)). split; [lia |].
    apply in_seq. lia.
Qed.

Lemma mapM_concat_In {A B : Type} (f : A -> result (list B)) (l : list A)
    (ls : list (list B)) (y : B) :
  mapM f l = Ok ls ->
  (In y (List.concat ls) <-> exists x ys, In x l /\ f x = Ok ys /\ In y ys).
Proof.
  intros H. apply mapM_Forall2 in H. rewrite in_concat. split.
  - intros (ys & Hys & Hy).
    destruct (Forall2_In_right _ _ _ _ H Hys) as (x & Hx & Hf).
    exists x, ys. auto.
  - intros (x & ys & Hx & Hf & Hy).
    destruct (Forall2_In_left _ _ _ _ H Hx) as (ys' & Hys' & Hf').
    rewrite Hf in Hf'. injection Hf' as <-.
    exists ys. auto.
Qed.


Lemma or_true_inv (a b : result bool) :
  or_ a b = Ok true -> a = Ok true \/ b = Ok true.
Proof.
  unfold or_. destruct a as [[] | e]; simpl; try discriminate; auto.
Qed.

Lemma or_false_inv (a b : result bool) :
  or_ a b = Ok false -> a = Ok false /\ b = Ok false.
Proof.
  unfold or_. destruct a as [[] | e]; simpl; try discriminate; auto.
Qed.

(** What the body of the channel loop appends. *)
Lemma channel_records_In (df : DataFrame) (datetime_val : option Z) (monitor_num : Z)
    (mt_data ct_data pn_data : option row) (channel : Z)
    (l : list TimeSeriesRecord) (r : TimeSeriesRecord) :
  channel_records df datetime_val monitor_num mt_data ct_data pn_data channel = Ok l ->
  (In r l <->
   ts_channel r = channel /\ ts_monitor r = monitor_num /\ ts_datetime r = datetime_val
   /\ py_int (channel_value df mt_data (channel_name channel)) = Ok (ts_mt r)
   /\ py_int (channel_value df ct_data (channel_name channel)) = Ok (ts_ct r)
   /\ py_int (channel_value df pn_data (channel_name channel)) = Ok (ts_pn r)
   /\ (gt0 (channel_value df mt_data (channel_name channel)) = Ok true
       \/ gt0 (channel_value df ct_data (channel_name channel)) = Ok true
       \/ gt0 (channel_value df pn_data (channel_name channel)) = Ok true)).
Proof.
  unfold channel_records.
  set (mt_val := channel_value df mt_data (channel_name channel)).
  set (ct_val := channel_value df ct_data (channel_name channel)).
  set (pn_val := channel_value df pn_data (channel_name channel)).
  intros H. inv_bind H as active Hactive.
  destruct active.
  - inv_bind H as mt Hmt. inv_bind H as ct Hct. inv_bind H as pn Hpn.
    injection H as <-. simpl. split.
    + intros [<- | []]. simpl. repeat split; auto.
      apply or_true_inv in Hactive. destruct Hactive as [Ha | Ha]; auto.
      apply or_true_inv in Ha. tauto.
    + intros (Hc & Hm & Hd & Hrmt & Hrct & Hrpn & _). left.
      destruct r as [d mo c rmt rct rpn]. simpl in *.
      congruence.
  - injection H as <-. simpl. split; [tauto |].
    intros (_ & _ & _ & _ & _ & _ & Hany). exfalso.
    apply or_false_inv in Hactive. destruct Hactive as [Ha Hb].
    apply or_false_inv in Hb. destruct Hb as [Hb Hc].
    destruct Hany as [H | [H | H]]; congruence.
Qed.

Lemma group_records_In (df : DataFrame) (monitor_num : Z) (group : list row)
    (l : list TimeSeriesRecord) (r : TimeSeriesRecord) :
  group_records df monitor_num group = Ok l ->
  (In r l <-> emitted df monitor_num group r).
Proof.
  unfold group_records. intros H. inv_bind H as recs Hrecs.
  injection H as <-.
  rewrite (mapM_concat_In _ _ _ r Hrecs). unfold emitted, group_value. split.
  - intros (channel & l & Hch & Hl & Hr).
    apply range_In in Hch.
    apply (channel_records_In _ _ _ _ _ _ _ _ r) in Hl. apply Hl in Hr.
    destruct Hr as (-> & Hr). split; [lia | exact Hr].
  - intros (Hch & Hr).
    assert (Hin : In (ts_channel r) (range 1 33)) by (apply range_In; lia).
    destruct (Forall2_In_left _ _ _ _ (mapM_Forall2 _ _ _ Hrecs) Hin) as (l & _ & Hl).
    exists (ts_channel r), l. split; [exact Hin |]. split; [exact Hl |].
    apply (channel_records_In _ _ _ _ _ _ _ _ r Hl). auto.
Qed.

Lemma parse_monitor_file_records (filepath : file) (monitor_num : Z)
    (out : list TimeSeriesRecord) :
  parse_monitor_file filepath monitor_num = Ok out ->
  exists df rows,
    monitor_frame filepath = Ok (df, rows)
    /\ forall r, In r out <->
                 exists k group, In (k, group) (groupby df rows)
                                 /\ emitted df monitor_num group r.
Proof.
  unfold parse_monitor_file. intros H. inv_bind H as frame Hframe.
  destruct frame as [df rows]. exists df, rows. split; [exact Hframe |].
  inv_bind H as lists Hlists.
  unfold report_channels in H.
  destruct (List.concat lists) as [| x l] eqn:E; [discriminate |].
  injection H as <-. rewrite <- E. intros r.
  rewrite (mapM_concat_In _ _ _ r Hlists). split.
  - intros ([k group] & l' & Hg & Hl' & Hr). simpl in Hl'.
    exists k, group. split; [exact Hg |].
    apply (group_records_In _ _ _ _ r Hl'). exact Hr.
  - intros (k & group & Hg & Hr).
    destruct (Forall2_In_left _ _ _ _ (mapM_Forall2 _ _ _ Hlists) Hg) as (l' & _ & Hl').
    exists (k, group), l'. split; [exact Hg |]. split; [exact Hl' |].
    simpl in Hl'. apply (group_records_In _ _ _ _ r Hl'). exact Hr.
Qed.

Lemma groupby_In (df : DataFrame) (rows : list row) (k : key) (group : list row) :
  In (k, group) (groupby df rows) ->
  group = filter (fun r => key_eqb k (row_key df r))
                 (filter (fun r => key_notna (row_key df r)) rows).
Proof.
  unfold groupby. rewrite in_map_iff.
  intros (k' & E & _). injection E as <- <-. reflexivity.
Qed.

(** ** Active channels *)

Lemma positive_value (v : cell) (z : Z) :
  gt0 v = Ok true -> py_int v = Ok z -> 0 < z \/ fraction v.
Proof.
  destruct v as [x | [n d] | b | | b | s]; simpl; try discriminate.
  - intros H E. injection H as H. injection E as <-. left. lia.
  - intros H E. injection H as H. injection E as <-.
    apply Z.ltb_lt in H. unfold trunc. simpl.
    destruct (Z_lt_le_dec n (Z.pos d)) as [Hlt | Hge].
    + right. exists (n # d). split; [reflexivity |]. unfold Qlt. simpl. lia.
    + left. rewrite Z.quot_div_nonneg by lia.
      apply Z.div_str_pos. lia.
  - intros H E. injection H as ->. injection E as <-. left. lia.
Qed.

Lemma integer_value_positive (v : cell) (x z : Z) :
  v = CInt x -> gt0 v = Ok true -> py_int v = Ok z -> 0 < z.
Proof.
  intros -> H E. simpl in *. injection H as H. injection E as <-. lia.
Qed.

(** C2 (amended). For every record [parse_monitor_file] emits, at least
    one of the three values of its group and channel is greater than 0,
    and mt, ct, pn are these values as integers, a float64 truncated; so
    at least one of mt, ct, pn is greater than 0 unless a positive value
    is a fraction below 1, and always when the values are integers.  A
    channel whose three values are not greater than 0, all zero for
    instance, gives no record. *)
Theorem active_channels_only :
  (forall filepath monitor_num out r,
      parse_monitor_file filepath monitor_num = Ok out -> In r out ->
      exists df rows k group,
        monitor_frame filepath = Ok (df, rows)
        /\ In (k, group) (groupby df rows)
        /\ emitted df monitor_num group r
        /\ ((0 < ts_mt r \/ 0 < ts_ct r \/ 0 < ts_pn r)
            \/ fraction (group_value df "MT" group (ts_channel r))
            \/ fraction (group_value df "CT" group (ts_channel r))
            \/ fraction (group_value df "Pn" group (ts_channel r)))
        /\ ((forall code, In code movement_types ->
               exists x, group_value df code group (ts_channel r) = CInt x) ->
            0 < ts_mt r \/ 0 < ts_ct r \/ 0 < ts_pn r))
  /\ (forall df datetime_val monitor_num mt_data ct_data pn_data channel,
        gt0 (channel_value df mt_data (channel_name channel)) = Ok false ->
        gt0 (channel_value df ct_data (channel_name channel)) = Ok false ->
        gt0 (channel_value df pn_data (channel_name channel)) = Ok false ->
        channel_records df datetime_val monitor_num mt_data ct_data pn_data channel
        = Ok [])
  /\ gt0 (CInt 0) = Ok false.
Proof.
  split; [| split; [| reflexivity]].
  - intros filepath monitor_num out r H Hr.
    destruct (parse_monitor_file_records _ _ _ H) as (df & rows & Hframe & Hout).
    apply Hout in Hr. destruct Hr as (k & group & Hg & Hr).
    exists df, rows, k, group.
    split; [exact Hframe |]. split; [exact Hg |]. split; [exact Hr |].
    destruct Hr as (_ & _ & _ & Hmt & Hct & Hpn & Hany).
    split.
    + destruct Hany as [Ha | [Ha | Ha]].
      * destruct (positive_value _ _ Ha Hmt); auto.
      * destruct (positive_value _ _ Ha Hct); auto.
      * destruct (positive_value _ _ Ha Hpn); auto.
    + intros Hint.
      destruct (Hint "MT") as [x Hx]; [simpl; auto |].
      destruct (Hint "CT") as [y Hy]; [simpl; auto |].
      destruct (Hint "Pn") as [z Hz]; [simpl; auto |].
      destruct Hany as [Ha | [Ha | Ha]].
      * left. exact (integer_value_positive _ _ _ Hx Ha Hmt).
      * right. left. exact (integer_value_positive _ _ _ Hy Ha Hct).
      * right. right. exact (integer_value_positive _ _ _ Hz Ha Hpn).
  - intros df datetime_val monitor_num mt_data ct_data pn_data channel Hmt Hct Hpn.
    unfold channel_records, or_. rewrite Hmt, Hct, Hpn. reflexivity.
Qed.

Lemma active_channels_only_witness :
  exists df rows k group,
    monitor_frame ex_log5 = Ok (df, rows)
    /\ In (k, group) (groupby df rows)
    /\ emitted df 5 group (mkTS (Some 1704067200) 5 1 5 2 0).
Proof.
  destruct (proj1 active_channels_only ex_log5 5
              [mkTS (Some 1704067200) 5 1 5 2 0] (mkTS (Some 1704067200) 5 1 5 2 0))
    as (df & rows & k & group & Hframe & Hg & Hr & _).
  - vm_compute. reflexivity.
  - simpl. auto.
  - exists df, rows, k, group. auto.
Defined.

(** C2, as stated, fails: the value 0.5 is greater than 0, so the record
    is emitted, and its integer is 0: the record has mt, ct and pn all
    zero. *)
Lemma all_zero_record_emitted :
  parse_monitor_file log_half 5 = Ok [mkTS (Some 1704067200) 5 1 0 0 0].
Proof.
  vm_compute. reflexivity.
Qed.

(** ** The first row of a movement type *)








(** ** The width of a monitor log *)

Lemma fill_ok (width : nat) (line : list string) :
  (exists row, fill width line = Ok row) <-> (List.length line <= width)%nat.
Proof.
  unfold fill. destruct (Nat.leb_spec (List.length line) width); split.
  - intros _. assumption.
  - intros _. eexists. reflexivity.
  - intros [row Hrow]. discriminate.
  - intros Hle. lia.
Qed.

Lemma mapM_fill_ok (width : nat) (lines : list (list string)) :
  (exists rows, mapM (fill width) lines = Ok rows)
  <-> Forall (fun line => (List.length line <= width)%nat) lines.
Proof.
  induction lines as [| line lines IH]; simpl.
  - split; [constructor | intros _; eexists; reflexivity].
  - split.
    + intros [rows H]. inv_bind H as row Hrow. inv_bind H as rows' Hrows.
      constructor.
      * apply fill_ok. eauto.
      * apply IH. eauto.
    + intros H. inversion H as [| ? ? Hline Hlines]; subst.
      apply fill_ok in Hline. destruct Hline as [row ->].
      apply IH in Hlines. destruct Hlines as [rows ->].
      simpl. eexists. reflexivity.
Qed.

Lemma default_names_length (width : nat) : List.length (default_names width) = width.
Proof.
  unfold default_names. rewrite length_map, length_seq. reflexivity.
Qed.

Lemma monitor_columns_length : List.length monitor_columns = 42%nat.
Proof.
  reflexivity.
Qed.

Lemma named_frame_ok (filepath : file) (df : DataFrame) :
  named_frame filepath = Ok df ->
  columns df = monitor_columns
  /\ exists first rest,
       filepath = Some (first :: rest)
       /\ List.length first = 42%nat
       /\ Forall (fun line => (List.length line <= 42)%nat) rest.
Proof.
  unfold named_frame, read_csv_noheader. intros H.
  inv_bind H as df0 Hdf0. inv_bind Hdf0 as lines Hlines.
  destruct filepath as [lines' |]; simpl in Hlines; [| discriminate].
  injection Hlines as ->.
  destruct lines as [| first rest]; [discriminate |].
  inv_bind Hdf0 as rows Hrows. injection Hdf0 as <-.
  unfold set_columns in H. cbn [columns make_frame] in H.
  rewrite default_names_length, monitor_columns_length in H.
  destruct (Nat.eqb_spec (List.length first) 42) as [E | E]; [| discriminate].
  injection H as <-. simpl. split; [reflexivity |].
  exists first, rest. split; [reflexivity |]. split; [exact E |].
  assert (Hall : Forall (fun line => (List.length line <= List.length first)%nat)
                        (first :: rest)) by (apply mapM_fill_ok; eauto).
  inversion Hall; subst. rewrite <- E. assumption.
Qed.

Lemma named_frame_accepts (first : list string) (rest : list (list string)) :
  List.length first = 42%nat ->
  Forall (fun line => (List.length line <= 42)%nat) rest ->
  exists df, named_frame (Some (first :: rest)) = Ok df.
Proof.
  intros E Hrest. unfold named_frame, read_csv_noheader.
  cbn [open bind].
  assert (Hall : Forall (fun line => (List.length line <= List.length first)%nat)
                        (first :: rest)).
  { constructor; [lia |]. rewrite E. exact Hrest. }
  apply mapM_fill_ok in Hall. destruct Hall as [rows ->].
  cbn [bind]. unfold set_columns. cbn [columns make_frame].
  rewrite default_names_length, monitor_columns_length, E.
  eexists. reflexivity.
Qed.

Lemma monitor_frame_named (filepath : file) (df : DataFrame) (rows : list row) :
  monitor_frame filepath = Ok (df, rows) -> named_frame filepath = Ok df.
Proof.
  unfold monitor_frame. intros H.
  inv_bind H as df' Hdf. inv_bind H as date Hdate. inv_bind H as date_ Hdate_.
  inv_bind H as time Htime. inv_bind H as date_time Hdate_time.
  inv_bind H as datetime Hdatetime.
  injection H as <- _. exact Hdf.
Qed.

Lemma channel_column_index (k : Z) :
  1 <= k <= 32 -> index_of (channel_name k) monitor_columns = Some (Z.to_nat (9 + k)).
Proof.
  intros Hk. assert (Hin : In k (range 1 33)) by (apply range_In; lia).
  clear Hk. revert k Hin. apply Forall_forall.
  repeat constructor.
Qed.

(** C9 (amended). The frame of a monitor log has exactly 42 columns: ten
    leading fields, then the 32 channel columns ch1..ch32 in order.  The
    parser names the columns of exactly the files whose first line has 42
    tab-separated fields and whose other lines have at most 42 (a shorter
    line is filled with missing values), and it reads the value of channel
    k from the k-th channel column, field 10 + k of the line. *)
Theorem monitor_log_width :
  (forall filepath,
      (exists df, named_frame filepath = Ok df)
      <-> exists first rest,
            filepath = Some (first :: rest)
            /\ List.length first = 42%nat
            /\ Forall (fun line => (List.length line <= 42)%nat) rest)
  /\ (forall filepath monitor_num out,
        parse_monitor_file filepath monitor_num = Ok out ->
        exists first rest,
          filepath = Some (first :: rest)
          /\ List.length first = 42%nat
          /\ Forall (fun line => (List.length line <= 42)%nat) rest)
  /\ (List.length monitor_columns = (10 + 32)%nat
      /\ skipn 10 monitor_columns = map channel_name (range 1 33))
  /\ (forall filepath df rows r k,
        monitor_frame filepath = Ok (df, rows) ->
        1 <= k <= 32 ->
        loc df r (channel_name k) = nth (Z.to_nat (9 + k)) (fst r) CNaN).
Proof.
  split; [| split; [| split]].
  - intros filepath. split.
    + intros [df Hdf]. apply named_frame_ok in Hdf. tauto.
    + intros (first & rest & -> & E & Hrest). apply named_frame_accepts; assumption.
  - intros filepath monitor_num out H.
    destruct (parse_monitor_file_records _ _ _ H) as (df & rows & Hframe & _).
    apply monitor_frame_named, named_frame_ok in Hframe. tauto.
  - split; reflexivity.
  - intros filepath df rows r k Hframe Hk.
    apply monitor_frame_named, named_frame_ok in Hframe. destruct Hframe as [Hc _].
    unfold loc, entry. rewrite Hc, (channel_column_index k Hk). reflexivity.
Qed.

Lemma monitor_log_width_witness :
  exists first rest,
    ex_log5 = Some (first :: rest)
    /\ List.length first = 42%nat
    /\ Forall (fun line => (List.length line <= 42)%nat) rest.
Proof.
  apply (proj1 (proj2 monitor_log_width) ex_log5 5 [mkTS (Some 1704067200) 5 1 5 2 0]).
  vm_compute. reflexivity.
Defined.

(** C9, as stated, fails: a log whose lines have 41 fields, nine leading
    fields and 32 channel values, is rejected, and a line with fewer fields
    than the first is accepted. *)
Lemma log_of_41_columns_rejected :
  (exists line, log_41_columns = Some [line] /\ List.length line = 41%nat)
  /\ parse_monitor_file log_41_columns 5 = Raise ValueError
  /\ parse_monitor_file log_short_line 5 = Ok [mkTS (Some 1704067200) 5 1 5 0 0].
Proof.
  split; [eexists; split; reflexivity |].
  split; vm_compute; reflexivity.
Qed.

(** ** Fatal input *)

Lemma not_ok_aborts {A : Type} (m : result A) : (forall a, m <> Ok a) -> aborts m.
Proof.
  destruct m as [a | e]; intros H.
  - exfalso. exact (H a eq_refl).
  - exists e. reflexivity.
Qed.

Lemma main_aborts (details monitor5 monitor6 : file) :
  aborts (parse_details details)
  \/ aborts (parse_monitor_file monitor5 5)
  \/ aborts (parse_monitor_file monitor6 6) ->
  exists out e,
    main details monitor5 monitor6 = (out, Raise e)
    /\ time_series_data_csv out = None.
Proof.
  unfold main, main_script, and_then, run, save_metadata, save_time_series.
  intros H.
  destruct (parse_details details) as [md | e]; simpl.
  - destruct (parse_monitor_file monitor5 5) as [d5 | e]; simpl.
    + destruct (parse_monitor_file monitor6 6) as [d6 | e]; simpl.
      * exfalso. destruct H as [[e H] | [[e H] | [e H]]]; discriminate.
      * eexists _, e. split; reflexivity.
    + eexists _, e. split; reflexivity.
  - eexists _, e. split; reflexivity.
Qed.

Lemma missing_column_aborts (details : file) (df : DataFrame) (name : string) :
  read_csv details = Ok df ->
  In name details_header ->
  index_of name (columns df) = None ->
  aborts (parse_details details).
Proof.
  intros Hdf Hname Hnone.
  unfold parse_details. apply bind_raise.
  unfold details_table. rewrite Hdf. cbn [bind].
  simpl in Hname.
  destruct Hname as [<- | [<- | [<- | [<- | [<- | []]]]]];
    repeat first [ rewrite (get_column_missing df _ Hnone); eexists; reflexivity
                 | apply bind_raise_later; intros ? _ ].
Qed.

Lemma channel_number_needed (details : file) (df : DataFrame) (line : list cell) :
  read_csv details = Ok df ->
  In line (data df) ->
  channel_number (entry df line "Channel") = None ->
  aborts (parse_details details).
Proof.
  intros Hdf Hline Hnone. apply not_ok_aborts. intros out Hout.
  destruct (parse_details_lines _ _ Hout) as (df' & table & Hdf' & _ & _ & Hall & _).
  rewrite Hdf in Hdf'. injection Hdf' as <-.
  destruct (Forall2_In_left _ _ _ _ Hall Hline) as (r & _ & _ & (s & Hs & Hint) & _).
  rewrite Hs in Hnone. simpl in Hnone. congruence.
Qed.

Lemma datetime_strings (eD eT : list cell -> cell) (d t : string)
    (lines : list (list cell)) (line : list cell) :
  In line lines -> eD line = CStr d -> eT line = CStr t ->
  forall date_ date_time,
    mapM (fun c => match c with
                   | CStr x => Ok (CStr (String.append x " "))
                   | CNaN => Ok CNaN
                   | _ => Raise TypeError
                   end) (map eD lines) = Ok date_ ->
    series_add date_ (map eT lines) = Ok date_time ->
    In (CStr (String.append (String.append d " ") t)) date_time.
Proof.
  intros Hin HD HT. unfold series_add.
  induction lines as [| l lines IH]; [destruct Hin |].
  intros date_ date_time H1 H2. simpl in H1.
  inv_bind H1 as a Ha. inv_bind H1 as date_' Hdate_'. injection H1 as <-.
  simpl in H2. inv_bind H2 as c Hc. inv_bind H2 as date_time' Hdt'.
  injection H2 as <-.
  destruct Hin as [-> | Hin].
  - left. rewrite HD in Ha. injection Ha as <-.
    rewrite HT in Hc. simpl in Hc. injection Hc as <-. reflexivity.
  - right. apply (IH Hin date_' date_time'); assumption.
Qed.

Lemma unparseable_datetime_aborts (filepath : file) (monitor_num : Z)
    (df : DataFrame) (line : list cell) (d t : string) :
  named_frame filepath = Ok df ->
  In line (data df) ->
  entry df line "date" = CStr d ->
  entry df line "time" = CStr t ->
  aborts (strptime (String.append (String.append d " ") t)) ->
  aborts (parse_monitor_file filepath monitor_num).
Proof.
  intros Hdf Hline Hd Ht Hbad.
  unfold parse_monitor_file. apply bind_raise.
  unfold monitor_frame. rewrite Hdf. cbn [bind].
  apply bind_raise_later. intros date Hdate.
  apply bind_raise_later. intros date_ Hdate_.
  apply bind_raise_later. intros time Htime.
  apply bind_raise_later. intros date_time Hdate_time.
  apply bind_raise.
  apply get_column_entries in Hdate. destruct Hdate as [Hdate _].
  apply get_column_entries in Htime. destruct Htime as [Htime _].
  unfold series_add_str in Hdate_.
  destruct (fst date); try discriminate.
  rewrite Hdate in Hdate_. rewrite Htime in Hdate_time.
  eapply mapM_raise.
  - eapply (datetime_strings (fun l => entry df l "date") (fun l => entry df l "time"));
      eassumption.
  - simpl. apply bind_raise. exact Hbad.
Qed.

(** *** A column with a string holds strings and missing values only *)

Lemma nth_converted (G : nat -> kind -> cell) (kinds : list kind) (a n j : nat) (c : cell) :
  nth j (map (fun '(i, k) => G i k) (combine (seq a n) kinds)) CNaN = c ->
  c = CNaN \/ exists k, nth_error kinds j = Some k /\ c = G (a + j)%nat k.
Proof.
  revert a kinds j. induction n as [| n IH]; intros a kinds j; simpl.
  - destruct j; intros <-; auto.
  - destruct kinds as [| k kinds]; simpl.
    + destruct j; intros <-; auto.
    + destruct j as [| j]; simpl.
      * intros <-. right. exists k. rewrite Nat.add_0_r. auto.
      * intros H. apply IH in H. destruct H as [H | (k' & Hk' & H)]; [auto |].
        right. exists k'. rewrite Nat.add_succ_r. auto.
Qed.

Lemma cell_of_float_number (x : spec_float) (s : string) : cell_of_float x <> CStr s.
Proof.
  destruct x; discriminate.
Qed.

Lemma to_double_number (t s : string) : to_double t <> Some (CStr s).
Proof.
  unfold to_double. destruct (precise_xstrtod t) as [x |].
  - intros H. injection H as H. exact (cell_of_float_number _ _ H).
  - repeat match goal with
           | |- context [if ?b then _ else _] => destruct b
           end; discriminate.
Qed.

Lemma convert_string (k : kind) (t s : string) :
  convert k t = CStr s -> k = KStr \/ k = KRaw.
Proof.
  unfold convert. destruct k; auto; destruct (is_na_token t); try discriminate.
  - destruct (str_to_int64 t); discriminate.
  - destruct (str_to_int64 t) as [z | |]; try discriminate.
    destruct (z =? INT64_MIN); [discriminate |].
    intros H. destruct (cell_of_float_number _ _ H).
  - destruct (str_to_uint64 _ t) as [st []]; discriminate.
  - destruct (to_double t) as [c |] eqn:E; [| discriminate].
    intros ->. destruct (to_double_number _ _ E).
  - destruct (to_bool t); discriminate.
  - destruct (to_bool t); discriminate.
Qed.

Lemma convert_textual (k : kind) (t : string) :
  k = KStr \/ k = KRaw -> textual (convert k t).
Proof.
  unfold convert, textual. intros [-> | ->]; [| eauto].
  destruct (is_na_token t); eauto.
Qed.

Lemma make_frame_typed (names : list string) (leading width : nat)
    (rows : list (list string)) (line line' : list cell) (j : nat) (s : string) :
  In line (data (make_frame names leading width rows)) ->
  In line' (data (make_frame names leading width rows)) ->
  nth j line CNaN = CStr s ->
  textual (nth j line' CNaN).
Proof.
  unfold make_frame. cbn [data]. rewrite !in_map_iff.
  intros (row & <- & _) (row' & <- & _) H.
  apply (nth_converted (fun i k => convert k (field i row))) in H.
  destruct H as [H | (k & Hk & H)]; [discriminate |].
  symmetry in H. apply convert_string in H.
  match goal with |- textual ?x => remember x as c' eqn:E end.
  symmetry in E.
  apply (nth_converted (fun i k => convert k (field i row'))) in E.
  destruct E as [E | (k' & Hk' & E)].
  - left. exact E.
  - rewrite Hk in Hk'. injection Hk' as <-. rewrite E. apply convert_textual. exact H.
Qed.

Lemma named_frame_typed (filepath : file) (df : DataFrame)
    (line line' : list cell) (j : nat) (s : string) :
  named_frame filepath = Ok df ->
  In line (data df) -> In line' (data df) ->
  nth j line CNaN = CStr s ->
  textual (nth j line' CNaN).
Proof.
  unfold named_frame, read_csv_noheader. intros H.
  inv_bind H as df0 Hdf0. inv_bind Hdf0 as lines Hlines.
  destruct lines as [| first rest]; [discriminate |].
  inv_bind Hdf0 as rows Hrows. injection Hdf0 as <-.
  unfold set_columns in H.
  match type of H with
  | (if ?b then _ else _) = _ => destruct b; [| discriminate]
  end.
  injection H as <-.
  exact (make_frame_typed (default_names (List.length first)) 0 (List.length first)
           rows line line' j s).
Qed.

Lemma monitor_frame_rows (filepath : file) (df : DataFrame) (rows : list row) :
  monitor_frame filepath = Ok (df, rows) ->
  forall r, In r rows -> In (fst r) (data df).
Proof.
  unfold monitor_frame. intros H.
  inv_bind H as df' Hdf. inv_bind H as date Hdate. inv_bind H as date_ Hdate_.
  inv_bind H as time Htime. inv_bind H as date_time Hdate_time.
  inv_bind H as datetime Hdatetime.
  injection H as <- <-. intros [cells dt] Hr.
  apply filter_In in Hr. destruct Hr as [Hr _].
  apply in_combine_l in Hr. exact Hr.
Qed.

Lemma groupby_rows (df : DataFrame) (rows : list row) (k : key) (group : list row) :
  In (k, group) (groupby df rows) -> forall r, In r group -> In r rows.
Proof.
  intros Hg r Hr. apply groupby_In in Hg. subst group.
  apply filter_In in Hr. destruct Hr as [Hr _].
  apply filter_In in Hr. tauto.
Qed.

Lemma movement_row_In (df : DataFrame) (code : string) (group : list row) (r : row) :
  movement_row df code group = Some r -> In r group.
Proof.
  unfold movement_row. intros H. apply find_some in H. tauto.
Qed.

(** *** The test of the body of the channel loop *)

Lemma textual_inert (v : cell) : textual v -> inert v.
Proof.
  intros [-> | [s ->]]; [left | right; exists TypeError]; reflexivity.
Qed.

Lemma test_aborts (a b c : cell) :
  inert a -> inert b -> inert c ->
  aborts (gt0 a) \/ aborts (gt0 b) \/ aborts (gt0 c) ->
  aborts (or_ (gt0 a) (or_ (gt0 b) (gt0 c))).
Proof.
  unfold inert, or_, aborts.
  intros [-> | [e ->]]; [| intros; exists e; reflexivity].
  intros [-> | [e ->]]; [| intros; exists e; reflexivity].
  intros [-> | [e ->]]; [| intros; exists e; reflexivity].
  intros [[e H] | [[e H] | [e H]]]; discriminate.
Qed.

Lemma string_channel_value_aborts (filepath : file) (monitor_num : Z)
    (df : DataFrame) (rows : list row) (k : key) (group : list row)
    (code : string) (r : row) (channel : Z) (s : string) :
  monitor_frame filepath = Ok (df, rows) ->
  In (k, group) (groupby df rows) ->
  In code movement_types ->
  movement_row df code group = Some r ->
  1 <= channel <= 32 ->
  loc df r (channel_name channel) = CStr s ->
  aborts (parse_monitor_file filepath monitor_num).
Proof.
  intros Hframe Hg Hcode Hr Hch Hs.
  pose proof (monitor_frame_named _ _ _ Hframe) as Hnamed.
  pose proof (named_frame_ok _ _ Hnamed) as [Hcols _].
  assert (Hloc : forall x, loc df x (channel_name channel)
                           = nth (Z.to_nat (9 + channel)) (fst x) CNaN).
  { intros x. unfold loc, entry.
    rewrite Hcols, (channel_column_index channel Hch). reflexivity. }
  assert (Hdata : forall x, In x group -> In (fst x) (data df)).
  { intros x Hx. eapply monitor_frame_rows; [exact Hframe |].
    eapply groupby_rows; eassumption. }
  assert (Hinert : forall code',
             inert (channel_value df (movement_row df code' group) (channel_name channel))).
  { intros code'. destruct (movement_row df code' group) as [r' |] eqn:Er'; simpl.
    - apply textual_inert. rewrite Hloc.
      apply (named_frame_typed filepath df (fst r) (fst r') _ s Hnamed).
      + apply Hdata. eapply movement_row_In; eassumption.
      + apply Hdata. eapply movement_row_In; eassumption.
      + rewrite <- Hloc. exact Hs.
    - left. reflexivity. }
  assert (Hraise : aborts (gt0 (channel_value df (movement_row df code group)
                                  (channel_name channel)))).
  { rewrite Hr. simpl. rewrite Hs. exists TypeError. reflexivity. }
  unfold parse_monitor_file. rewrite Hframe. cbn [bind].
  apply bind_raise. apply (mapM_raise _ _ (k, group) Hg). simpl.
  unfold group_records. apply bind_raise.
  apply (mapM_raise _ _ channel); [apply range_In; lia |].
  unfold channel_records. apply bind_raise.
  apply test_aborts; try apply Hinert.
  simpl in Hcode. destruct Hcode as [<- | [<- | [<- | []]]]; auto.
Qed.

(* ================================================================= *)
(** * Further properties of the script *)

(** ** What [main] leaves behind *)

(** X1. The metadata table is saved exactly when [parse_details] succeeds,
    whatever the logs hold; the time-series table is saved exactly when
    the run succeeds; and the error of a failed run is the first one in
    the order details, Monitor 5, Monitor 6. *)
Theorem main_outcome (details monitor5 monitor6 : file) (out : outputs)
    (res : result (list (TimeSeriesRecord * FlyMetadataRecord))) :
  main details monitor5 monitor6 = (out, res) ->
  fly_metadata_csv out
  = match parse_details details with Ok table => Some table | Raise _ => None end
  /\ (time_series_data_csv out <> None <-> exists joined, res = Ok joined)
  /\ (forall e, parse_details details = Raise e -> res = Raise e)
  /\ (forall table e,
        parse_details details = Ok table ->
        parse_monitor_file monitor5 5 = Raise e -> res = Raise e)
  /\ (forall table d5 e,
        parse_details details = Ok table ->
        parse_monitor_file monitor5 5 = Ok d5 ->
        parse_monitor_file monitor6 6 = Raise e -> res = Raise e).
Proof.
  unfold main, main_script, and_then, run, save_metadata, save_time_series.
  destruct (parse_details details) as [md | e1]; simpl.
  - destruct (parse_monitor_file monitor5 5) as [d5 | e2]; simpl.
    + destruct (parse_monitor_file monitor6 6) as [d6 | e3]; simpl;
        intros H; injection H as <- <-; simpl.
      * split; [reflexivity |]. split; [split; [eauto | discriminate] |].
        repeat split; intros; discriminate.
      * split; [reflexivity |].
        split; [split; [congruence | intros [? ?]; discriminate] |].
        repeat split; intros; congruence.
    + intros H; injection H as <- <-; simpl.
      split; [reflexivity |].
      split; [split; [congruence | intros [? ?]; discriminate] |].
      repeat split; intros; congruence.
  - intros H; injection H as <- <-; simpl.
    split; [reflexivity |].
    split; [split; [congruence | intros [? ?]; discriminate] |].
    repeat split; intros; congruence.
Qed.

Lemma main_outcome_witness :
  fly_metadata_csv (fst (main ex_details log_bad_date ex_log6))
  = match parse_details ex_details with Ok table => Some table | Raise _ => None end.
Proof.
  apply (main_outcome ex_details log_bad_date ex_log6 _ _ (surjective_pairing _)).
Defined.

(** ** A log without an active channel *)

Lemma mapM_pointwise {A B : Type} (f : A -> result B) (g : A -> B) (l : list A) :
  (forall x, In x l -> f x = Ok (g x)) -> mapM f l = Ok (map g l).
Proof.
  induction l as [| x l IH]; simpl; intros H; [reflexivity |].
  rewrite (H x) by auto. simpl. rewrite IH by auto. reflexivity.
Qed.

Lemma concat_nils {A B : Type} (l : list A) :
  List.concat (map (fun _ : A => @nil B) l) = [].
Proof.
  induction l as [| x l IH]; simpl; auto.
Qed.

Lemma parsed_table_not_empty (filepath : file) (monitor_num : Z)
    (out : list TimeSeriesRecord) :
  parse_monitor_file filepath monitor_num = Ok out -> out <> [].
Proof.
  unfold parse_monitor_file. intros H.
  inv_bind H as frame Hframe. destruct frame as [df rows].
  inv_bind H as lists Hlists. unfold report_channels in H.
  destruct (List.concat lists); [discriminate |].
  injection H as <-. discriminate.
Qed.

(** X2. [parse_monitor_file] never returns an empty table: when no group
    has a channel with a value greater than 0, so in particular when the
    log has no MT, CT or Pn line, it raises KeyError. *)
Theorem no_empty_time_series :
  (forall filepath monitor_num out,
      parse_monitor_file filepath monitor_num = Ok out -> out <> [])
  /\ (forall filepath monitor_num df rows,
        monitor_frame filepath = Ok (df, rows) ->
        (forall k group channel code,
            In (k, group) (groupby df rows) ->
            In channel (range 1 33) ->
            In code movement_types ->
            gt0 (group_value df code group channel) = Ok false) ->
        parse_monitor_file filepath monitor_num = Raise KeyError).
Proof.
  split.
  - apply parsed_table_not_empty.
  - intros filepath monitor_num df rows Hframe Hzero.
    unfold parse_monitor_file. rewrite Hframe. cbn [bind].
    rewrite (mapM_pointwise _ (fun _ => [])).
    + cbn [bind]. rewrite concat_nils. reflexivity.
    + intros [k group] Hg. cbn [snd]. unfold group_records.
      rewrite (mapM_pointwise _ (fun _ => [])).
      * cbn [bind]. rewrite concat_nils. reflexivity.
      * intros channel Hch. unfold channel_records, or_.
        pose proof (Hzero k group channel "MT" Hg Hch) as Hmt.
        pose proof (Hzero k group channel "CT" Hg Hch) as Hct.
        pose proof (Hzero k group channel "Pn" Hg Hch) as Hpn.
        unfold group_value, movement_types in Hmt, Hct, Hpn.
        rewrite Hmt, Hct, Hpn by (simpl; auto). reflexivity.
Qed.

Lemma no_empty_time_series_witness :
  parse_monitor_file log_unused_type 5 = Raise KeyError.
Proof.
  destruct (monitor_frame log_unused_type) as [[df rows] | e] eqn:E;
    [| vm_compute in E; discriminate].
  apply (proj2 no_empty_time_series log_unused_type 5 df rows E).
  vm_compute in E. injection E as <- <-.
  intros k group channel code [].
Defined.

(** ** Equality of group keys *)

Lemma string_compare_refl (s : string) : String.compare s s = Eq.
Proof.
  induction s as [| c s IH]; simpl; [reflexivity |].
  unfold Ascii.compare. rewrite N.compare_refl. exact IH.
Qed.

Lemma compare_bool_eq (x y : bool) : compare_bool x y = Eq <-> x = y.
Proof.
  destruct x, y; simpl; split; congruence.
Qed.

Lemma Zcompare_inject (x y : Z) : Z.compare x y = Qcompare (inject_Z x) (inject_Z y).
Proof.
  unfold Qcompare. simpl. rewrite !Z.mul_1_r. reflexivity.
Qed.

Lemma cell_compare_eq (a b : cell) : cell_compare a b = Eq <-> same_cell a b.
Proof.
  destruct a as [x | p | x | | x | x], b as [y | q | y | | y | y];
    unfold same_cell; simpl;
    first [ rewrite Zcompare_inject; symmetry; apply Qeq_alt
          | symmetry; apply Qeq_alt
          | apply compare_bool_eq
          | split; [apply String.compare_eq_iff | intros ->; apply string_compare_refl]
          | split; [discriminate | tauto]
          | destruct x; (split; [discriminate | tauto])
          | destruct y; (split; [discriminate | tauto])
          | tauto ].
Qed.

Lemma same_cell_refl (a : cell) : same_cell a a.
Proof.
  destruct a; unfold same_cell; simpl; auto; reflexivity.
Qed.

Lemma same_cell_sym (a b : cell) : same_cell a b -> same_cell b a.
Proof.
  destruct a, b; unfold same_cell; simpl; auto; intros H; symmetry; exact H.
Qed.

Lemma same_cell_trans (a b c : cell) : same_cell a b -> same_cell b c -> same_cell a c.
Proof.
  destruct a, b, c; unfold same_cell; simpl; try tauto;
    intros H1 H2; try (etransitivity; eassumption); congruence.
Qed.

Lemma key_eqb_same (a b : key) : key_eqb a b = true <-> same_key a b.
Proof.
  destruct a as [[a1 a2] a3], b as [[b1 b2] b3]. unfold key_eqb, key_compare, same_key.
  rewrite <- !cell_compare_eq.
  destruct (cell_compare a1 b1), (cell_compare a2 b2), (cell_compare a3 b3);
    split; intros H; try discriminate; try tauto;
    destruct H as (H1 & H2 & H3); discriminate.
Qed.

Lemma same_key_refl (a : key) : same_key a a.
Proof.
  destruct a as [[a1 a2] a3]. simpl. auto using same_cell_refl.
Qed.

Lemma same_key_sym (a b : key) : same_key a b -> same_key b a.
Proof.
  destruct a as [[a1 a2] a3], b as [[b1 b2] b3]. simpl.
  intros (H1 & H2 & H3). auto using same_cell_sym.
Qed.

Lemma same_key_trans (a b c : key) : same_key a b -> same_key b c -> same_key a c.
Proof.
  destruct a as [[a1 a2] a3], b as [[b1 b2] b3], c as [[c1 c2] c3]. simpl.
  intros (H1 & H2 & H3) (K1 & K2 & K3).
  split; [| split]; eapply same_cell_trans; eassumption.
Qed.

(** ** The groups of the rows *)

Lemma unique_In (l : list key) (k : key) : In k (unique l) -> In k l.
Proof.
  induction l as [| k0 l IH]; simpl; [tauto |].
  intros [-> | H]; [auto |].
  apply filter_In in H. right. apply IH. tauto.
Qed.

Lemma unique_represents (l : list key) (k : key) :
  In k l -> exists k', In k' (unique l) /\ same_key k' k.
Proof.
  induction l as [| k0 l IH]; simpl; [tauto |].
  intros [-> | H].
  - exists k. split; [auto | apply same_key_refl].
  - destruct (IH H) as (k' & Hk' & Hsame).
    destruct (key_eqb k0 k') eqn:E.
    + exists k0. split; [auto |].
      apply key_eqb_same in E. eapply same_key_trans; eassumption.
    + exists k'. split; [| exact Hsame].
      right. apply filter_In. rewrite E. auto.
Qed.

Lemma unique_distinct (l : list key) (k1 k2 : key) :
  In k1 (unique l) -> In k2 (unique l) -> same_key k1 k2 -> k1 = k2.
Proof.
  induction l as [| k0 l IH]; simpl; [tauto |].
  intros [<- | H1] [<- | H2] Hsame; auto.
  - apply filter_In in H2. destruct H2 as [_ H2].
    apply key_eqb_same in Hsame. rewrite Hsame in H2. discriminate.
  - apply filter_In in H1. destruct H1 as [_ H1].
    apply same_key_sym, key_eqb_same in Hsame. rewrite Hsame in H1. discriminate.
  - apply filter_In in H1. apply filter_In in H2. apply IH; tauto.
Qed.

Lemma sort_In {A : Type} (leb : A -> A -> bool) (l : list A) (x : A) :
  In x (sort leb l) <-> In x l.
Proof.
  split; apply Permutation_in.
  - apply Permutation_sym, sort_perm.
  - apply sort_perm.
Qed.

Lemma groupby_spec (df : DataFrame) (rows : list row) (k : key) (group : list row) :
  In (k, group) (groupby df rows) <->
  In k (unique (map (row_key df)
                    (filter (fun r => key_notna (row_key df r)) rows)))
  /\ group = filter (fun r => key_eqb k (row_key df r))
                    (filter (fun r => key_notna (row_key df r)) rows).
Proof.
  unfold groupby. rewrite in_map_iff. split.
  - intros (k' & E & Hk'). injection E as <- <-.
    apply sort_In in Hk'. auto.
  - intros [Hk ->]. exists k. split; [reflexivity |]. apply sort_In. exact Hk.
Qed.

Lemma group_members (df : DataFrame) (rows : list row) (k : key) (r : row) :
  In r (filter (fun r => key_eqb k (row_key df r))
               (filter (fun r => key_notna (row_key df r)) rows))
  <-> In r rows /\ key_notna (row_key df r) = true /\ same_key k (row_key df r).
Proof.
  rewrite !filter_In, key_eqb_same. tauto.
Qed.

Lemma group_rows (df : DataFrame) (rows : list row) (k : key) (group : list row) :
  In (k, group) (groupby df rows) ->
  forall r, In r group <->
            In r rows /\ key_notna (row_key df r) = true /\ same_key k (row_key df r).
Proof.
  intros Hg r. apply groupby_spec in Hg. destruct Hg as [_ ->].
  apply group_members.
Qed.

Lemma group_not_empty (df : DataFrame) (rows : list row) (k : key) (group : list row) :
  In (k, group) (groupby df rows) -> group <> [].
Proof.
  intros Hg. apply groupby_spec in Hg. destruct Hg as [Hk ->].
  apply unique_In, in_map_iff in Hk. destruct Hk as (r & <- & Hr).
  apply filter_In in Hr. intros E.
  assert (Hin : In r (filter (fun r' => key_eqb (row_key df r) (row_key df r'))
                             (filter (fun r' => key_notna (row_key df r')) rows))).
  { apply group_members. split; [tauto |]. split; [tauto | apply same_key_refl]. }
  rewrite E in Hin. destruct Hin.
Qed.

(** X3. The groups the loop of [parse_monitor_file] runs over partition
    the rows that have an id, a date and a time: a group holds exactly the
    rows whose key equals its own and is not empty, every such row is in a
    group, and no row is in two groups. *)
Theorem groups_partition (df : DataFrame) (rows : list row) :
  (forall k group,
      In (k, group) (groupby df rows) ->
      group <> []
      /\ forall r, In r group <->
                   In r rows /\ key_notna (row_key df r) = true
                   /\ same_key k (row_key df r))
  /\ (forall r, In r rows -> key_notna (row_key df r) = true ->
                exists k group, In (k, group) (groupby df rows) /\ In r group)
  /\ (forall k1 group1 k2 group2 r,
        In (k1, group1) (groupby df rows) ->
        In (k2, group2) (groupby df rows) ->
        In r group1 -> In r group2 ->
        k1 = k2 /\ group1 = group2).
Proof.
  split; [| split].
  - intros k group Hg. split; [eapply group_not_empty | eapply group_rows]; eassumption.
  - intros r Hr Hna.
    destruct (unique_represents
                (map (row_key df) (filter (fun r => key_notna (row_key df r)) rows))
                (row_key df r)) as (k & Hk & Hsame).
    { apply in_map, filter_In. auto. }
    exists k, (filter (fun r => key_eqb k (row_key df r))
                      (filter (fun r => key_notna (row_key df r)) rows)).
    split; [apply groupby_spec; auto | apply group_members; auto].
  - intros k1 group1 k2 group2 r H1 H2 Hr1 Hr2.
    apply (group_rows _ _ _ _ H1) in Hr1. apply (group_rows _ _ _ _ H2) in Hr2.
    apply groupby_spec in H1. destruct H1 as [Hk1 ->].
    apply groupby_spec in H2. destruct H2 as [Hk2 ->].
    assert (E : k1 = k2).
    { eapply unique_distinct; try eassumption.
      apply (same_key_trans k1 (row_key df r) k2); [tauto |].
      apply same_key_sym. tauto. }
    subst k2. auto.
Qed.

(** ** The timestamp of a record *)

Lemma frame_stamps (eD eT : list cell -> cell) (lines : list (list cell)) :
  forall date_ date_time datetime,
    mapM (fun c => match c with
                   | CStr x => Ok (CStr (String.append x " "))
                   | CNaN => Ok CNaN
                   | _ => Raise TypeError
                   end) (map eD lines) = Ok date_ ->
    series_add date_ (map eT lines) = Ok date_time ->
    mapM to_datetime date_time = Ok datetime ->
    Forall (fun r : row =>
              match eD (fst r) with
              | CStr d =>
                  match eT (fst r) with
                  | CStr t =>
                      exists ts, strptime (String.append (String.append d " ") t) = Ok ts
                                 /\ snd r = Some ts
                  | CNaN => snd r = None
                  | _ => False
                  end
              | CNaN => snd r = None
              | _ => False
              end) (combine lines datetime).
Proof.
  unfold series_add.
  induction lines as [| l lines IH]; intros date_ date_time datetime H1 H2 H3;
    simpl; [constructor |].
  simpl in H1. inv_bind H1 as a Ha. inv_bind H1 as date_' Hdate_'. injection H1 as <-.
  simpl in H2. inv_bind H2 as c Hc. inv_bind H2 as date_time' Hdt'. injection H2 as <-.
  simpl in H3. inv_bind H3 as dt Hdt. inv_bind H3 as datetime' Hdatetime'.
  injection H3 as <-.
  constructor; [| eapply IH; eassumption].
  simpl. destruct (eD l) as [x | q | b | | b | d]; try discriminate.
  - injection Ha as <-. simpl in Hc. injection Hc as <-.
    simpl in Hdt. injection Hdt as <-. reflexivity.
  - injection Ha as <-. simpl in Hc.
    destruct (eT l) as [x | q | b | | b | t]; try discriminate.
    + injection Hc as <-. simpl in Hdt. injection Hdt as <-. reflexivity.
    + injection Hc as <-. simpl in Hdt.
      inv_bind Hdt as ts Hts. injection Hdt as <-. exists ts. auto.
Qed.

Lemma monitor_frame_stamped (filepath : file) (df : DataFrame) (rows : list row) :
  monitor_frame filepath = Ok (df, rows) -> forall r, In r rows -> stamped df r.
Proof.
  unfold monitor_frame. intros H.
  inv_bind H as df' Hdf. inv_bind H as date Hdate. inv_bind H as date_ Hdate_.
  inv_bind H as time Htime. inv_bind H as date_time Hdate_time.
  inv_bind H as datetime Hdatetime.
  injection H as <- <-. intros r Hr.
  apply filter_In in Hr. destruct Hr as [Hr _].
  apply get_column_entries in Hdate. destruct Hdate as [Hdate _].
  apply get_column_entries in Htime. destruct Htime as [Htime _].
  unfold series_add_str in Hdate_. destruct (fst date); try discriminate.
  rewrite Hdate in Hdate_. rewrite Htime in Hdate_time.
  pose proof (frame_stamps (fun l => entry df' l "date") (fun l => entry df' l "time")
                _ _ _ _ Hdate_ Hdate_time Hdatetime) as Hall.
  rewrite Forall_forall in Hall. exact (Hall r Hr).
Qed.

Lemma same_cell_string (a : cell) (s : string) : same_cell a (CStr s) -> a = CStr s.
Proof.
  destruct a; unfold same_cell; simpl; try tauto. congruence.
Qed.


(** The rows of a group have the date and the time of the group as
    strings, and the timestamp of these strings as their datetime. *)
Lemma group_timestamp (filepath : file) (df : DataFrame) (rows : list row)
    (k : key) (group : list row) :
  monitor_frame filepath = Ok (df, rows) ->
  In (k, group) (groupby df rows) ->
  exists d t ts,
    snd (fst k) = CStr d /\ snd k = CStr t
    /\ strptime (String.append (String.append d " ") t) = Ok ts
    /\ first_datetime group = Some ts
    /\ forall r, In r group ->
                 loc df r "date" = CStr d /\ loc df r "time" = CStr t
                 /\ snd r = Some ts.
Proof.
  intros Hframe Hg.
  assert (Hrow : forall r, In r group ->
            exists d t ts,
              snd (fst k) = CStr d /\ snd k = CStr t
              /\ strptime (String.append (String.append d " ") t) = Ok ts
              /\ loc df r "date" = CStr d /\ loc df r "time" = CStr t
              /\ snd r = Some ts).
  { intros r Hr. apply (group_rows _ _ _ _ Hg) in Hr.
    destruct Hr as (Hrows & Hna & Hsame).
    pose proof (monitor_frame_stamped _ _ _ Hframe r Hrows) as Hst.
    unfold stamped in Hst. unfold row_key in Hna, Hsame.
    destruct k as [[kid kd] kt]. simpl in Hsame. destruct Hsame as (_ & Hd & Ht).
    simpl in Hna.
    destruct (loc df r "date") as [x | q | b | | b | d]; try contradiction;
      [rewrite andb_false_r in Hna; discriminate |].
    destruct (loc df r "time") as [x | q | b | | b | t]; try contradiction;
      [rewrite andb_false_r in Hna; discriminate |].
    destruct Hst as (ts & Hts & Hsnd).
    apply same_cell_string in Hd. apply same_cell_string in Ht.
    exists d, t, ts. simpl. auto 10. }
  destruct group as [| r0 group'] eqn:Eg.
  - exfalso. exact (group_not_empty _ _ _ _ Hg eq_refl).
  - destruct (Hrow r0 (or_introl eq_refl)) as (d & t & ts & Hkd & Hkt & Hts & _ & _ & H0).
    exists d, t, ts.
    split; [exact Hkd |]. split; [exact Hkt |]. split; [exact Hts |].
    split; [exact H0 |].
    intros r Hr.
    destruct (Hrow r Hr) as (d' & t' & ts' & Hkd' & Hkt' & Hts' & Hd' & Ht' & Hs').
    rewrite Hkd in Hkd'. rewrite Hkt in Hkt'.
    injection Hkd' as <-. injection Hkt' as <-.
    repeat split; congruence.
Qed.

(** X4. The datetime of a record is never NaT: it is the timestamp that
    [strptime] reads from the date and the time of the record's group,
    which every row of the group carries as strings. *)
Theorem record_timestamp (filepath : file) (monitor_num : Z)
    (out : list TimeSeriesRecord) (r : TimeSeriesRecord) :
  parse_monitor_file filepath monitor_num = Ok out -> In r out ->
  exists df rows k group d t ts,
    monitor_frame filepath = Ok (df, rows)
    /\ In (k, group) (groupby df rows)
    /\ snd (fst k) = CStr d /\ snd k = CStr t
    /\ (forall x, In x group -> loc df x "date" = CStr d /\ loc df x "time" = CStr t)
    /\ strptime (String.append (String.append d " ") t) = Ok ts
    /\ ts_datetime r = Some ts.
Proof.
  intros H Hr.
  destruct (parse_monitor_file_records _ _ _ H) as (df & rows & Hframe & Hout).
  apply Hout in Hr. destruct Hr as (k & group & Hg & Hem).
  destruct (group_timestamp _ _ _ _ _ Hframe Hg)
    as (d & t & ts & Hkd & Hkt & Hts & Hfirst & Hrows).
  exists df, rows, k, group, d, t, ts.
  split; [exact Hframe |]. split; [exact Hg |].
  split; [exact Hkd |]. split; [exact Hkt |].
  split; [intros x Hx; destruct (Hrows x Hx) as (? & ? & _); auto |].
  split; [exact Hts |].
  destruct Hem as (_ & _ & Hdt & _). congruence.
Qed.

Lemma record_timestamp_witness :
  exists ts, ts_datetime (mkTS (Some 1704067200) 5 1 5 2 0) = Some ts.
Proof.
  destruct (record_timestamp ex_log5 5 [mkTS (Some 1704067200) 5 1 5 2 0]
              (mkTS (Some 1704067200) 5 1 5 2 0))
    as (df & rows & k & group & d & t & ts & _ & _ & _ & _ & _ & _ & Hts).
  - vm_compute. reflexivity.
  - simpl. auto.
  - exists ts. exact Hts.
Defined.

(** ** The saved time-series table *)

Lemma parsed_record_fields (filepath : file) (monitor_num : Z)
    (out : list TimeSeriesRecord) (r : TimeSeriesRecord) :
  parse_monitor_file filepath monitor_num = Ok out -> In r out ->
  ts_monitor r = monitor_num /\ 1 <= ts_channel r <= 32
  /\ exists ts, ts_datetime r = Some ts.
Proof.
  intros H Hr.
  destruct (parse_monitor_file_records _ _ _ H) as (df & rows & Hframe & Hout).
  apply Hout in Hr. destruct Hr as (k & group & Hg & Hem).
  destruct (group_timestamp _ _ _ _ _ Hframe Hg)
    as (d & t & ts & _ & _ & _ & Hfirst & _).
  destruct Hem as (Hch & Hm & Hdt & _).
  split; [exact Hm |]. split; [exact Hch |]. exists ts. congruence.
Qed.

(** X5. When the run succeeds, the saved time-series table holds at least
    one record of monitor 5 and one of monitor 6, and every record in it
    has monitor 5 or 6, a channel from 1 to 32 and a datetime that is not
    NaT. *)
Theorem saved_table_records (details monitor5 monitor6 : file) (out : outputs)
    (joined : list (TimeSeriesRecord * FlyMetadataRecord)) :
  main details monitor5 monitor6 = (out, Ok joined) ->
  exists table,
    time_series_data_csv out = Some table
    /\ (exists r, In r table /\ ts_monitor r = 5)
    /\ (exists r, In r table /\ ts_monitor r = 6)
    /\ forall r, In r table ->
                 (ts_monitor r = 5 \/ ts_monitor r = 6)
                 /\ 1 <= ts_channel r <= 32
                 /\ exists ts, ts_datetime r = Some ts.
Proof.
  unfold main, main_script, and_then, run, save_metadata, save_time_series.
  destruct (parse_details details) as [md | e]; simpl; [| discriminate].
  destruct (parse_monitor_file monitor5 5) as [d5 | e] eqn:H5; simpl; [| discriminate].
  destruct (parse_monitor_file monitor6 6) as [d6 | e] eqn:H6; simpl; [| discriminate].
  intros H. injection H as <- _. simpl.
  exists (sort_values (d5 ++ d6)). split; [reflexivity |].
  assert (Hin : forall r, In r (sort_values (d5 ++ d6)) <-> In r d5 \/ In r d6).
  { intros r. unfold sort_values. rewrite sort_In. apply in_app_iff. }
  split; [| split].
  - destruct d5 as [| r d5']; [exfalso; exact (parsed_table_not_empty _ _ _ H5 eq_refl) |].
    exists r. split; [apply Hin; left; left; reflexivity |].
    apply (parsed_record_fields _ _ _ r H5). left. reflexivity.
  - destruct d6 as [| r d6']; [exfalso; exact (parsed_table_not_empty _ _ _ H6 eq_refl) |].
    exists r. split; [apply Hin; right; left; reflexivity |].
    apply (parsed_record_fields _ _ _ r H6). left. reflexivity.
  - intros r Hr. apply Hin in Hr. destruct Hr as [Hr | Hr].
    + destruct (parsed_record_fields _ _ _ r H5 Hr) as (Hm & Hc & Ht). auto.
    + destruct (parsed_record_fields _ _ _ r H6 Hr) as (Hm & Hc & Ht). auto.
Qed.

Lemma saved_table_records_witness :
  exists table,
    time_series_data_csv (fst (main ex_details ex_log5 ex_log6)) = Some table
    /\ exists r, In r table /\ ts_monitor r = 6.
Proof.
  destruct (main ex_details ex_log5 ex_log6) as [out [joined | e]] eqn:E;
    [| vm_compute in E; discriminate].
  destruct (saved_table_records ex_details ex_log5 ex_log6 out joined E)
    as (table & Ht & _ & H6 & _).
  exists table. split; assumption.
Defined.

(** ** The lines of the details file *)

Lemma mapM_same_length {A B : Type} (f : A -> result B) (l : list A) (l' : list B) :
  mapM f l = Ok l' -> List.length l' = List.length l.
Proof.
  intros H. apply mapM_Forall2, Forall2_length in H. auto.
Qed.

Lemma try_int64_overflow (tokens : list string) :
  try_int64 tokens = ERROR_OVERFLOW ->
  exists t, In t tokens /\ str_to_int64 t = ERROR_OVERFLOW.
Proof.
  induction tokens as [| t r IH]; simpl; [discriminate |].
  destruct (is_na_token t).
  - intros H. destruct (IH H) as (t' & Hin & Ht'). eauto.
  - destruct (str_to_int64 t) eqn:E.
    + intros H. destruct (IH H) as (t' & Hin & Ht'). eauto.
    + intros _. eauto.
    + discriminate.
Qed.

(** A column is left unconverted, or read as uint64, only when one of
    its fields overflows int64. *)
Lemma infer_overflow (tokens : list string) :
  infer tokens = KRaw \/ infer tokens = KUInt ->
  exists t, In t tokens /\ str_to_int64 t = ERROR_OVERFLOW.
Proof.
  unfold infer. destruct tokens as [| t0 r]; [intros [H | H]; discriminate |].
  destruct (try_int64 (t0 :: r)) eqn:E.
  - destruct (existsb is_na_token (t0 :: r)); intros [H | H]; discriminate.
  - intros _. apply try_int64_overflow. exact E.
  - repeat match goal with
           | |- context [if ?b then _ else _] => destruct b
           end; intros [H | H]; discriminate.
Qed.

Lemma convert_no_na_string (k : kind) (t s : string) :
  k <> KRaw -> convert k t = CStr s -> is_na_token s = false.
Proof.
  intros Hk H. destruct (convert_string _ _ _ H) as [-> | ->]; [| contradiction].
  unfold convert in H. destruct (is_na_token t) eqn:E; [discriminate |].
  injection H as <-. exact E.
Qed.

Lemma empty_field_no_overflow : str_to_int64 "" <> ERROR_OVERFLOW.
Proof.
  discriminate.
Qed.

Lemma field_no_overflow (j : nat) (row : list string) :
  (forall t, In t row -> str_to_int64 t <> ERROR_OVERFLOW) ->
  str_to_int64 (field j row) <> ERROR_OVERFLOW.
Proof.
  intros H. unfold field.
  destruct (nth_in_or_default j row "") as [Hin | ->].
  - apply H. exact Hin.
  - exact empty_field_no_overflow.
Qed.

Lemma make_frame_no_na_string (names : list string) (leading width : nat)
    (rows : list (list string)) (line : list cell) (j : nat) (s : string) :
  (forall row t, In row rows -> In t row -> str_to_int64 t <> ERROR_OVERFLOW) ->
  In line (data (make_frame names leading width rows)) ->
  nth j line CNaN = CStr s -> is_na_token s = false.
Proof.
  intros Hrows. unfold make_frame. cbn [data]. rewrite in_map_iff.
  intros (row & <- & _) H.
  apply (nth_converted (fun i k => convert k (field i row))) in H.
  destruct H as [H | (k & Hk & H)]; [discriminate |].
  symmetry in H.
  apply (convert_no_na_string k (field (leading + j) row) s); [| exact H].
  intros ->. apply nth_error_In, in_map_iff in Hk.
  destruct Hk as (i & Hi & _).
  destruct (infer_overflow _ (or_introl Hi)) as (t & Ht & Hover).
  apply in_map_iff in Ht. destruct Ht as (row' & <- & Hrow').
  apply (field_no_overflow i row'); [| exact Hover].
  intros t. apply Hrows. exact Hrow'.
Qed.

Lemma fill_fields (width : nat) (line row : list string) (t : string) :
  fill width line = Ok row -> In t row -> In t line \/ t = "".
Proof.
  unfold fill. destruct (List.length line <=? width)%nat; [| discriminate].
  intros H. injection H as <-. intros Hin.
  apply in_app_or in Hin. destruct Hin as [Hin | Hin]; [auto |].
  right. apply repeat_spec in Hin. exact Hin.
Qed.

Lemma read_csv_frame (filepath : file) (df : DataFrame) :
  read_csv filepath = Ok df ->
  exists header body,
    filepath = Some (header :: body)
    /\ columns df = header
    /\ List.length (data df) = List.length body
    /\ ((forall line t, In line body -> In t line -> str_to_int64 t <> ERROR_OVERFLOW) ->
        forall line j s, In line (data df) -> nth j line CNaN = CStr s ->
                         is_na_token s = false).
Proof.
  unfold read_csv. intros H. inv_bind H as lines Hlines.
  destruct filepath as [lines' |]; simpl in Hlines; [| discriminate].
  injection Hlines as ->.
  destruct lines as [| header body]; [discriminate |].
  inv_bind H as rows Hrows. injection H as <-.
  exists header, body. split; [reflexivity |]. split; [reflexivity |].
  split.
  - unfold make_frame. cbn [data]. rewrite length_map.
    eapply mapM_same_length. exact Hrows.
  - intros Hbody line j s. apply make_frame_no_na_string.
    intros row t Hrow Ht.
    destruct (Forall2_In_right _ _ _ _ (mapM_Forall2 _ _ _ Hrows) Hrow)
      as (line0 & Hline0 & Hfill).
    destruct (fill_fields _ _ _ _ Hfill Ht) as [Hin | ->].
    + exact (Hbody line0 t Hline0 Hin).
    + exact empty_field_no_overflow.
Qed.

Lemma filter_all {A : Type} (p : A -> bool) (l : list A) :
  (forall x, In x l -> p x = true) -> filter p l = l.
Proof.
  induction l as [| x l IH]; simpl; intros H; [reflexivity |].
  rewrite (H x) by auto. rewrite IH by auto. reflexivity.
Qed.

(** X6. In a details file without an integer outside int64,
    [parse_details] returns one record for every data line, in order: a
    field that reads "NA" reaches the table as a missing value, never as
    the string "NA", so the filter on the genotype removes no row. *)
Theorem every_details_line_kept (filepath : file) (out : list FlyMetadataRecord) :
  parse_details filepath = Ok out ->
  (forall header body line t,
      filepath = Some (header :: body) -> In line body -> In t line ->
      str_to_int64 t <> ERROR_OVERFLOW) ->
  details_table filepath = Ok out
  /\ exists header body df,
       filepath = Some (header :: body)
       /\ read_csv filepath = Ok df
       /\ List.length out = List.length body
       /\ Forall2 (derived_from df) (data df) out.
Proof.
  intros H Hfields.
  destruct (parse_details_lines _ _ H) as (df & table & Hdf & Htable & Hout & Hall & _).
  destruct (read_csv_frame _ _ Hdf) as (header & body & Hfile & _ & Hlen & Hna).
  assert (E : out = table).
  { rewrite Hout. apply filter_all. intros r Hr.
    destruct (Forall2_In_right _ _ _ _ Hall Hr) as (line & Hline & Hd).
    destruct Hd as (_ & _ & _ & Hg & _). rewrite Hg.
    unfold entry. destruct (index_of "Genotype" (columns df)) as [j |]; [| reflexivity].
    destruct (nth j line CNaN) as [x | q | b | | b | s] eqn:Ecell; try reflexivity.
    simpl.
    assert (Hs : is_na_token s = false).
    { apply (Hna (fun line0 t => Hfields header body line0 t Hfile) line j s Hline Ecell). }
    destruct (String.eqb_spec s "NA") as [-> | _]; [| reflexivity].
    vm_compute in Hs. discriminate. }
  subst table. split; [exact Htable |].
  exists header, body, df. split; [exact Hfile |]. split; [exact Hdf |].
  split; [| exact Hall].
  rewrite <- Hlen. symmetry. eapply Forall2_length. exact Hall.
Qed.

Lemma every_details_line_kept_witness :
  exists out, parse_details details_unused_channel = Ok out /\ List.length out = 2%nat.
Proof.
  destruct (parse_details details_unused_channel) as [out |] eqn:E;
    [| vm_compute in E; discriminate].
  exists out. split; [reflexivity |].
  destruct (every_details_line_kept _ _ E) as (_ & header & body & df & Hf & _ & Hlen & _).
  - intros header body line t Hf Hline Ht. injection Hf as <- <-.
    simpl in Hline. destruct Hline as [<- | [<- | []]];
      simpl in Ht; intuition (subst; discriminate).
  - injection Hf as <- <-. exact Hlen.
Defined.

(** The condition on the integers is needed: in a Genotype column that
    is left unconverted the field "NA" stays the string "NA", and the
    filter removes its row. *)
Lemma unconverted_genotype_filtered :
  parse_details details_raw_genotype
  = Ok [ mkFly 5 1 "M5_Ch01" (CStr "9223372036854775808") (CStr "M") (CStr "ctl") ].
Proof.
  vm_compute. reflexivity.
Qed.

Lemma nth_constant {A B : Type} (b : B) (l : list A) (j : nat) :
  nth j (map (fun _ => b) l) b = b.
Proof.
  revert j. induction l as [| x l IH]; intros [| j]; simpl; auto.
Qed.

Lemma get_column_no_rows (names : list string) (leading width : nat) (name : string) :
  get_column (make_frame names leading width []) name
  = match index_of name names with
    | Some _ => Ok (Object, [])
    | None => Raise KeyError
    end.
Proof.
  unfold get_column, make_frame. cbn [columns dtypes data map].
  destruct (index_of name names) as [j |]; [| reflexivity].
  rewrite map_map. cbn [map infer dtype_of].
  rewrite nth_constant. reflexivity.
Qed.

(** X7. A details file without data lines never gives a table: a missing
    file raises FileNotFoundError, a file without any line EmptyDataError,
    and a file with only the header line raises as well, ValueError when
    the header has the five required columns. *)
Theorem details_without_lines :
  parse_details None = Raise FileNotFoundError
  /\ parse_details (Some []) = Raise EmptyDataError
  /\ (forall header, aborts (parse_details (Some [header])))
  /\ (forall header,
        (forall name, In name details_header -> index_of name header <> None) ->
        parse_details (Some [header]) = Raise ValueError).
Proof.
  assert (Hheader : forall header,
             parse_details (Some [header]) = Raise ValueError
             \/ (parse_details (Some [header]) = Raise KeyError
                 /\ exists name, In name details_header /\ index_of name header = None)).
  { intros header.
    unfold parse_details, details_table, read_csv. cbn [open bind mapM].
    rewrite !get_column_no_rows.
    destruct (index_of "Monitor" header) eqn:E1;
      [| right; split; [reflexivity | exists "Monitor"; simpl; auto]].
    cbn [bind mapM snd map].
    destruct (index_of "Channel" header) eqn:E2;
      [| right; split; [reflexivity | exists "Channel"; simpl; auto]].
    cbn [bind mapM snd fst map str_accessor existsb].
    destruct (index_of "Genotype" header) eqn:E3;
      [| right; split; [reflexivity | exists "Genotype"; simpl; auto]].
    cbn [bind].
    destruct (index_of "Sex" header) eqn:E4;
      [| right; split; [reflexivity | exists "Sex"; simpl; auto 10]].
    cbn [bind].
    destruct (index_of "Treatment" header) eqn:E5;
      [| right; split; [reflexivity | exists "Treatment"; simpl; auto 10]].
    left. reflexivity. }
  split; [reflexivity |]. split; [reflexivity |]. split.
  - intros header. destruct (Hheader header) as [-> | [-> _]]; eexists; reflexivity.
  - intros header Hall.
    destruct (Hheader header) as [H | [_ (name & Hname & Hnone)]]; [exact H |].
    exfalso. exact (Hall name Hname Hnone).
Qed.

Lemma details_without_lines_witness :
  parse_details (Some [details_header]) = Raise ValueError.
Proof.
  apply (proj2 (proj2 (proj2 details_without_lines)) details_header).
  intros name Hname. simpl in Hname.
  destruct Hname as [<- | [<- | [<- | [<- | [<- | []]]]]]; discriminate.
Defined.

(** ** How many records a log gives *)

Lemma concat_length_bound {A B : Type} (R : A -> list B -> Prop) (n : nat)
    (l : list A) (ls : list (list B)) :
  Forall2 R l ls ->
  (forall x ys, R x ys -> (List.length ys <= n)%nat) ->
  (List.length (List.concat ls) <= n * List.length l)%nat.
Proof.
  intros H Hn. induction H as [| x ys l ls Hx H IH]; simpl; [lia |].
  rewrite length_app. pose proof (Hn x ys Hx). lia.
Qed.

Lemma channel_records_length (df : DataFrame) (datetime_val : option Z) (monitor_num : Z)
    (mt_data ct_data pn_data : option row) (channel : Z) (l : list TimeSeriesRecord) :
  channel_records df datetime_val monitor_num mt_data ct_data pn_data channel = Ok l ->
  (List.length l <= 1)%nat.
Proof.
  unfold channel_records. intros H. inv_bind H as active Hactive.
  destruct active.
  - inv_bind H as mt Hmt. inv_bind H as ct Hct. inv_bind H as pn Hpn.
    injection H as <-. simpl. lia.
  - injection H as <-. simpl. lia.
Qed.

Lemma group_records_length (df : DataFrame) (monitor_num : Z) (group : list row)
    (l : list TimeSeriesRecord) :
  group_records df monitor_num group = Ok l -> (List.length l <= 32)%nat.
Proof.
  unfold group_records. intros H. inv_bind H as recs Hrecs. injection H as <-.
  apply mapM_Forall2 in Hrecs.
  apply (concat_length_bound _ 1) in Hrecs.
  - simpl in Hrecs. lia.
  - intros channel ys. apply channel_records_length.
Qed.

Lemma unique_length (l : list key) : (List.length (unique l) <= List.length l)%nat.
Proof.
  induction l as [| k l IH]; simpl; [lia |].
  pose proof (filter_length_le (fun k' => negb (key_eqb k k')) (unique l)). lia.
Qed.

Lemma groupby_length (df : DataFrame) (rows : list row) :
  (List.length (groupby df rows) <= List.length rows)%nat.
Proof.
  unfold groupby. rewrite length_map.
  rewrite <- (Permutation_length (sort_perm key_leb _)).
  eapply Nat.le_trans; [apply unique_length |].
  rewrite length_map. apply filter_length_le.
Qed.

Lemma named_frame_lines (filepath : file) (df : DataFrame) :
  named_frame filepath = Ok df ->
  exists lines, filepath = Some lines /\ List.length (data df) = List.length lines.
Proof.
  unfold named_frame, read_csv_noheader. intros H.
  inv_bind H as df0 Hdf0. inv_bind Hdf0 as lines Hlines.
  destruct filepath as [lines' |]; simpl in Hlines; [| discriminate].
  injection Hlines as ->. exists lines. split; [reflexivity |].
  destruct lines as [| first rest]; [discriminate |].
  inv_bind Hdf0 as rows Hrows. injection Hdf0 as <-.
  unfold set_columns in H.
  match type of H with
  | (if ?b then _ else _) = _ => destruct b; [| discriminate]
  end.
  injection H as <-. cbn [data make_frame]. rewrite length_map.
  eapply mapM_same_length. exact Hrows.
Qed.

Lemma monitor_frame_length (filepath : file) (df : DataFrame) (rows : list row) :
  monitor_frame filepath = Ok (df, rows) ->
  (List.length rows <= List.length (data df))%nat.
Proof.
  unfold monitor_frame. intros H.
  inv_bind H as df' Hdf. inv_bind H as date Hdate. inv_bind H as date_ Hdate_.
  inv_bind H as time Htime. inv_bind H as date_time Hdate_time.
  inv_bind H as datetime Hdatetime.
  injection H as <- <-.
  eapply Nat.le_trans; [apply filter_length_le |].
  unfold row. rewrite length_combine. lia.
Qed.

(** X8. A log gives at most 32 records for each group of its rows, and
    it has at most as many groups as lines: the table of a log of n lines
    has at most 32 n records. *)
Theorem record_count_bound (filepath : file) (monitor_num : Z)
    (out : list TimeSeriesRecord) :
  parse_monitor_file filepath monitor_num = Ok out ->
  exists df rows lines,
    monitor_frame filepath = Ok (df, rows)
    /\ filepath = Some lines
    /\ (List.length out <= 32 * List.length (groupby df rows))%nat
    /\ (List.length (groupby df rows) <= List.length lines)%nat
    /\ (List.length out <= 32 * List.length lines)%nat.
Proof.
  unfold parse_monitor_file. intros H.
  inv_bind H as frame Hframe. destruct frame as [df rows].
  inv_bind H as lists Hlists. unfold report_channels in H.
  destruct (List.concat lists) as [| x l] eqn:E; [discriminate |].
  injection H as <-. rewrite <- E.
  destruct (named_frame_lines _ _ (monitor_frame_named _ _ _ Hframe))
    as (lines & Hfile & Hlen).
  exists df, rows, lines. split; [exact Hframe |]. split; [exact Hfile |].
  assert (H1 : (List.length (List.concat lists) <= 32 * List.length (groupby df rows))%nat).
  { apply mapM_Forall2 in Hlists.
    apply (concat_length_bound _ 32) in Hlists; [exact Hlists |].
    intros g ys. apply group_records_length. }
  assert (H2 : (List.length (groupby df rows) <= List.length lines)%nat).
  { rewrite <- Hlen.
    eapply Nat.le_trans; [apply groupby_length |].
    eapply monitor_frame_length. exact Hframe. }
  split; [exact H1 |]. split; [exact H2 |]. lia.
Qed.

Lemma record_count_bound_witness :
  exists out, parse_monitor_file log_repeated 5 = Ok out /\ (List.length out <= 96)%nat.
Proof.
  destruct (parse_monitor_file log_repeated 5) as [out |] eqn:E;
    [| vm_compute in E; discriminate].
  exists out. split; [reflexivity |].
  destruct (record_count_bound _ _ _ E) as (df & rows & lines & _ & Hf & _ & _ & Hlen).
  injection Hf as <-. exact Hlen.
Defined.

(** ** The join when every fly is known *)

Lemma merge_left (left : list TimeSeriesRecord) (right : list FlyMetadataRecord) :
  NoDup (map fly_key right) ->
  (forall t, In t left -> In (ts_key t) (map fly_key right)) ->
  map fst (merge left right) = left.
Proof.
  intros Hnd. unfold merge.
  induction left as [| t left IH]; simpl; intros Hall; [reflexivity |].
  rewrite map_app, IH by auto. rewrite map_map. simpl.
  destruct (unique_match t right Hnd) as [Hone _].
  specialize (Hone (Hall t (or_introl eq_refl))).
  destruct (filter (on_key t) right) as [| m [| m' l]]; try discriminate.
  reflexivity.
Qed.

(** X9. When the keys of the metadata table are unique and every
    (monitor, channel) of the time-series table has a metadata row, the
    join has the rows of the time-series table, each once and in the same
    order, each with the metadata of its fly: the joined rows are the same
    as the time series, as the report prints. *)
Theorem join_is_time_series (details monitor5 monitor6 : file) (out : outputs)
    (joined : list (TimeSeriesRecord * FlyMetadataRecord))
    (fly_metadata : list FlyMetadataRecord) (time_series : list TimeSeriesRecord) :
  main details monitor5 monitor6 = (out, Ok joined) ->
  fly_metadata_csv out = Some fly_metadata ->
  time_series_data_csv out = Some time_series ->
  NoDup (map fly_key fly_metadata) ->
  (forall t, In t time_series -> In (ts_key t) (map fly_key fly_metadata)) ->
  map fst joined = time_series
  /\ forall t m, In (t, m) joined -> In m fly_metadata /\ fly_key m = ts_key t.
Proof.
  intros Hmain Hmd Hts Hnd Hall.
  destruct (main_saved_time_series _ _ _ _ _ _ Hmain Hts)
    as (md & d5 & d6 & _ & _ & _ & _ & Hmd' & Hres).
  rewrite Hmd in Hmd'. injection Hmd' as <-. injection Hres as ->.
  split; [apply merge_left; assumption |].
  intros t m Hin. apply merge_In in Hin. tauto.
Qed.

Lemma join_is_time_series_witness :
  exists joined time_series,
    snd (main ex_details ex_log5 ex_log6) = Ok joined
    /\ time_series_data_csv (fst (main ex_details ex_log5 ex_log6)) = Some time_series
    /\ map fst joined = time_series.
Proof.
  destruct (main ex_details ex_log5 ex_log6) as [out [joined | e]] eqn:E;
    [| vm_compute in E; discriminate].
  vm_compute in E. injection E as <- <-.
  do 2 eexists. split; [reflexivity |]. split; [reflexivity |].
  refine (proj1 (join_is_time_series ex_details ex_log5 ex_log6 _ _ _ _ _ _ _ _ _)).
  - vm_compute. reflexivity.
  - reflexivity.
  - reflexivity.
  - repeat constructor; simpl; intuition discriminate.
  - intros t [<- | [<- | []]]; simpl; auto.
Defined.

(** ** The key (datetime, monitor, channel) *)

Lemma NoDup_concat_tagged {A B K T : Type} (R : A -> list B -> Prop)
    (key : B -> K) (tag : A -> T) (tagof : K -> T)
    (l : list A) (ls : list (list B)) :
  Forall2 R l ls ->
  NoDup (map tag l) ->
  (forall x ys, R x ys ->
                NoDup (map key ys) /\ forall y, In y ys -> tagof (key y) = tag x) ->
  NoDup (map key (List.concat ls)).
Proof.
  intros H Hnd HR. induction H as [| x ys l ls Hx H IH]; simpl; [constructor |].
  simpl in Hnd. inversion Hnd as [| ? ? Hnotin Hnd']; subst.
  rewrite map_app. destruct (HR x ys Hx) as [Hys Htag].
  apply NoDup_app; [exact Hys | apply IH; exact Hnd' |].
  intros kk Hin1 Hin2.
  apply in_map_iff in Hin1. destruct Hin1 as (y & <- & Hy).
  apply in_map_iff in Hin2. destruct Hin2 as (y' & E & Hy').
  apply in_concat in Hy'. destruct Hy' as (ys' & Hys' & Hy').
  destruct (Forall2_In_right _ _ _ _ H Hys') as (x' & Hx' & HRx').
  destruct (HR x' ys' HRx') as [_ Htag'].
  apply Hnotin. apply in_map_iff. exists x'. split; [| exact Hx'].
  rewrite <- (Htag y Hy), <- (Htag' y' Hy'), E. reflexivity.
Qed.

Lemma range_NoDup (a b : Z) : NoDup (range a b).
Proof.
  unfold range. generalize (Z.to_nat (b - a)) as n. intros n.
  generalize 0%nat as s. induction n as [| n IH]; intros s; simpl; constructor.
  - rewrite in_map_iff. intros (k & E & Hk). apply in_seq in Hk. lia.
  - apply IH.
Qed.

Lemma group_records_keys (df : DataFrame) (monitor_num : Z) (group : list row)
    (l : list TimeSeriesRecord) :
  group_records df monitor_num group = Ok l ->
  NoDup (map primary_key l)
  /\ forall r, In r l -> fst (fst (primary_key r)) = first_datetime group.
Proof.
  intros H. split.
  - unfold group_records in H. inv_bind H as recs Hrecs. injection H as <-.
    apply mapM_Forall2 in Hrecs.
    apply (NoDup_concat_tagged _ primary_key (fun c : Z => c) snd _ _ Hrecs).
    + rewrite map_id. apply range_NoDup.
    + intros channel ys Hys. split.
      * pose proof (channel_records_length _ _ _ _ _ _ _ _ Hys) as Hlen.
        destruct ys as [| y [| y' ys]]; simpl in *; try lia; repeat constructor; auto.
      * intros y Hy. apply (channel_records_In _ _ _ _ _ _ _ _ y Hys) in Hy.
        simpl. tauto.
  - intros r Hr. apply (group_records_In _ _ _ _ r H) in Hr.
    destruct Hr as (_ & _ & Hdt & _). exact Hdt.
Qed.

Lemma parsed_keys_unique (filepath : file) (monitor_num : Z) (df : DataFrame)
    (rows : list row) (out : list TimeSeriesRecord) :
  parse_monitor_file filepath monitor_num = Ok out ->
  monitor_frame filepath = Ok (df, rows) ->
  distinct_instants df rows ->
  NoDup (map primary_key out).
Proof.
  unfold parse_monitor_file. intros H Hframe Hdistinct.
  rewrite Hframe in H. cbn [bind] in H.
  inv_bind H as lists Hlists. unfold report_channels in H.
  destruct (List.concat lists) as [| x l] eqn:E; [discriminate |].
  injection H as <-. rewrite <- E.
  apply mapM_Forall2 in Hlists.
  apply (NoDup_concat_tagged _ primary_key
           (fun g : key * list row => first_datetime (snd g))
           (fun pk : option Z * Z * Z => fst (fst pk)) _ _ Hlists Hdistinct).
  intros g ys Hys. apply group_records_keys in Hys. exact Hys.
Qed.

(** X10. When no two groups of a log have the same timestamp, and this
    holds of both logs, (datetime, monitor, channel) is a key of the saved
    time-series table: no two of its records agree on all three. *)
Theorem time_series_key_unique (details monitor5 monitor6 : file) (out : outputs)
    (joined : list (TimeSeriesRecord * FlyMetadataRecord))
    (table : list TimeSeriesRecord)
    (df5 df6 : DataFrame) (rows5 rows6 : list row) :
  main details monitor5 monitor6 = (out, Ok joined) ->
  time_series_data_csv out = Some table ->
  monitor_frame monitor5 = Ok (df5, rows5) -> distinct_instants df5 rows5 ->
  monitor_frame monitor6 = Ok (df6, rows6) -> distinct_instants df6 rows6 ->
  NoDup (map primary_key table).
Proof.
  intros Hmain Ht Hf5 Hd5 Hf6 Hd6.
  destruct (main_saved_time_series _ _ _ _ _ _ Hmain Ht)
    as (md & d5 & d6 & _ & H5 & H6 & -> & _).
  eapply Permutation_NoDup.
  - apply Permutation_map. unfold sort_values. apply sort_perm.
  - rewrite map_app. apply NoDup_app.
    + eapply parsed_keys_unique; eassumption.
    + eapply parsed_keys_unique; eassumption.
    + intros pk Hin5 Hin6.
      apply in_map_iff in Hin5. destruct Hin5 as (r5 & <- & Hr5).
      apply in_map_iff in Hin6. destruct Hin6 as (r6 & E & Hr6).
      destruct (parsed_record_fields _ _ _ _ H5 Hr5) as (Hm5 & _).
      destruct (parsed_record_fields _ _ _ _ H6 Hr6) as (Hm6 & _).
      unfold primary_key in E. injection E as _ Em _. lia.
Qed.

Lemma time_series_key_unique_witness :
  exists table,
    time_series_data_csv (fst (main ex_details ex_log5 ex_log6)) = Some table
    /\ NoDup (map primary_key table).
Proof.
  destruct (main ex_details ex_log5 ex_log6) as [out [joined | e]] eqn:E;
    [| vm_compute in E; discriminate].
  destruct (time_series_data_csv out) as [table |] eqn:Ht;
    [| vm_compute in E; injection E as <- _; discriminate].
  destruct (monitor_frame ex_log5) as [[df5 rows5] | e] eqn:E5;
    [| vm_compute in E5; discriminate].
  destruct (monitor_frame ex_log6) as [[df6 rows6] | e] eqn:E6;
    [| vm_compute in E6; discriminate].
  exists table. split; [exact Ht |].
  apply (time_series_key_unique ex_details ex_log5 ex_log6 out joined table
           df5 df6 rows5 rows6 E Ht E5).
  - vm_compute in E5. injection E5 as <- <-.
    unfold distinct_instants. vm_compute. repeat constructor. simpl. tauto.
  - exact E6.
  - vm_compute in E6. injection E6 as <- <-.
    unfold distinct_instants. vm_compute. repeat constructor. simpl. tauto.
Defined.

(** ** The fly identifier *)

Lemma to_int_not_nil (z : Z) :
  Z.to_int z <> Decimal.Pos Decimal.Nil /\ Z.to_int z <> Decimal.Neg Decimal.Nil.
Proof.
  destruct z as [| p | p]; simpl; split; try discriminate;
    intros H; injection H as H; exact (DecimalPos.Unsigned.to_uint_nonnil p H).
Qed.

Lemma str_of_int_decode (z : Z) :
  NilZero.int_of_string (str_of_int z) = Some (Z.to_int z).
Proof.
  unfold str_of_int. destruct (to_int_not_nil z). apply NilZero.isi; assumption.
Qed.

Lemma str_of_int_injective (x y : Z) : str_of_int x = str_of_int y -> x = y.
Proof.
  intros H. pose proof (str_of_int_decode x) as Hx. rewrite H, str_of_int_decode in Hx.
  injection Hx as Hx.
  rewrite <- (DecimalZ.of_to x), <- (DecimalZ.of_to y), Hx. reflexivity.
Qed.

Lemma no_underscore_in_uint (d : Decimal.uint) (c : ascii) :
  In c (chars (NilEmpty.string_of_uint d)) -> c <> "_"%char.
Proof.
  induction d as [| d IH | d IH | d IH | d IH | d IH | d IH | d IH | d IH | d IH | d IH];
    simpl; try tauto;
    (intros [<- | Hc]; [discriminate | exact (IH Hc)]).
Qed.

Lemma no_underscore_in_int (z : Z) (c : ascii) :
  In c (chars (str_of_int z)) -> c <> "_"%char.
Proof.
  assert (Hu : forall d, In c (chars (NilZero.string_of_uint d)) -> c <> "_"%char).
  { intros d. unfold NilZero.string_of_uint.
    destruct d; try apply no_underscore_in_uint.
    simpl. intros [<- | []]. discriminate. }
  unfold str_of_int, NilZero.string_of_int.
  destruct (Z.to_int z) as [d | d]; [apply Hu |].
  simpl. intros [<- | Hc]; [discriminate | exact (Hu d Hc)].
Qed.

Lemma split_at_underscore (a a' x x' : string) :
  (forall c, In c (chars a) -> c <> "_"%char) ->
  (forall c, In c (chars a') -> c <> "_"%char) ->
  String.append a (String "_" x) = String.append a' (String "_" x') ->
  a = a' /\ x = x'.
Proof.
  revert a'. induction a as [| c a IH]; intros [| c' a'] Ha Ha'; simpl; intros H.
  - injection H as ->. auto.
  - injection H as <- _. exfalso. apply (Ha' "_"%char); simpl; auto.
  - injection H as -> _. exfalso. apply (Ha "_"%char); simpl; auto.
  - injection H as -> H.
    destruct (IH a') as [-> ->]; auto.
    + intros d Hd. apply Ha. simpl. auto.
    + intros d Hd. apply Ha'. simpl. auto.
Qed.

Lemma string_of_uint_not_empty (d : Decimal.uint) :
  exists c s, NilZero.string_of_uint d = String c s.
Proof.
  destruct d; simpl; eauto.
Qed.

(** The padded channel reads back as the channel. *)
Lemma format_02d_decode (z : Z) :
  option_map Z.of_int (NilZero.int_of_string (format_02d z)) = Some z.
Proof.
  unfold format_02d.
  destruct (String.length (str_of_int z) <? 2)%nat eqn:E.
  - destruct z as [| p | p].
    + reflexivity.
    + unfold str_of_int. cbn [Z.to_int NilZero.string_of_int].
      pose proof (DecimalPos.Unsigned.to_uint_nonnil p) as Hnil.
      pose proof (DecimalPos.Unsigned.of_to p) as Hof.
      set (u := Pos.to_uint p) in *.
      assert (Es : String.append "0" (NilZero.string_of_uint u)
                   = NilZero.string_of_int (Decimal.Pos (Decimal.D0 u))).
      { destruct u; [contradiction | ..]; reflexivity. }
      rewrite Es, NilZero.isi by discriminate.
      cbn [option_map Z.of_int]. unfold Z.of_uint. cbn [Pos.of_uint].
      rewrite Hof. reflexivity.
    + exfalso. unfold str_of_int in E. cbn [Z.to_int NilZero.string_of_int] in E.
      destruct (string_of_uint_not_empty (Pos.to_uint p)) as (c & s & Hs).
      rewrite Hs in E. discriminate E.
  - rewrite str_of_int_decode. cbn [option_map]. rewrite DecimalZ.of_to. reflexivity.
Qed.

Lemma format_02d_injective (x y : Z) : format_02d x = format_02d y -> x = y.
Proof.
  intros H. pose proof (format_02d_decode x) as Hx.
  rewrite H, format_02d_decode in Hx. congruence.
Qed.

Lemma fly_id_injective (monitor channel monitor' channel' : Z) :
  fly_id monitor channel = fly_id monitor' channel' ->
  monitor = monitor' /\ channel = channel'.
Proof.
  unfold fly_id. simpl. intros H. injection H as H.
  apply split_at_underscore in H; try apply no_underscore_in_int.
  destruct H as [Hm Hc]. injection Hc as Hc.
  split; [apply str_of_int_injective | apply format_02d_injective]; assumption.
Qed.

(** X11. The fly_id determines the fly: two records of the metadata table
    with the same fly_id have the same monitor and the same channel.  The
    identifier "M{monitor}_Ch{channel:02d}" is different for different
    pairs of a monitor and a channel, whatever integers they are. *)
Theorem fly_id_identifies_fly :
  (forall monitor channel monitor' channel',
      fly_id monitor channel = fly_id monitor' channel' ->
      monitor = monitor' /\ channel = channel')
  /\ (forall filepath out r r',
        parse_details filepath = Ok out -> In r out -> In r' out ->
        fm_fly_id r = fm_fly_id r' ->
        fm_monitor r = fm_monitor r' /\ fm_channel r = fm_channel r').
Proof.
  split; [exact fly_id_injective |].
  intros filepath out r r' H Hr Hr' E.
  destruct (parse_details_lines _ _ H) as (df & table & _ & _ & _ & _ & Hout).
  destruct (Forall2_In_right _ _ _ _ Hout Hr) as (line & _ & _ & _ & Hid & _).
  destruct (Forall2_In_right _ _ _ _ Hout Hr') as (line' & _ & _ & _ & Hid' & _).
  apply fly_id_injective. unfold fly_id. congruence.
Qed.


(** ** Lines of the wrong width *)

Lemma mapM_fill_raise (width : nat) (lines : list (list string)) :
  Exists (fun line => (width < List.length line)%nat) lines ->
  mapM (fill width) lines = Raise ParserError.
Proof.
  induction lines as [| line lines IH]; intros H; [inversion H |].
  simpl. unfold fill at 1.
  destruct (Nat.leb_spec (List.length line) width) as [Hle | Hgt]; [| reflexivity].
  cbn [bind]. rewrite IH; [reflexivity |].
  inversion H as [? ? Hlong | ? ? Hlater]; subst; [lia | exact Hlater].
Qed.

Lemma mapM_fill_rows (width : nat) (lines : list (list string)) :
  Forall (fun line => (List.length line <= width)%nat) lines ->
  exists rows, mapM (fill width) lines = Ok rows.
Proof.
  apply mapM_fill_ok.
Qed.

(** X12. A log line with more fields than the first line makes
    [parse_monitor_file] raise ParserError; when no line is longer than
    the first and the first does not have 42 fields it raises ValueError.
    A line of the details file with more fields than both the header and
    the first data line makes [parse_details] raise ParserError. *)
Theorem wrong_width_errors :
  (forall first rest monitor_num,
      Exists (fun line => (List.length first < List.length line)%nat) rest ->
      parse_monitor_file (Some (first :: rest)) monitor_num = Raise ParserError)
  /\ (forall first rest monitor_num,
        Forall (fun line => (List.length line <= List.length first)%nat) rest ->
        List.length first <> 42%nat ->
        parse_monitor_file (Some (first :: rest)) monitor_num = Raise ValueError)
  /\ (forall header first rest,
        Exists (fun line => (Nat.max (List.length header) (List.length first)
                             < List.length line)%nat) rest ->
        parse_details (Some (header :: first :: rest)) = Raise ParserError).
Proof.
  split; [| split].
  - intros first rest monitor_num H.
    unfold parse_monitor_file, monitor_frame, named_frame, read_csv_noheader.
    cbn [open bind]. rewrite mapM_fill_raise; [reflexivity |].
    apply Exists_cons_tl. exact H.
  - intros first rest monitor_num Hall Hwidth.
    unfold parse_monitor_file, monitor_frame, named_frame, read_csv_noheader.
    cbn [open bind].
    destruct (mapM_fill_rows (List.length first) (first :: rest)) as [rows ->].
    { constructor; [lia | exact Hall]. }
    cbn [bind]. unfold set_columns. cbn [columns make_frame].
    rewrite default_names_length, monitor_columns_length.
    destruct (Nat.eqb_spec (List.length first) 42) as [E | _]; [contradiction |].
    reflexivity.
  - intros header first rest H.
    unfold parse_details, details_table, read_csv.
    cbn [open bind]. rewrite mapM_fill_raise; [reflexivity |].
    apply Exists_cons_tl. exact H.
Qed.

Lemma wrong_width_errors_witness :
  parse_monitor_file log_41_columns 5 = Raise ValueError.
Proof.
  apply (proj1 (proj2 wrong_width_errors)).
  - constructor.
  - vm_compute. discriminate.
Defined.

(** ** The report: channels per monitor *)

Lemma unique_values_In (l : list Z) (x : Z) : In x (unique_values l) <-> In x l.
Proof.
  induction l as [| y l IH]; simpl; [tauto |].
  rewrite filter_In, IH. split.
  - tauto.
  - intros [-> | H]; [auto |].
    destruct (Z.eqb_spec x y) as [-> | Hne]; [auto |].
    right. split; [exact H |]. destruct (Z.eqb_spec x y); [contradiction | reflexivity].
Qed.

Lemma unique_values_NoDup (l : list Z) : NoDup (unique_values l).
Proof.
  induction l as [| y l IH]; simpl; constructor.
  - rewrite filter_In, Z.eqb_refl. simpl. intros [_ H]. discriminate.
  - apply NoDup_filter. exact IH.
Qed.

Lemma two_monitors (l : list Z) :
  NoDup l -> (forall x, In x l <-> x = 5 \/ x = 6) -> l = [5; 6] \/ l = [6; 5].
Proof.
  intros Hnd Hin.
  destruct l as [| a [| b [| c l]]].
  - exfalso. apply (Hin 5). auto.
  - exfalso. assert (H5 : In 5 [a]) by (apply Hin; auto).
    assert (H6 : In 6 [a]) by (apply Hin; auto). simpl in *. lia.
  - assert (Ha : a = 5 \/ a = 6) by (apply Hin; simpl; auto).
    assert (Hb : b = 5 \/ b = 6) by (apply Hin; simpl; auto).
    inversion Hnd as [| ? ? Hnotin _]; subst. simpl in Hnotin.
    destruct Ha as [-> | ->], Hb as [-> | ->]; auto; exfalso; apply Hnotin; auto.
  - exfalso.
    assert (Ha : a = 5 \/ a = 6) by (apply Hin; simpl; auto).
    assert (Hb : b = 5 \/ b = 6) by (apply Hin; simpl; auto).
    assert (Hc : c = 5 \/ c = 6) by (apply Hin; simpl; auto).
    inversion Hnd as [| ? ? Hna Hnd']; subst.
    inversion Hnd' as [| ? ? Hnb _]; subst. simpl in Hna, Hnb.
    destruct Ha as [-> | ->], Hb as [-> | ->], Hc as [-> | ->]; tauto.
Qed.

Lemma sorted_two_monitors (l : list Z) :
  l = [5; 6] \/ l = [6; 5] -> sort Z.leb l = [5; 6].
Proof.
  intros [-> | ->]; reflexivity.
Qed.

Lemma nunique_channels (table : list TimeSeriesRecord) (m : Z) :
  (forall r, In r table -> 1 <= ts_channel r <= 32) ->
  (exists r, In r table /\ ts_monitor r = m) ->
  (1 <= nunique (map ts_channel (filter (fun r => (ts_monitor r =? m)%Z) table))
   <= 32)%nat.
Proof.
  intros Hch (r & Hr & Hm). unfold nunique.
  set (cs := map ts_channel (filter (fun r => ts_monitor r =? m) table)).
  split.
  - assert (Hin : In (ts_channel r) (unique_values cs)).
    { apply unique_values_In. unfold cs. apply in_map, filter_In.
      split; [exact Hr |]. apply Z.eqb_eq. exact Hm. }
    destruct (unique_values cs); [destruct Hin | simpl; lia].
  - change 32%nat with (List.length (range 1 33)).
    apply NoDup_incl_length; [apply unique_values_NoDup |].
    intros c Hc. apply (proj1 (unique_values_In _ _)) in Hc. unfold cs in Hc.
    apply in_map_iff in Hc. destruct Hc as (r' & <- & Hr').
    apply filter_In in Hr'. apply range_In.
    pose proof (Hch r' (proj1 Hr')). lia.
Qed.

(** X13. In the report of a successful run the monitors of the
    time-series table are 5 and 6, and the channels per monitor are given
    for monitor 5 and for monitor 6, in this order, each a number from 1
    to 32. *)
Theorem report_channels_per_monitor (details monitor5 monitor6 : file) (out : outputs)
    (joined : list (TimeSeriesRecord * FlyMetadataRecord))
    (table : list TimeSeriesRecord) :
  main details monitor5 monitor6 = (out, Ok joined) ->
  time_series_data_csv out = Some table ->
  (monitors table = [5; 6] \/ monitors table = [6; 5])
  /\ exists n5 n6,
       channels_per_monitor table = [(5, n5); (6, n6)]
       /\ (1 <= n5 <= 32)%nat /\ (1 <= n6 <= 32)%nat.
Proof.
  intros Hmain Ht.
  destruct (main_saved_time_series _ _ _ _ _ _ Hmain Ht)
    as (md & d5 & d6 & _ & H5 & H6 & -> & _).
  set (table := sort_values (d5 ++ d6)).
  assert (Hin : forall r, In r table <-> In r d5 \/ In r d6).
  { intros r. unfold table, sort_values. rewrite sort_In. apply in_app_iff. }
  assert (Hfields : forall r, In r table ->
             (ts_monitor r = 5 \/ ts_monitor r = 6) /\ 1 <= ts_channel r <= 32).
  { intros r Hr. apply Hin in Hr. destruct Hr as [Hr | Hr].
    - destruct (parsed_record_fields _ _ _ r H5 Hr) as (Hm & Hc & _). auto.
    - destruct (parsed_record_fields _ _ _ r H6 Hr) as (Hm & Hc & _). auto. }
  assert (Hhas5 : exists r, In r table /\ ts_monitor r = 5).
  { destruct d5 as [| r d5']; [exfalso; exact (parsed_table_not_empty _ _ _ H5 eq_refl) |].
    exists r. split; [apply Hin; left; left; reflexivity |].
    apply (parsed_record_fields _ _ _ r H5). left. reflexivity. }
  assert (Hhas6 : exists r, In r table /\ ts_monitor r = 6).
  { destruct d6 as [| r d6']; [exfalso; exact (parsed_table_not_empty _ _ _ H6 eq_refl) |].
    exists r. split; [apply Hin; right; left; reflexivity |].
    apply (parsed_record_fields _ _ _ r H6). left. reflexivity. }
  assert (Hmonitors : monitors table = [5; 6] \/ monitors table = [6; 5]).
  { apply two_monitors; [apply unique_values_NoDup |].
    intros x. unfold monitors. rewrite unique_values_In, in_map_iff. split.
    - intros (r & <- & Hr). apply Hfields. exact Hr.
    - intros [-> | ->].
      + destruct Hhas5 as (r & Hr & Hm). exists r. auto.
      + destruct Hhas6 as (r & Hr & Hm). exists r. auto. }
  split; [exact Hmonitors |].
  unfold channels_per_monitor. rewrite (sorted_two_monitors _ Hmonitors).
  do 2 eexists. split; [reflexivity |].
  split; apply nunique_channels; auto; intros r Hr; apply Hfields; exact Hr.
Qed.

Lemma report_channels_per_monitor_witness :
  exists table,
    time_series_data_csv (fst (main ex_details ex_log5 ex_log6)) = Some table
    /\ channels_per_monitor table = [(5, 1%nat); (6, 1%nat)].
Proof.
  destruct (main ex_details ex_log5 ex_log6) as [out [joined | e]] eqn:E;
    [| vm_compute in E; discriminate].
  destruct (time_series_data_csv out) as [table |] eqn:Ht;
    [| vm_compute in E; injection E as <- _; discriminate].
  exists table. split; [exact Ht |].
  destruct (report_channels_per_monitor _ _ _ _ _ _ E Ht)
    as (_ & n5 & n6 & Hc & _).
  rewrite Hc. vm_compute in E. injection E as <- _.
  simpl in Ht. injection Ht as <-.
  vm_compute in Hc. injection Hc as <- <-. reflexivity.
Defined.

(** ** The report: measurements per genotype and per treatment *)

Lemma cell_eqb_same (a b : cell) : cell_eqb a b = true <-> same_cell a b.
Proof.
  unfold cell_eqb. rewrite <- cell_compare_eq.
  destruct (cell_compare a b); split; congruence.
Qed.

Lemma unique_cells_In (l : list cell) (c : cell) : In c (unique_cells l) -> In c l.
Proof.
  induction l as [| c0 l IH]; simpl; [tauto |].
  intros [-> | H]; [auto |].
  apply filter_In in H. right. apply IH. tauto.
Qed.

Lemma unique_cells_represents (l : list cell) (c : cell) :
  In c l -> exists c', In c' (unique_cells l) /\ same_cell c' c.
Proof.
  induction l as [| c0 l IH]; simpl; [tauto |].
  intros [-> | H].
  - exists c. split; [auto | apply same_cell_refl].
  - destruct (IH H) as (c' & Hc' & Hsame).
    destruct (cell_eqb c0 c') eqn:E.
    + exists c0. split; [auto |].
      apply cell_eqb_same in E. eapply same_cell_trans; eassumption.
    + exists c'. split; [| exact Hsame].
      right. apply filter_In. rewrite E. auto.
Qed.

Lemma unique_cells_distinct (l : list cell) (c1 c2 : cell) :
  In c1 (unique_cells l) -> In c2 (unique_cells l) -> same_cell c1 c2 -> c1 = c2.
Proof.
  induction l as [| c0 l IH]; simpl; [tauto |].
  intros [<- | H1] [<- | H2] Hsame; auto.
  - apply filter_In in H2. destruct H2 as [_ H2].
    apply cell_eqb_same in Hsame. rewrite Hsame in H2. discriminate.
  - apply filter_In in H1. destruct H1 as [_ H1].
    apply same_cell_sym, cell_eqb_same in Hsame. rewrite Hsame in H1. discriminate.
  - apply filter_In in H1. apply filter_In in H2. apply IH; tauto.
Qed.

Lemma unique_cells_NoDup (l : list cell) : NoDup (unique_cells l).
Proof.
  induction l as [| c0 l IH]; simpl; constructor.
  - rewrite filter_In. intros [_ H].
    assert (E : cell_eqb c0 c0 = true) by (apply cell_eqb_same, same_cell_refl).
    rewrite E in H. discriminate.
  - apply NoDup_filter. exact IH.
Qed.

(** Counting the pairs of a relation by rows or by columns gives the same
    number. *)
Lemma double_counting {A B : Type} (p : A -> B -> bool) (ks : list A) (l : list B) :
  list_sum (map (fun k => List.length (filter (p k) l)) ks)
  = list_sum (map (fun x => List.length (filter (fun k => p k x) ks)) l).
Proof.
  induction l as [| x l IH]; simpl.
  - induction ks as [| k ks IHk]; simpl; auto.
  - rewrite <- IH. clear IH.
    induction ks as [| k ks IHk]; simpl; [reflexivity |].
    destruct (p k x); simpl; rewrite IHk; lia.
Qed.

Lemma exactly_one {A : Type} (q : A -> bool) (ks : list A) :
  NoDup ks ->
  (exists k, In k ks /\ q k = true) ->
  (forall k1 k2, In k1 ks -> In k2 ks -> q k1 = true -> q k2 = true -> k1 = k2) ->
  List.length (filter q ks) = 1%nat.
Proof.
  intros Hnd (k & Hk & Hq) Huniq.
  assert (Hf : NoDup (filter q ks)) by (apply NoDup_filter; exact Hnd).
  assert (Hin : In k (filter q ks)) by (apply filter_In; auto).
  destruct (filter q ks) as [| a [| b l]] eqn:E; [destruct Hin | reflexivity |].
  exfalso.
  assert (Ha : In a (filter q ks)) by (rewrite E; simpl; auto).
  assert (Hb : In b (filter q ks)) by (rewrite E; simpl; auto).
  apply filter_In in Ha. apply filter_In in Hb.
  assert (Eab : a = b) by (apply Huniq; tauto).
  subst b. inversion Hf as [| ? ? Hnotin _]; subst. apply Hnotin. simpl. auto.
Qed.

Lemma list_sum_ones {A : Type} (f : A -> nat) (l : list A) :
  (forall x, In x l -> f x = 1%nat) -> list_sum (map f l) = List.length l.
Proof.
  induction l as [| x l IH]; simpl; intros H; [reflexivity |].
  rewrite (H x) by auto. rewrite IH by auto. reflexivity.
Qed.

Lemma list_sum_permutation (l l' : list nat) :
  Permutation l l' -> list_sum l = list_sum l'.
Proof.
  induction 1; simpl; lia.
Qed.

(** X14. The counts of measurements per genotype, and per treatment, of
    the report add up to the number of joined rows whose genotype
    (treatment) is present, so to at most the number of joined rows: a
    row with a missing value is counted nowhere.  Every value listed has
    a count of at least 1, and no value is listed twice. *)
Theorem report_counts (column : FlyMetadataRecord -> cell)
    (joined : list (TimeSeriesRecord * FlyMetadataRecord)) :
  list_sum (map snd (group_sizes column joined))
  = List.length (filter (fun p => negb (isna (column (snd p)))) joined)
  /\ (list_sum (map snd (group_sizes column joined)) <= List.length joined)%nat
  /\ Forall (fun e => (1 <= snd e)%nat) (group_sizes column joined)
  /\ NoDup (map fst (group_sizes column joined)).
Proof.
  unfold group_sizes.
  set (kept := filter (fun p => negb (isna (column (snd p)))) joined).
  set (ks := unique_cells (map (fun p => column (snd p)) kept)).
  assert (Hsum : list_sum (map snd
                   (map (fun g => (g, List.length
                                        (filter (fun p => cell_eqb g (column (snd p))) kept)))
                        (sort cell_leb ks)))
                 = List.length kept).
  { rewrite map_map. cbn [snd].
    rewrite <- (list_sum_permutation _ _
                  (Permutation_map
                     (fun g => List.length
                                 (filter (fun p => cell_eqb g (column (snd p))) kept))
                     (sort_perm cell_leb ks))).
    rewrite (double_counting (fun g p => cell_eqb g (column (snd p))) ks kept).
    apply list_sum_ones. intros x Hx.
    apply exactly_one.
    - apply unique_cells_NoDup.
    - destruct (unique_cells_represents (map (fun p => column (snd p)) kept)
                  (column (snd x))) as (c' & Hc' & Hsame).
      { apply in_map_iff. exists x. auto. }
      exists c'. split; [exact Hc' | apply cell_eqb_same; exact Hsame].
    - intros k1 k2 H1 H2 Hq1 Hq2.
      apply (unique_cells_distinct _ _ _ H1 H2).
      apply cell_eqb_same in Hq1. apply cell_eqb_same in Hq2.
      eapply same_cell_trans; [exact Hq1 | apply same_cell_sym; exact Hq2]. }
  split; [exact Hsum |]. split; [| split].
  - rewrite Hsum. apply filter_length_le.
  - apply Forall_forall. intros e He.
    apply in_map_iff in He. destruct He as (g & <- & Hg). cbn [snd].
    apply sort_In, unique_cells_In, in_map_iff in Hg.
    destruct Hg as (x & <- & Hx).
    assert (Hin : In x (filter (fun p => cell_eqb (column (snd x)) (column (snd p))) kept)).
    { apply filter_In. split; [exact Hx |]. apply cell_eqb_same, same_cell_refl. }
    destruct (filter (fun p => cell_eqb (column (snd x)) (column (snd p))) kept);
      [destruct Hin | simpl; lia].
  - rewrite map_map. cbn [fst]. rewrite map_id.
    eapply Permutation_NoDup; [apply sort_perm | apply unique_cells_NoDup].
Qed.

(** ** The report: the date range *)

Lemma pick_none (choose : Z -> Z -> Z) (l : list (option Z)) (t : Z) :
  fold_right (pick choose) None l = None -> ~ In (Some t) l.
Proof.
  induction l as [| x l IH]; cbn [fold_right]; intros E Hin; [destruct Hin |].
  destruct x as [a |], (fold_right (pick choose) None l) as [b |];
    simpl in E; try discriminate.
  destruct Hin as [Hx | Hin]; [discriminate | exact (IH eq_refl Hin)].
Qed.

Lemma pick_attained (choose : Z -> Z -> Z) (l : list (option Z)) (m : Z) :
  (forall a b, choose a b = a \/ choose a b = b) ->
  fold_right (pick choose) None l = Some m -> In (Some m) l.
Proof.
  intros Hc. revert m. induction l as [| x l IH]; cbn [fold_right]; intros m E;
    [discriminate |].
  destruct x as [a |], (fold_right (pick choose) None l) as [b |]; simpl in E.
  - injection E as <-. destruct (Hc a b) as [-> | ->].
    + left. reflexivity.
    + right. apply IH. reflexivity.
  - injection E as <-. left. reflexivity.
  - right. apply IH. exact E.
  - discriminate.
Qed.

Lemma series_min_bound (l : list (option Z)) (m t : Z) :
  series_min l = Some m -> In (Some t) l -> m <= t.
Proof.
  unfold series_min. revert m.
  induction l as [| x l IH]; cbn [fold_right]; intros m E Hin; [destruct Hin |].
  destruct x as [a |], (fold_right (pick Z.min) None l) as [b |] eqn:Eb;
    simpl in E.
  - injection E as <-. destruct Hin as [Hx | Hin].
    + injection Hx as <-. lia.
    + specialize (IH b eq_refl Hin). lia.
  - injection E as <-. destruct Hin as [Hx | Hin].
    + injection Hx as <-. lia.
    + destruct (pick_none Z.min l t Eb Hin).
  - destruct Hin as [Hx | Hin]; [discriminate | exact (IH m E Hin)].
  - discriminate.
Qed.

Lemma series_max_bound (l : list (option Z)) (m t : Z) :
  series_max l = Some m -> In (Some t) l -> t <= m.
Proof.
  unfold series_max. revert m.
  induction l as [| x l IH]; cbn [fold_right]; intros m E Hin; [destruct Hin |].
  destruct x as [a |], (fold_right (pick Z.max) None l) as [b |] eqn:Eb;
    simpl in E.
  - injection E as <-. destruct Hin as [Hx | Hin].
    + injection Hx as <-. lia.
    + specialize (IH b eq_refl Hin). lia.
  - injection E as <-. destruct Hin as [Hx | Hin].
    + injection Hx as <-. lia.
    + destruct (pick_none Z.max l t Eb Hin).
  - destruct Hin as [Hx | Hin]; [discriminate | exact (IH m E Hin)].
  - discriminate.
Qed.

Lemma series_min_least (l : list (option Z)) (t0 : Z) :
  In (Some t0) l -> (forall t, In (Some t) l -> t0 <= t) ->
  series_min l = Some t0.
Proof.
  intros Hin Hle. destruct (series_min l) as [m |] eqn:E.
  - f_equal. pose proof (series_min_bound l m t0 E Hin) as H1.
    assert (H2 : In (Some m) l).
    { apply (pick_attained Z.min); [| exact E]. intros a b. lia. }
    specialize (Hle m H2). lia.
  - destruct (pick_none Z.min l t0 E Hin).
Qed.

Lemma series_max_greatest (l : list (option Z)) (t0 : Z) :
  In (Some t0) l -> (forall t, In (Some t) l -> t <= t0) ->
  series_max l = Some t0.
Proof.
  intros Hin Hle. destruct (series_max l) as [m |] eqn:E.
  - f_equal. pose proof (series_max_bound l m t0 E Hin) as H1.
    assert (H2 : In (Some m) l).
    { apply (pick_attained Z.max); [| exact E]. intros a b. lia. }
    specialize (Hle m H2). lia.
  - destruct (pick_none Z.max l t0 E Hin).
Qed.

Lemma sorted_last (l : list TimeSeriesRecord) (x d : TimeSeriesRecord) :
  StronglySorted key_le l -> In x l -> x = last l d \/ key_le x (last l d).
Proof.
  intros Hs. revert x. induction Hs as [| y l Hs IH Hy]; intros x Hin; [destruct Hin |].
  destruct l as [| z l'].
  - destruct Hin as [<- | []]. left. reflexivity.
  - change (last (y :: z :: l') d) with (last (z :: l') d).
    destruct Hin as [<- | Hin]; [| exact (IH x Hin)].
    right. rewrite Forall_forall in Hy. apply Hy.
    destruct (@exists_last _ (z :: l')) as (l0 & a & E); [discriminate |].
    rewrite E, last_last. apply in_or_app. right. left. reflexivity.
Qed.

Lemma key_le_datetime (a b : TimeSeriesRecord) (ta tb : Z) :
  key_le a b -> ts_datetime a = Some ta -> ts_datetime b = Some tb -> ta <= tb.
Proof.
  unfold key_le. intros H Ea Eb. rewrite Ea, Eb in H. lia.
Qed.

Lemma sorted_date_range (first : TimeSeriesRecord) (rest : list TimeSeriesRecord) :
  StronglySorted key_le (first :: rest) ->
  (forall r, In r (first :: rest) -> exists ts, ts_datetime r = Some ts) ->
  date_range (first :: rest) = (ts_datetime first, ts_datetime (last rest first)).
Proof.
  intros Hs Hall. unfold date_range. f_equal.
  - destruct (Hall first (or_introl eq_refl)) as (t0 & E0). rewrite E0.
    apply series_min_least.
    + rewrite <- E0. apply in_map. left. reflexivity.
    + intros t Hin. apply in_map_iff in Hin. destruct Hin as (r & Er & Hr).
      destruct Hr as [<- | Hr]; [rewrite E0 in Er; injection Er as <-; lia |].
      inversion Hs as [| ? ? _ Hf]; subst. rewrite Forall_forall in Hf.
      exact (key_le_datetime _ _ _ _ (Hf r Hr) E0 Er).
  - assert (El : last rest first = last (first :: rest) first).
    { destruct rest; reflexivity. }
    assert (Hl : In (last (first :: rest) first) (first :: rest)).
    { destruct (@exists_last _ (first :: rest)) as (l0 & a & E); [discriminate |].
      rewrite E, last_last. apply in_or_app. right. left. reflexivity. }
    rewrite El. destruct (Hall _ Hl) as (t1 & E1). rewrite E1.
    apply series_max_greatest.
    + rewrite <- E1. apply in_map. exact Hl.
    + intros t Hin. apply in_map_iff in Hin. destruct Hin as (r & Er & Hr).
      destruct (sorted_last _ r first Hs Hr) as [-> | Hle].
      * rewrite E1 in Er. injection Er as <-. lia.
      * exact (key_le_datetime _ _ _ _ Hle Er E1).
Qed.

(** X15. The date range of the report: on a saved time-series table the
    minimum of the datetime column is the datetime of its first row and
    the maximum is the datetime of its last row, and neither is NaT. *)
Theorem report_date_range (details monitor5 monitor6 : file) (out : outputs)
    (res : result (list (TimeSeriesRecord * FlyMetadataRecord)))
    (table : list TimeSeriesRecord) :
  main details monitor5 monitor6 = (out, res) ->
  time_series_data_csv out = Some table ->
  exists first rest t0 t1,
    table = first :: rest
    /\ ts_datetime first = Some t0
    /\ ts_datetime (last rest first) = Some t1
    /\ date_range table = (Some t0, Some t1)
    /\ t0 <= t1.
Proof.
  intros Hmain Ht.
  destruct (main_saved_time_series _ _ _ _ _ _ Hmain Ht)
    as (md & d5 & d6 & _ & H5 & H6 & Htable & _).
  assert (Hs : StronglySorted key_le table)
    by (rewrite Htable; apply sort_values_sorted).
  assert (Hall : forall r, In r table -> exists ts, ts_datetime r = Some ts).
  { intros r Hr. rewrite Htable in Hr.
    apply (Permutation_in _ (Permutation_sym (sort_perm ts_leb (d5 ++ d6)))) in Hr.
    apply in_app_or in Hr. destruct Hr as [Hr | Hr].
    - exact (proj2 (proj2 (parsed_record_fields _ _ _ _ H5 Hr))).
    - exact (proj2 (proj2 (parsed_record_fields _ _ _ _ H6 Hr))). }
  destruct table as [| first rest].
  - exfalso. apply (parsed_table_not_empty _ _ _ H5).
    assert (Hp : Permutation (d5 ++ d6) []).
    { rewrite Htable. apply sort_perm. }
    apply Permutation_sym, Permutation_nil in Hp. apply app_eq_nil in Hp. tauto.
  - pose proof (sorted_date_range first rest Hs Hall) as Hr.
    destruct (Hall first (or_introl eq_refl)) as (t0 & E0).
    assert (Hl : In (last rest first) (first :: rest)).
    { destruct rest as [| z l']; [left; reflexivity |].
      destruct (@exists_last _ (z :: l')) as (l0 & a & E); [discriminate |].
      rewrite E, last_last. right. apply in_or_app. right. left. reflexivity. }
    destruct (Hall _ Hl) as (t1 & E1).
    exists first, rest, t0, t1.
    split; [reflexivity |]. split; [exact E0 |]. split; [exact E1 |].
    split; [rewrite Hr, E0, E1; reflexivity |].
    destruct Hl as [Hl | Hl].
    + rewrite <- Hl in E1. rewrite E0 in E1. injection E1 as <-. lia.
    + inversion Hs as [| ? ? _ Hf]; subst. rewrite Forall_forall in Hf.
      exact (key_le_datetime _ _ _ _ (Hf _ Hl) E0 E1).
Qed.

Lemma report_date_range_witness :
  exists table t0 t1,
    time_series_data_csv (fst (main ex_details ex_log5 ex_log6)) = Some table
    /\ date_range table = (Some t0, Some t1)
    /\ t0 <= t1.
Proof.
  destruct (main ex_details ex_log5 ex_log6) as [out res] eqn:E.
  destruct (time_series_data_csv out) as [table |] eqn:Ht;
    [| vm_compute in E; injection E as <- _; discriminate].
  destruct (report_date_range _ _ _ _ _ _ E Ht)
    as (first & rest & t0 & t1 & _ & _ & _ & Hr & Hle).
  exists table, t0, t1. split; [exact Ht |]. split; [exact Hr | exact Hle].
Defined.

(** * The numerals of a details file *)

Lemma drop_while_none (p : ascii -> bool) (l : list ascii) :
  (forall c, In c l -> p c = false) -> drop_while p l = l.
Proof.
  destruct l as [| c r]; intros H; [reflexivity |].
  simpl. rewrite (H c (or_introl eq_refl)). reflexivity.
Qed.

Lemma py_strip_none (l : list ascii) :
  (forall c, In c l -> int_isspace c = false) -> py_strip l = l.
Proof.
  intros H. unfold py_strip. rewrite (drop_while_none _ l H).
  rewrite drop_while_none; [apply rev_involutive |].
  intros c Hc. apply H. apply in_rev. exact Hc.
Qed.

Lemma uint_no_space (d : Decimal.uint) (c : ascii) :
  In c (chars (NilEmpty.string_of_uint d)) ->
  int_isspace c = false /\ isspace_ascii c = false.
Proof.
  induction d as [| d IH | d IH | d IH | d IH | d IH | d IH | d IH | d IH | d IH | d IH];
    simpl; try tauto;
    (intros [<- | Hc]; [split; reflexivity | exact (IH Hc)]).
Qed.

Lemma uint_no_ch (d : Decimal.uint) :
  remove_ch (chars (NilEmpty.string_of_uint d)) = chars (NilEmpty.string_of_uint d).
Proof.
  induction d as [| d IH | d IH | d IH | d IH | d IH | d IH | d IH | d IH | d IH | d IH];
    [reflexivity | ..];
    cbn [NilEmpty.string_of_uint chars list_ascii_of_string remove_ch];
    fold (chars (NilEmpty.string_of_uint d)); rewrite IH; reflexivity.
Qed.

(** A step over one digit of a numeral, for [py_int_digits] and for
    [read_digits]. *)
Ltac digit_step d IH :=
  cbn [NilEmpty.string_of_uint chars list_ascii_of_string py_int_digits read_digits
       Pos.of_uint_acc Pos.of_uint Decimal.nb_digits];
  fold (chars (NilEmpty.string_of_uint d));
  match goal with
  | |- context [isdigit ?c] => change (isdigit c) with true; cbv iota
  end;
  match goal with
  | |- context [digit_value ?c] =>
      let v := eval vm_compute in (digit_value c) in change (digit_value c) with v
  end.

Lemma py_int_digits_acc (d : Decimal.uint) (p : positive) :
  py_int_digits (chars (NilEmpty.string_of_uint d)) (Z.pos p) true
  = Some (Z.pos (Pos.of_uint_acc d p)).
Proof.
  revert p.
  induction d as [| d IH | d IH | d IH | d IH | d IH | d IH | d IH | d IH | d IH | d IH];
    intros p; [reflexivity | ..];
    digit_step d IH; rewrite <- IH; f_equal; lia.
Qed.

Lemma py_int_digits_uint (d : Decimal.uint) (after_digit : bool) :
  d <> Decimal.Nil \/ after_digit = true ->
  py_int_digits (chars (NilEmpty.string_of_uint d)) 0 after_digit
  = Some (Z.of_N (Pos.of_uint d)).
Proof.
  revert after_digit.
  induction d as [| d IH | d IH | d IH | d IH | d IH | d IH | d IH | d IH | d IH | d IH];
    intros b Hb;
    [destruct Hb as [Hb | ->]; [contradiction | reflexivity] | ..];
    digit_step d IH;
    first [ apply IH; right; reflexivity | apply py_int_digits_acc ].
Qed.

Lemma read_digits_acc (d : Decimal.uint) (p : positive) (n : Z) :
  read_digits (chars (NilEmpty.string_of_uint d)) (Z.pos p) n
  = (Z.pos (Pos.of_uint_acc d p), n + Z.of_nat (Decimal.nb_digits d), []).
Proof.
  revert p n.
  induction d as [| d IH | d IH | d IH | d IH | d IH | d IH | d IH | d IH | d IH | d IH];
    intros p n; [cbn; rewrite Z.add_0_r; reflexivity | ..];
    digit_step d IH;
    replace (n + Z.of_nat (S (Decimal.nb_digits d)))
      with ((n + 1) + Z.of_nat (Decimal.nb_digits d)) by lia;
    rewrite <- IH; f_equal; lia.
Qed.

Lemma read_digits_uint (d : Decimal.uint) (n : Z) :
  read_digits (chars (NilEmpty.string_of_uint d)) 0 n
  = (Z.of_N (Pos.of_uint d), n + Z.of_nat (Decimal.nb_digits d), []).
Proof.
  revert n.
  induction d as [| d IH | d IH | d IH | d IH | d IH | d IH | d IH | d IH | d IH | d IH];
    intros n; [cbn; rewrite Z.add_0_r; reflexivity | ..];
    digit_step d IH;
    replace (n + Z.of_nat (S (Decimal.nb_digits d)))
      with ((n + 1) + Z.of_nat (Decimal.nb_digits d)) by lia;
    first [ apply IH | apply read_digits_acc ].
Qed.

Lemma uint_chars (d : Decimal.uint) :
  d <> Decimal.Nil ->
  NilZero.string_of_uint d = NilEmpty.string_of_uint d
  /\ read_sign (chars (NilEmpty.string_of_uint d))
     = (false, chars (NilEmpty.string_of_uint d))
  /\ (0 < Decimal.nb_digits d)%nat.
Proof.
  destruct d; intros H; try contradiction; repeat split; simpl; lia.
Qed.

(** The text of [str(z)]: a numeral, after a minus sign when [z] is
    negative. *)
Lemma str_of_int_chars (z : Z) :
  exists d, d <> Decimal.Nil
    /\ Z.of_N (Pos.of_uint d) = Z.abs z
    /\ chars (str_of_int z)
       = (if z <? 0 then ["-"%char] else []) ++ chars (NilEmpty.string_of_uint d).
Proof.
  unfold str_of_int. destruct z as [| p | p].
  - exists (Decimal.D0 Decimal.Nil). split; [discriminate |]. split; reflexivity.
  - cbn [Z.to_int NilZero.string_of_int].
    pose proof (DecimalPos.Unsigned.to_uint_nonnil p) as Hn.
    pose proof (DecimalPos.Unsigned.of_to p) as Hp.
    exists (Pos.to_uint p). split; [exact Hn |]. rewrite Hp.
    destruct (uint_chars _ Hn) as (-> & _). split; reflexivity.
  - cbn [Z.to_int NilZero.string_of_int].
    pose proof (DecimalPos.Unsigned.to_uint_nonnil p) as Hn.
    pose proof (DecimalPos.Unsigned.of_to p) as Hp.
    exists (Pos.to_uint p). split; [exact Hn |]. rewrite Hp.
    destruct (uint_chars _ Hn) as (-> & _). split; reflexivity.
Qed.

(** [int(str(z))] is [z]. *)
Lemma int_of_str_of_int (z : Z) : int_of_str (str_of_int z) = Some z.
Proof.
  unfold int_of_str. destruct (str_of_int_chars z) as (d & Hn & Hd & ->).
  destruct (uint_chars d Hn) as (_ & Er & _).
  rewrite py_strip_none.
  - destruct (Z.ltb_spec z 0) as [Hz | Hz]; cbn [app].
    + cbn [read_sign]. rewrite py_int_digits_uint by (left; exact Hn).
      rewrite Hd. f_equal. lia.
    + rewrite Er, py_int_digits_uint by (left; exact Hn).
      rewrite Hd. f_equal. lia.
  - intros c Hc. apply in_app_or in Hc. destruct Hc as [Hc | Hc].
    + destruct (z <? 0); [| destruct Hc]. destruct Hc as [<- | []]. reflexivity.
    + apply (uint_no_space d c Hc).
Qed.

(** The tokenizer reads [str(z)] back as [z]. *)
Lemma str_to_int64_of_int (z : Z) :
  in_int64 z = true -> str_to_int64 (str_of_int z) = Number z.
Proof.
  intros Hz. unfold str_to_int64.
  destruct (str_of_int_chars z) as (d & Hn & Hd & ->).
  destruct (uint_chars d Hn) as (_ & Er & Hlen).
  rewrite drop_while_none.
  - destruct (Z.ltb_spec z 0) as [Hneg | Hneg]; cbn [app].
    + cbn [read_sign]. rewrite read_digits_uint, Hd.
      destruct (Z.eqb_spec (0 + Z.of_nat (Decimal.nb_digits d)) 0) as [E | _]; [lia |].
      replace (- Z.abs z) with z by lia. rewrite Hz. reflexivity.
    + rewrite Er, read_digits_uint, Hd.
      destruct (Z.eqb_spec (0 + Z.of_nat (Decimal.nb_digits d)) 0) as [E | _]; [lia |].
      replace (Z.abs z) with z by lia. rewrite Hz. reflexivity.
  - intros c Hc. apply in_app_or in Hc. destruct Hc as [Hc | Hc].
    + destruct (z <? 0); [| destruct Hc]. destruct Hc as [<- | []]. reflexivity.
    + apply (uint_no_space d c Hc).
Qed.

Lemma str_of_int_no_ch (z : Z) :
  text (remove_ch (chars (str_of_int z))) = str_of_int z.
Proof.
  assert (Hc : remove_ch (chars (str_of_int z)) = chars (str_of_int z)).
  { destruct (str_of_int_chars z) as (d & Hn & Hd & ->).
    destruct (z <? 0); cbn [app remove_ch]; rewrite uint_no_ch; reflexivity. }
  rewrite Hc. apply string_of_list_ascii_of_string.
Qed.

(** ** The columns of a written details file *)

Lemma uint_digits (d : Decimal.uint) (c : ascii) :
  In c (chars (NilEmpty.string_of_uint d)) -> isdigit c = true.
Proof.
  induction d as [| d IH | d IH | d IH | d IH | d IH | d IH | d IH | d IH | d IH | d IH];
    simpl; try tauto;
    (intros [<- | Hc]; [reflexivity | exact (IH Hc)]).
Qed.

Lemma str_of_int_numeral (z : Z) : numeral (str_of_int z) = true.
Proof.
  unfold numeral. destruct (str_of_int_chars z) as (d & Hn & _ & E).
  apply andb_true_intro. split.
  - destruct (String.eqb_spec (str_of_int z) "") as [E0 | _]; [| reflexivity].
    rewrite E0 in E. destruct (z <? 0); [discriminate |].
    destruct d; try contradiction; discriminate.
  - rewrite E. apply forallb_forall. intros c Hc.
    apply in_app_or in Hc. destruct Hc as [Hc | Hc].
    + destruct (z <? 0); [| destruct Hc]. destruct Hc as [<- | []]. reflexivity.
    + rewrite (uint_digits d c Hc). reflexivity.
Qed.

Lemma na_token_no_numeral (s : string) : is_na_token s = true -> numeral s = false.
Proof.
  unfold is_na_token. intros H. apply existsb_exists in H.
  destruct H as (x & Hx & E). apply String.eqb_eq in E. subst x.
  unfold STR_NA_VALUES in Hx. simpl in Hx.
  repeat (destruct Hx as [<- | Hx]; [reflexivity |]). destruct Hx.
Qed.

Lemma str_of_int_no_na (z : Z) : is_na_token (str_of_int z) = false.
Proof.
  destruct (is_na_token (str_of_int z)) eqn:E; [| reflexivity].
  apply na_token_no_numeral in E. rewrite str_of_int_numeral in E. discriminate.
Qed.

Lemma channel_field_text (channel : Z) :
  is_na_token (channel_field channel) = false
  /\ str_to_int64 (channel_field channel) = ERROR_INVALID
  /\ to_double (channel_field channel) = None
  /\ to_bool (channel_field channel) = None.
Proof.
  unfold channel_field. repeat split; reflexivity.
Qed.

Lemma infer_monitor (monitors : list Z) :
  monitors <> [] -> Forall (fun z => in_int64 z = true) monitors ->
  infer (map str_of_int monitors) = KInt.
Proof.
  intros Hne Hall.
  assert (Htry : try_int64 (map str_of_int monitors) = Number 0).
  { clear Hne. induction Hall as [| z l Hz _ IH]; [reflexivity |].
    cbn [map try_int64]. rewrite str_of_int_no_na, (str_to_int64_of_int z Hz). exact IH. }
  assert (Hna : existsb is_na_token (map str_of_int monitors) = false).
  { clear. induction monitors as [| z l IH]; [reflexivity |].
    cbn [map existsb]. rewrite str_of_int_no_na, IH. reflexivity. }
  unfold infer. destruct monitors as [| z l]; [contradiction |].
  cbn [map] in *. rewrite Htry, Hna. reflexivity.
Qed.

Lemma infer_channel (channels : list Z) :
  channels <> [] -> infer (map channel_field channels) = KStr.
Proof.
  intros Hne. destruct channels as [| c l]; [contradiction |].
  destruct (channel_field_text c) as (Hna & Hint & Hdouble & Hbool).
  unfold infer. cbn [map try_int64 forallb].
  rewrite Hna, Hint, Hdouble, Hbool. reflexivity.
Qed.

Lemma convert_monitor (z : Z) :
  in_int64 z = true -> convert KInt (str_of_int z) = CInt z.
Proof.
  intros Hz. unfold convert. rewrite str_of_int_no_na, (str_to_int64_of_int z Hz). reflexivity.
Qed.

Lemma convert_channel (channel : Z) :
  convert KStr (channel_field channel) = CStr (channel_field channel).
Proof.
  unfold convert. destruct (channel_field_text channel) as (-> & _). reflexivity.
Qed.

(** The channel field is read as the channel. *)
Lemma astype_channel (channel : Z) :
  in_int64 channel = true ->
  astype_int (str_replace_ch (CStr (channel_field channel))) = Ok channel.
Proof.
  intros Hz. unfold channel_field.
  change (str_replace_ch (CStr (String.append "ch" (str_of_int channel))))
    with (CStr (text (remove_ch (chars (str_of_int channel))))).
  cbn [astype_int]. rewrite str_of_int_no_ch, int_of_str_of_int, Hz. reflexivity.
Qed.

Lemma fill_exact (width : nat) (row : list string) :
  List.length row = width -> fill width row = Ok row.
Proof.
  intros <-. unfold fill. rewrite Nat.leb_refl, Nat.sub_diag. simpl.
  rewrite app_nil_r. reflexivity.
Qed.

Lemma mapM_fill_exact (width : nat) (rows : list (list string)) :
  Forall (fun row => List.length row = width) rows -> mapM (fill width) rows = Ok rows.
Proof.
  induction 1 as [| row rows Hrow _ IH]; [reflexivity |].
  cbn [mapM]. rewrite (fill_exact _ _ Hrow). cbn [bind]. rewrite IH. reflexivity.
Qed.

Lemma details_line_length (f : fly) : List.length (details_line f) = 5%nat.
Proof.
  destruct f as [[[[m c] g] s] t]. reflexivity.
Qed.

Lemma read_written_details (flies : list fly) :
  read_csv (written_details flies)
  = Ok (make_frame details_header 0 5 (map details_line flies)).
Proof.
  unfold read_csv, written_details. cbn [open bind].
  assert (Hw : match map details_line flies with
               | [] => List.length details_header
               | first :: _ => Nat.max (List.length details_header) (List.length first)
               end = 5%nat).
  { destruct flies as [| f l]; [reflexivity |].
    cbn [map]. rewrite details_line_length. reflexivity. }
  rewrite Hw. rewrite mapM_fill_exact.
  - reflexivity.
  - apply Forall_forall. intros row Hrow. apply in_map_iff in Hrow.
    destruct Hrow as (f & <- & _). apply details_line_length.
Qed.

(** The frame of a written details file: the monitors as integers, the
    channel fields as strings. *)
Lemma written_frame (flies : list fly) :
  flies <> [] ->
  Forall (fun f => in_int64 (fly_monitor f) = true) flies ->
  let kg := infer (map fly_genotype flies) in
  let ks := infer (map fly_sex flies) in
  let kt := infer (map fly_treatment flies) in
    make_frame details_header 0 5 (map details_line flies)
    = {| columns := details_header;
         dtypes := [Int64; Object; dtype_of kg; dtype_of ks; dtype_of kt];
         data := map (fun f => [ CInt (fly_monitor f);
                                 CStr (channel_field (fly_channel f));
                                 convert kg (fly_genotype f);
                                 convert ks (fly_sex f);
                                 convert kt (fly_treatment f) ]) flies |}.
Proof.
  intros Hne Hall kg ks kt. subst kg ks kt.
  unfold make_frame. cbn [Nat.sub seq map combine].
  assert (E0 : map (field 0) (map details_line flies) = map str_of_int (map fly_monitor flies)).
  { rewrite !map_map. apply map_ext. intros [[[[m c] g] s] t]. reflexivity. }
  assert (E1 : map (field 1) (map details_line flies)
               = map channel_field (map fly_channel flies)).
  { rewrite !map_map. apply map_ext. intros [[[[m c] g] s] t]. reflexivity. }
  assert (E2 : map (field 2) (map details_line flies) = map fly_genotype flies).
  { rewrite !map_map. apply map_ext. intros [[[[m c] g] s] t]. reflexivity. }
  assert (E3 : map (field 3) (map details_line flies) = map fly_sex flies).
  { rewrite !map_map. apply map_ext. intros [[[[m c] g] s] t]. reflexivity. }
  assert (E4 : map (field 4) (map details_line flies) = map fly_treatment flies).
  { rewrite !map_map. apply map_ext. intros [[[[m c] g] s] t]. reflexivity. }
  rewrite E0, E1, E2, E3, E4.
  rewrite infer_monitor, infer_channel.
  - f_equal. rewrite map_map. apply map_ext_in.
    intros f Hf. rewrite Forall_forall in Hall. specialize (Hall f Hf).
    destruct f as [[[[m c] g] s] t]. cbn [details_line map].
    unfold field. cbn [nth].
    rewrite (convert_monitor m Hall), convert_channel. reflexivity.
  - destruct flies; [contradiction | discriminate].
  - destruct flies; [contradiction | discriminate].
  - apply Forall_forall. intros z Hz. apply in_map_iff in Hz.
    destruct Hz as (f & <- & Hf). rewrite Forall_forall in Hall. auto.
Qed.

Lemma mapM_pure {A B : Type} (f : A -> result B) (g : A -> B) (l : list A) :
  (forall x, In x l -> f x = Ok (g x)) -> mapM f l = Ok (map g l).
Proof.
  induction l as [| x l IH]; intros H; [reflexivity |].
  cbn [mapM map]. rewrite (H x (or_introl eq_refl)). cbn [bind].
  rewrite IH by (intros y Hy; apply H; right; exact Hy). reflexivity.
Qed.

Lemma mapM_map {A B C : Type} (f : B -> result C) (g : A -> B) (l : list A) :
  mapM f (map g l) = mapM (fun x => f (g x)) l.
Proof.
  induction l as [| x l IH]; [reflexivity |]. cbn [map mapM]. rewrite IH. reflexivity.
Qed.

Lemma combine_same {A B C : Type} (f : A -> B) (g : A -> C) (l : list A) :
  combine (map f l) (map g l) = map (fun x => (f x, g x)) l.
Proof.
  induction l as [| x l IH]; [reflexivity |]. cbn [map combine]. rewrite IH. reflexivity.
Qed.

Lemma wrap_int64_small (z : Z) : in_int64 z = true -> wrap_int64 z = z.
Proof.
  unfold in_int64, wrap_int64, INT64_MIN, INT64_MAX. intros H.
  apply andb_prop in H. destruct H as [H1 H2].
  apply Z.leb_le in H1. apply Z.leb_le in H2.
  rewrite Z.mod_small by lia. lia.
Qed.

Lemma written_table (flies : list fly) :
  flies <> [] ->
  Forall (fun f => in_int64 (fly_monitor f) = true /\ in_int64 (fly_channel f) = true)
         flies ->
  details_table (written_details flies)
  = Ok (map (fly_record (infer (map fly_genotype flies)) (infer (map fly_sex flies))
                        (infer (map fly_treatment flies))) flies).
Proof.
  intros Hne Hall. rewrite Forall_forall in Hall.
  pose proof (written_frame flies Hne) as E. cbv zeta in E.
  assert (Hm : Forall (fun f => in_int64 (fly_monitor f) = true) flies).
  { apply Forall_forall. intros f Hf. apply (Hall f Hf). }
  specialize (E Hm).
  set (kg := infer (map fly_genotype flies)) in *.
  set (ks := infer (map fly_sex flies)) in *.
  set (kt := infer (map fly_treatment flies)) in *.
  unfold details_table. rewrite read_written_details, E. cbn [bind].
  unfold get_column. cbn [columns dtypes data].
  change (index_of "Monitor" details_header) with (Some 0%nat).
  change (index_of "Channel" details_header) with (Some 1%nat).
  change (index_of "Genotype" details_header) with (Some 2%nat).
  change (index_of "Sex" details_header) with (Some 3%nat).
  change (index_of "Treatment" details_header) with (Some 4%nat).
  cbn [bind snd fst nth]. rewrite !map_map. cbn [nth].
  rewrite mapM_map, (mapM_pure _ fly_monitor).
  2:{ intros f Hf. cbn [astype_int]. rewrite wrap_int64_small by apply (Hall f Hf).
      reflexivity. }
  cbn [bind]. unfold str_accessor. cbn [fst snd].
  assert (Hb : existsb is_bool_cell
                 (map (fun f => CStr (channel_field (fly_channel f))) flies) = false).
  { clear. induction flies as [| f l IH]; [reflexivity | exact IH]. }
  rewrite Hb. cbn [bind]. rewrite map_map.
  rewrite mapM_map, (mapM_pure _ fly_channel).
  2:{ intros f Hf. apply astype_channel. apply (Hall f Hf). }
  cbn [bind]. rewrite !combine_same.
  unfold apply_rows. destruct flies as [| f l]; [contradiction |].
  cbn [map]. rewrite map_map. reflexivity.
Qed.

Lemma filter_map_swap {A B : Type} (g : A -> B) (p : B -> bool) (l : list A) :
  filter p (map g l) = map g (filter (fun x => p (g x)) l).
Proof.
  induction l as [| x l IH]; [reflexivity |].
  cbn [map filter]. destruct (p (g x)); cbn [map]; rewrite IH; reflexivity.
Qed.

(** What [parse_details] returns for a written details file. *)
Lemma parse_written_details (flies : list fly) :
  flies <> [] ->
  Forall (fun f => in_int64 (fly_monitor f) = true /\ in_int64 (fly_channel f) = true)
         flies ->
  let kg := infer (map fly_genotype flies) in
  let ks := infer (map fly_sex flies) in
  let kt := infer (map fly_treatment flies) in
  parse_details (written_details flies)
  = Ok (map (fly_record kg ks kt)
            (filter (fun f => ne_str "NA" (convert kg (fly_genotype f))) flies)).
Proof.
  intros Hne Hall kg ks kt.
  unfold parse_details. rewrite (written_table flies Hne Hall). cbn [bind].
  fold kg ks kt. rewrite filter_map_swap. reflexivity.
Qed.

(** No fly is left out when no genotype is an integer outside int64. *)
Lemma written_flies_kept (flies : list fly) :
  Forall (fun f => str_to_int64 (fly_genotype f) <> ERROR_OVERFLOW) flies ->
  filter (fun f => ne_str "NA" (convert (infer (map fly_genotype flies)) (fly_genotype f)))
         flies
  = flies.
Proof.
  intros Hg. apply filter_all.
  intros f Hf.
  destruct (convert (infer (map fly_genotype flies)) (fly_genotype f))
    as [x | q | b | | b | s] eqn:Ec; try reflexivity.
  cbn [ne_str]. destruct (String.eqb_spec s "NA") as [-> | _]; [| reflexivity].
  exfalso.
  assert (Hk : infer (map fly_genotype flies) <> KRaw).
  { intros Hk. destruct (infer_overflow _ (or_introl Hk)) as (t & Ht & Hover).
    apply in_map_iff in Ht. destruct Ht as (f' & <- & Hf').
    rewrite Forall_forall in Hg. exact (Hg f' Hf' Hover). }
  pose proof (convert_no_na_string _ _ _ Hk Ec) as Hna. discriminate Hna.
Qed.

(** X16. A details file written from a list of flies (the header, and
    for each fly its monitor as a numeral, "ch" and its channel as a
    numeral, its genotype, sex and treatment), with monitors and channels
    in int64, is read back fly by fly: [parse_details] returns, in order,
    the records of the flies whose genotype does not come out as the
    string "NA", each with the monitor, the channel and the fly_id of its
    fly; and it returns the records of all the flies when no genotype is
    an integer outside int64. *)
Theorem written_details_read_back (flies : list fly) :
  flies <> [] ->
  Forall (fun f => in_int64 (fly_monitor f) = true /\ in_int64 (fly_channel f) = true)
         flies ->
  let kg := infer (map fly_genotype flies) in
  let ks := infer (map fly_sex flies) in
  let kt := infer (map fly_treatment flies) in
  parse_details (written_details flies)
  = Ok (map (fly_record kg ks kt)
            (filter (fun f => ne_str "NA" (convert kg (fly_genotype f))) flies))
  /\ (Forall (fun f => str_to_int64 (fly_genotype f) <> ERROR_OVERFLOW) flies ->
      parse_details (written_details flies) = Ok (map (fly_record kg ks kt) flies)).
Proof.
  intros Hne Hall kg ks kt.
  pose proof (parse_written_details flies Hne Hall) as E. cbv zeta in E. fold kg ks kt in E.
  split; [exact E |].
  intros Hg. rewrite E. unfold kg. rewrite (written_flies_kept flies Hg). reflexivity.
Qed.

Lemma written_details_read_back_witness :
  parse_details (written_details [ (5, 1, "wt", "M", "ctl"); (6, 12, "NA", "F", "ctl") ])
  = Ok [ mkFly 5 1 "M5_Ch01" (CStr "wt") (CStr "M") (CStr "ctl");
         mkFly 6 12 "M6_Ch12" CNaN (CStr "F") (CStr "ctl") ].
Proof.
  refine (proj2 (written_details_read_back
                   [ (5, 1, "wt", "M", "ctl"); (6, 12, "NA", "F", "ctl") ] _ _) _).
  - discriminate.
  - repeat constructor.
  - repeat constructor; discriminate.
Defined.

(** * The metadata table, claim by claim *)

Lemma in_int64_spec (z : Z) : in_int64 z = true <-> - 2 ^ 63 <= z < 2 ^ 63.
Proof.
  unfold in_int64, INT64_MIN, INT64_MAX.
  rewrite andb_true_iff, !Z.leb_le. lia.
Qed.

Lemma wrap_int64_range (z : Z) : in_int64 (wrap_int64 z) = true.
Proof.
  apply in_int64_spec. unfold wrap_int64.
  pose proof (Z.mod_pos_bound (z + 2 ^ 63) (2 ^ 64) ltac:(lia)). lia.
Qed.

Lemma wrap_int64_large (z : Z) : 2 ^ 63 <= z < 2 ^ 64 -> wrap_int64 z = z - 2 ^ 64.
Proof.
  intros H. unfold wrap_int64.
  replace (z + 2 ^ 63) with ((z - 2 ^ 63) + 1 * 2 ^ 64) by lia.
  rewrite Z.mod_add by lia. rewrite Z.mod_small by lia. lia.
Qed.

(** [astype(int)] gives an int64, the integer value of the entry. *)
Lemma astype_int_value (c : cell) (n : Z) :
  astype_int c = Ok n -> integer_value c n /\ in_int64 n = true.
Proof.
  destruct c as [z | q | b | | b | s]; cbn [astype_int integer_value];
    try discriminate.
  - intros H. injection H as <-. split; [| apply wrap_int64_range].
    split; intros Hz.
    + apply wrap_int64_small. apply in_int64_spec. exact Hz.
    + apply wrap_int64_large. exact Hz.
  - fold (trunc q). destruct (in_int64 (trunc q)) eqn:E; intros H; injection H as <-.
    + split; [| exact E]. split; [reflexivity |].
      apply in_int64_spec in E. lia.
    + split; [| reflexivity]. split; [| reflexivity].
      intros Hq. apply in_int64_spec in Hq. congruence.
  - intros H. injection H as <-. split; [reflexivity |]. destruct b; reflexivity.
  - destruct (int_of_str s) as [v |]; [| discriminate].
    destruct (in_int64 v) eqn:E; [| discriminate].
    intros H. injection H as <-. split; [| exact E].
    split; [reflexivity | apply in_int64_spec; exact E].
Qed.

Lemma details_table_casts (filepath : file) (table : list FlyMetadataRecord) :
  details_table filepath = Ok table ->
  exists df,
    read_csv filepath = Ok df
    /\ Forall2 (fun line r =>
                  astype_int (entry df line "Monitor") = Ok (fm_monitor r)
                  /\ astype_int (str_replace_ch (entry df line "Channel"))
                     = Ok (fm_channel r))
               (data df) table.
Proof.
  unfold details_table. intros H.
  inv_bind H as df Hdf. exists df. split; [assumption |].
  inv_bind H as Monitor HMonitor.
  inv_bind H as monitor Hmonitor.
  inv_bind H as Channel HChannel.
  inv_bind H as Channel_str HChannel_str.
  inv_bind H as channel Hchannel.
  inv_bind H as Genotype HGenotype.
  inv_bind H as Sex HSex.
  inv_bind H as Treatment HTreatment.
  apply get_column_entries in HMonitor. destruct HMonitor as [HM _].
  apply get_column_entries in HChannel. destruct HChannel as [HC _].
  apply get_column_entries in HGenotype. destruct HGenotype as [HG _].
  apply get_column_entries in HSex. destruct HSex as [HS _].
  apply get_column_entries in HTreatment. destruct HTreatment as [HT _].
  apply str_accessor_ok in HChannel_str. subst Channel_str.
  rewrite HM in Hmonitor. rewrite HC, map_map in Hchannel.
  rewrite HG, HS, HT in H.
  apply mapM_Forall2, Forall2_map_left in Hmonitor.
  apply mapM_Forall2, Forall2_map_left in Hchannel.
  apply apply_rows_ok in H. destruct H as [-> _].
  clear - Hmonitor Hchannel. revert channel Hchannel.
  induction Hmonitor as [| line m lines monitor Hline Hm IH]; intros channel Hc;
    inversion Hc as [| ? c ? channel' Hcline Hc']; subst; simpl.
  - constructor.
  - constructor; [| apply IH; assumption]. split; assumption.
Qed.

(** The monitor and the channel of a record are int64. *)
Lemma parse_details_int64 (filepath : file) (out : list FlyMetadataRecord) :
  parse_details filepath = Ok out ->
  forall r, In r out ->
            in_int64 (fm_monitor r) = true /\ in_int64 (fm_channel r) = true.
Proof.
  unfold parse_details. intros H. inv_bind H as table Htable. injection H as <-.
  intros r Hr. apply filter_In in Hr. destruct Hr as [Hr _].
  destruct (details_table_casts _ _ Htable) as (df & _ & Hall).
  destruct (Forall2_In_right _ _ _ _ Hall Hr) as (line & _ & Hm & Hc).
  split.
  - apply (astype_int_value _ _ Hm).
  - apply (astype_int_value _ _ Hc).
Qed.

(** C4 (amended). Every record [parse_details] retains comes from a line of
    the details file whose genotype is not the string "NA", in order.  Its
    monitor is the Monitor entry cast to int64: the integer itself, the
    same 64 bits for a uint64, a float64 truncated (INT64_MIN outside
    int64), the integer a string spells.  Its channel is the integer
    spelled by the Channel entry, a string, once every occurrence of "ch"
    is removed, which for an entry "ch" followed by digits is the integer
    after the prefix; monitor and channel are int64.  Its fly_id is "M",
    the monitor, "_Ch" and the channel zero-padded to width 2 (monitor 5,
    channel 3: "M5_Ch03"); genotype, sex and treatment are the entries of
    the line.  So the Monitor field 1e30 gives the monitor
    -9223372036854775808, 5.9 gives 5, and 18446744073709551615 gives
    -1. *)
Theorem fly_id_of_retained_rows :
  (forall filepath out,
      parse_details filepath = Ok out ->
      exists df,
        read_csv filepath = Ok df
        /\ Forall2 (derived_from df) (filter (retained df) (data df)) out
        /\ (forall r, In r out ->
              exists line,
                In line (data df)
                /\ entry df line "Genotype" <> CStr "NA"
                /\ integer_value (entry df line "Monitor") (fm_monitor r)
                /\ (exists s, entry df line "Channel" = CStr s
                              /\ integer_value (CStr (text (remove_ch (chars s))))
                                               (fm_channel r))
                /\ (forall s digits,
                      entry df line "Channel" = CStr s ->
                      chars s = "c"%char :: "h"%char :: digits ->
                      forallb isdigit digits = true ->
                      channel_by_prefix s = Some (fm_channel r))
                /\ fm_fly_id r
                   = String.append "M" (String.append (str_of_int (fm_monitor r))
                       (String.append "_Ch" (format_02d (fm_channel r))))
                /\ fm_genotype r = entry df line "Genotype"
                /\ fm_sex r = entry df line "Sex"
                /\ fm_treatment r = entry df line "Treatment"))
  /\ fly_id 5 3 = "M5_Ch03"
  /\ parse_details details_float_monitor
     = Ok [ mkFly (- 2 ^ 63) 1 "M-9223372036854775808_Ch01" (CStr "wt") (CStr "M") (CStr "ctl");
            mkFly 5 2 "M5_Ch02" (CStr "wt") (CStr "F") (CStr "ctl") ]
  /\ parse_details details_uint64_monitor
     = Ok [ mkFly (- 1) 1 "M-1_Ch01" (CStr "wt") (CStr "M") (CStr "ctl");
            mkFly 5 2 "M5_Ch02" (CStr "wt") (CStr "F") (CStr "ctl") ].
Proof.
  split; [| repeat split; vm_compute; reflexivity].
  intros filepath out H.
  destruct (parse_details_lines _ _ H) as (df & table & Hdf & _ & _ & _ & Hout).
  exists df. split; [exact Hdf |]. split; [exact Hout |].
  intros r Hr.
  destruct (parse_details_int64 _ _ H r Hr) as (_ & Hc64).
  destruct (Forall2_In_right _ _ _ _ Hout Hr) as (line & Hline & Hd).
  exists line. apply filter_In in Hline. destruct Hline as [Hline Hkept].
  destruct Hd as (Hm & (s & Hs & Hint) & Hid & Hg & Hsex & Ht).
  split; [exact Hline |].
  split.
  { intros E. unfold retained in Hkept. rewrite E in Hkept. discriminate. }
  split; [apply (astype_int_value _ _ Hm) |].
  split.
  { exists s. split; [exact Hs |]. cbn [integer_value].
    split; [exact Hint | apply in_int64_spec; exact Hc64]. }
  split.
  { intros s' digits Hs' Hchars Hdigits.
    rewrite Hs in Hs'. injection Hs' as <-.
    unfold channel_by_prefix. rewrite Hchars.
    rewrite Hchars in Hint. simpl in Hint.
    rewrite (remove_ch_digits _ Hdigits) in Hint. exact Hint. }
  repeat split; assumption.
Qed.

Lemma fly_id_of_retained_rows_witness :
  exists df,
    read_csv ex_details = Ok df
    /\ Forall2 (derived_from df) (filter (retained df) (data df))
         [ mkFly 5 1 "M5_Ch01" (CStr "wt") (CStr "M") (CStr "ctl");
           mkFly 6 2 "M6_Ch02" (CStr "wt") (CStr "F") (CStr "ctl") ].
Proof.
  destruct (proj1 fly_id_of_retained_rows ex_details
              [ mkFly 5 1 "M5_Ch01" (CStr "wt") (CStr "M") (CStr "ctl");
                mkFly 6 2 "M6_Ch02" (CStr "wt") (CStr "F") (CStr "ctl") ])
    as (df & Hdf & Hout & _).
  - vm_compute. reflexivity.
  - exists df. split; assumption.
Defined.

(** C4, as stated, fails: the channel entry "chch3" is retained as channel
    3, although stripping the prefix "ch" leaves "ch3", which is not an
    integer. *)
Lemma channel_not_by_prefix :
  parse_details details_double_prefix
  = Ok [ mkFly 5 1 "M5_Ch01" (CStr "wt") (CStr "M") (CStr "ctl");
         mkFly 5 3 "M5_Ch03" (CStr "wt") (CStr "F") (CStr "ctl") ]
  /\ channel_by_prefix "chch3" = None.
Proof.
  split; vm_compute; reflexivity.
Qed.

(** ** The key (monitor, channel) of the metadata table *)

Lemma derived_line_key (df : DataFrame) (line : list cell) (r : FlyMetadataRecord) :
  derived_from df line r -> line_key df line = Some (fly_key r).
Proof.
  intros (Hm & (s & Hs & Hc) & _). unfold line_key, channel_number, fly_key.
  rewrite Hm, Hs, Hc. reflexivity.
Qed.

Lemma keys_of_lines (df : DataFrame) (lines : list (list cell))
    (out : list FlyMetadataRecord) :
  Forall2 (derived_from df) lines out ->
  map (line_key df) lines = map (fun r => Some (fly_key r)) out.
Proof.
  induction 1 as [| line r lines out Hd _ IH]; [reflexivity |].
  cbn [map]. rewrite (derived_line_key _ _ _ Hd), IH. reflexivity.
Qed.

Lemma keys_unique_as_options (out : list FlyMetadataRecord) :
  NoDup (map (fun r => Some (fly_key r)) out) <-> NoDup (map fly_key out).
Proof.
  induction out as [| r out IH]; cbn [map]; [split; constructor |].
  split; intros H; inversion H as [| ? ? Hin Hnd]; subst; constructor.
  - intros Hk. apply Hin. apply in_map_iff in Hk. destruct Hk as (r' & E & Hr').
    apply in_map_iff. exists r'. split; [rewrite E; reflexivity | exact Hr'].
  - apply IH. exact Hnd.
  - intros Hk. apply Hin. apply in_map_iff in Hk. destruct Hk as (r' & E & Hr').
    apply in_map_iff. exists r'. split; [congruence | exact Hr'].
  - apply IH. exact Hnd.
Qed.

Lemma written_keys_kept (keep : fly -> bool) (flies : list fly) :
  NoDup (map written_key flies) -> NoDup (map written_key (filter keep flies)).
Proof.
  intros Hnd. induction flies as [| f flies IH]; cbn [map filter] in *; [constructor |].
  inversion Hnd as [| ? ? Hf Hflies]; subst.
  destruct (keep f); cbn [map]; [constructor |]; auto.
  intros Hin. apply Hf.
  apply in_map_iff in Hin. destruct Hin as (g & Hg & Hing).
  apply filter_In in Hing. apply in_map_iff. exists g. tauto.
Qed.

(** C6 (amended). [parse_details] emits one record for each retained line
    of the details file, in order, with the (monitor, channel) the line
    converts to, and removes no duplicate: the key is unique in its
    output exactly when no two retained lines convert to the same pair.
    For a details file written from a list of flies, with numerals for
    the monitors and "ch" and a numeral for the channels, this is the
    case when the flies have pairwise different (monitor, channel), and
    only then when no fly is left out.  Lines that differ as text can
    convert to the same pair: "ch3" and "ch03" are both channel 3. *)
Theorem unique_key_preserved :
  (forall filepath out,
      parse_details filepath = Ok out ->
      exists df,
        read_csv filepath = Ok df
        /\ map (line_key df) (filter (retained df) (data df))
           = map (fun r => Some (fly_key r)) out
        /\ (NoDup (map fly_key out)
            <-> NoDup (map (line_key df) (filter (retained df) (data df)))))
  /\ (forall flies,
        flies <> [] ->
        Forall (fun f => in_int64 (fly_monitor f) = true
                         /\ in_int64 (fly_channel f) = true) flies ->
        exists out,
          parse_details (written_details flies) = Ok out
          /\ (NoDup (map written_key flies) -> NoDup (map fly_key out))
          /\ (Forall (fun f => str_to_int64 (fly_genotype f) <> ERROR_OVERFLOW) flies ->
              map fly_key out = map written_key flies
              /\ (NoDup (map fly_key out) <-> NoDup (map written_key flies))))
  /\ (exists out,
        parse_details details_two_spellings = Ok out
        /\ map fly_key out = [(5, 3); (5, 3)]).
Proof.
  split; [| split].
  - intros filepath out H.
    destruct (parse_details_lines _ _ H) as (df & table & Hdf & _ & _ & _ & Hout).
    exists df. split; [exact Hdf |].
    pose proof (keys_of_lines _ _ _ Hout) as E.
    split; [exact E |]. rewrite E. symmetry. apply keys_unique_as_options.
  - intros flies Hne Hall.
    pose proof (parse_written_details flies Hne Hall) as E. cbv zeta in E.
    eexists. split; [exact E |].
    assert (Hk : forall l,
               map fly_key
                   (map (fly_record (infer (map fly_genotype flies))
                                    (infer (map fly_sex flies))
                                    (infer (map fly_treatment flies))) l)
               = map written_key l).
    { intros l. rewrite map_map. apply map_ext. intros f. reflexivity. }
    rewrite Hk. split.
    + apply written_keys_kept.
    + intros Hg. rewrite (written_flies_kept flies Hg). split; [reflexivity | tauto].
  - eexists. split; [vm_compute; reflexivity | reflexivity].
Qed.

Lemma unique_key_preserved_witness :
  exists out,
    parse_details (written_details [ (5, 1, "wt", "M", "ctl"); (6, 2, "wt", "F", "ctl") ])
    = Ok out
    /\ NoDup (map fly_key out).
Proof.
  destruct (proj1 (proj2 unique_key_preserved)
              [ (5, 1, "wt", "M", "ctl"); (6, 2, "wt", "F", "ctl") ])
    as (out & Hout & Hu & _).
  - discriminate.
  - repeat constructor.
  - exists out. split; [exact Hout |]. apply Hu.
    repeat constructor; simpl; intuition discriminate.
Defined.

(** C6, as stated, fails: a details file that lists a fly twice gives two
    records with the same (monitor, channel). *)
Lemma duplicate_key_retained :
  exists out,
    parse_details details_duplicate = Ok out /\ ~ NoDup (map fly_key out).
Proof.
  eexists. split; [vm_compute; reflexivity |].
  simpl. intros H. inversion H as [| ? ? Hin _]; subst.
  apply Hin. left. reflexivity.
Qed.

(** * Fatal input *)

Lemma date_not_strings_aborts (filepath : file) (monitor_num : Z)
    (df : DataFrame) (date : dtype * list cell) :
  named_frame filepath = Ok df ->
  get_column df "date" = Ok date ->
  fst date <> Object ->
  parse_monitor_file filepath monitor_num = Raise TypeError.
Proof.
  intros Hdf Hdate Hdtype.
  unfold parse_monitor_file, monitor_frame. rewrite Hdf. cbn [bind].
  rewrite Hdate. cbn [bind].
  unfold series_add_str. destruct (fst date); try reflexivity. contradiction.
Qed.

Lemma malformed_log_aborts (filepath : file) (monitor_num : Z) :
  malformed_log filepath -> aborts (parse_monitor_file filepath monitor_num).
Proof.
  intros [df line d t Hdf Hline Hd Ht Hbad
         | df date Hdf Hdate Hdtype
         | df rows k group code r channel s Hframe Hg Hcode Hr Hch Hs].
  - eapply unparseable_datetime_aborts; eassumption.
  - exists TypeError. eapply date_not_strings_aborts; eassumption.
  - eapply string_channel_value_aborts; eassumption.
Qed.

Lemma metadata_saved_first (details monitor5 monitor6 : file)
    (table : list FlyMetadataRecord) :
  parse_details details = Ok table ->
  fly_metadata_csv (fst (main details monitor5 monitor6)) = Some table.
Proof.
  intros H. unfold main, main_script, and_then, run, save_metadata, save_time_series.
  rewrite H. simpl.
  destruct (parse_monitor_file monitor5 5); simpl; [| reflexivity].
  destruct (parse_monitor_file monitor6 6); reflexivity.
Qed.

(** C8 (amended). Malformed input of these kinds is fatal: the details
    file lacks a required column; a Channel entry is not a string that
    spells an integer once every "ch" is removed (it has no numeric part,
    or it is not a string at all, as when every entry of the column is a
    bare number); a log line has a date and a time that do not match the
    format, or the date column of a log is not a column of strings (as
    when no line has a date); a row used for a sample has a string as a
    channel value.  The run then aborts with an error and the time-series
    table is not written.  The metadata table, however, is written before
    the logs are read, and it is there when a log is malformed.  Not
    every irregular entry is fatal, as two examples show: in the details
    file with the Channel entries "ch1" and "3" the entry "3" is read as
    channel 3, and in the log whose second line has no date that line is
    left out; whereas the details file whose Channel entries are all bare
    numbers raises AttributeError, and the log without any date raises
    TypeError. *)
Theorem malformed_input_is_fatal :
  (forall details monitor5 monitor6,
      malformed_details details \/ malformed_log monitor5 \/ malformed_log monitor6 ->
      exists out e,
        main details monitor5 monitor6 = (out, Raise e)
        /\ time_series_data_csv out = None)
  /\ (forall details monitor5 monitor6 table,
        parse_details details = Ok table ->
        malformed_log monitor5 \/ malformed_log monitor6 ->
        exists out e,
          main details monitor5 monitor6 = (out, Raise e)
          /\ fly_metadata_csv out = Some table
          /\ time_series_data_csv out = None)
  /\ parse_details details_no_prefix
     = Ok [ mkFly 5 1 "M5_Ch01" (CStr "wt") (CStr "M") (CStr "ctl");
            mkFly 5 3 "M5_Ch03" (CStr "wt") (CStr "F") (CStr "ctl") ]
  /\ parse_details details_bare_numbers = Raise AttributeError
  /\ parse_monitor_file log_missing_date 5 = Ok [mkTS (Some 1704067200) 5 1 5 0 0]
  /\ parse_monitor_file log_no_dates 5 = Raise TypeError.
Proof.
  assert (Hfatal : forall details monitor5 monitor6,
             malformed_details details \/ malformed_log monitor5 \/ malformed_log monitor6 ->
             exists out e,
               main details monitor5 monitor6 = (out, Raise e)
               /\ time_series_data_csv out = None).
  { intros details monitor5 monitor6 H. apply main_aborts.
    destruct H as [H | [H | H]].
    - left. destruct H as [df name Hdf Hname Hnone | df line Hdf Hline Hnone].
      + eapply missing_column_aborts; eassumption.
      + eapply channel_number_needed; eassumption.
    - right. left. apply malformed_log_aborts. exact H.
    - right. right. apply malformed_log_aborts. exact H. }
  split; [exact Hfatal |]. split.
  - intros details monitor5 monitor6 table Htable Hlog.
    destruct (Hfatal details monitor5 monitor6 (or_intror Hlog)) as (out & e & Hmain & Hts).
    exists out, e. split; [exact Hmain |]. split; [| exact Hts].
    pose proof (metadata_saved_first details monitor5 monitor6 table Htable) as Hsaved.
    rewrite Hmain in Hsaved. exact Hsaved.
  - repeat split; vm_compute; reflexivity.
Qed.

Lemma malformed_input_is_fatal_witness :
  exists out e,
    main details_no_number ex_log5 ex_log6 = (out, Raise e)
    /\ time_series_data_csv out = None.
Proof.
  apply (proj1 malformed_input_is_fatal). left.
  destruct (read_csv details_no_number) as [df |] eqn:Hdf;
    [| vm_compute in Hdf; discriminate].
  apply (no_channel_number details_no_number df
           [CInt 5; CStr "ch"; CStr "wt"; CStr "F"; CStr "ctl"] Hdf);
    vm_compute in Hdf; injection Hdf as <-.
  - simpl. auto.
  - vm_compute. reflexivity.
Defined.

(** C8, as stated, fails: a Channel entry without the prefix "ch" is
    accepted; when a monitor log has an unparseable date the run aborts
    after the metadata table is written; and a line of a log without a
    date is left out without an error. *)
Lemma malformed_input_tolerated :
  parse_details details_no_prefix
  = Ok [ mkFly 5 1 "M5_Ch01" (CStr "wt") (CStr "M") (CStr "ctl");
         mkFly 5 3 "M5_Ch03" (CStr "wt") (CStr "F") (CStr "ctl") ]
  /\ main ex_details log_bad_date ex_log6
     = ( mkOutputs
           (Some [ mkFly 5 1 "M5_Ch01" (CStr "wt") (CStr "M") (CStr "ctl");
                   mkFly 6 2 "M6_Ch02" (CStr "wt") (CStr "F") (CStr "ctl") ])
           None,
         Raise ValueError )
  /\ parse_monitor_file log_missing_date 5 = Ok [mkTS (Some 1704067200) 5 1 5 0 0].
Proof.
  split; [| split]; vm_compute; reflexivity.
Qed.

(** * The records of a monitor log *)



















